(** * DuoFern USB stick: wire-frame codec, byte-stream framer and handshake

    A shallow embedding of [custom_components/duofern/protocol.py],
    [stick.py], [coordinator.py], the entity of [cover.py] and the
    constants of [const.py], followed by the properties the specification
    states about them and by further properties of the code.

    Conventions of the embedding.
    - A Python [bytes]/[bytearray] is a [list Z]; every write of an integer
      into a [bytearray] goes through [Py.setitem], which raises
      [ValueError] outside [0, 256) and [IndexError] outside the buffer, as
      CPython does.
    - A Python exception is the [Raise] branch of [Py.result]; code that
      mutates an object threads the object through a state-and-exception
      monad.
    - [asyncio] scheduling is not modelled.  What the event loop decides
      (whether a reply frame arrives before a timeout, which callback or
      task runs next) is an explicit oracle in the state or an event, and
      every effect on the outside world (a transport write, a callback
      invocation) is appended to a trace. *)

From Stdlib Require Import ZArith Lia.
From stdpp Require Import base numbers list strings pretty relations gmap.

(* ===================================================================== *)
(** * Constants ([const.py])                                              *)
(* ===================================================================== *)

Module Const.

Definition FRAME_SIZE_HEX : nat := 44.
Definition FRAME_SIZE_BYTES : nat := 22.
Definition INIT_RETRY_COUNT : nat := 4.

(** Device types that are roller shutters / covers. *)
Definition COVER_DEVICE_TYPES : list Z :=
  [0x40; 0x41; 0x42; 0x47; 0x49; 0x4B; 0x4C; 0x4E; 0x61; 0x70]%Z.

End Const.

(* ===================================================================== *)
(** * The Python primitives the program relies on                         *)
(* ===================================================================== *)

Module Py.

Inductive exn : Type :=
| ValueError
| TypeError
| IndexError
| ConnectionError
| SerialException.

Inductive result (A : Type) : Type :=
| Ok (a : A)
| Raise (e : exn).
Arguments Ok {A} a.
Arguments Raise {A} e.

Definition bind {A B} (m : result A) (k : A → result B) : result B :=
  match m with
  | Ok a => k a
  | Raise e => Raise e
  end.

Definition is_ok {A} (m : result A) : bool :=
  match m with Ok _ => true | Raise _ => false end.

Abbreviation bytearray := (list Z).

(** [bytearray(n)]: [n] zero bytes. *)
Definition zeros (n : nat) : bytearray := replicate n 0%Z.

Definition byte_ok (v : Z) : bool := ((0 <=? v) && (v <? 256))%Z.

(** [b[i]] for a non-negative index. *)
Definition getitem (b : bytearray) (i : nat) : result Z :=
  match b !! i with
  | Some v => Ok v
  | None => Raise IndexError
  end.

(** [b[i] = v] for a non-negative index: the value must be a byte and the
    index inside the buffer. *)
Definition setitem (b : bytearray) (i : nat) (v : Z) : result bytearray :=
  if (i <? length b)%nat
  then if byte_ok v then Ok (<[i:=v]> b) else Raise ValueError
  else Raise IndexError.

(** [b[lo:hi]] for [0 <= lo <= hi]: clipped to the buffer, never raises. *)
Definition getslice (b : bytearray) (lo hi : nat) : bytearray :=
  take (hi - lo) (drop lo b).

(** [b[lo:hi] = v] for [0 <= lo <= hi] and [v] a [bytes] object: the
    slice is replaced by [v], whatever the length of [v]. *)
Definition setslice (b : bytearray) (lo hi : nat) (v : bytearray)
  : bytearray :=
  take lo b ++ v ++ drop hi b.

(** [_PyLong_DigitValue] restricted to hexadecimal digits. *)
Definition hex_digit (c : Ascii.ascii) : option Z :=
  let n := Z.of_N (Ascii.N_of_ascii c) in
  if ((48 <=? n) && (n <=? 57))%Z then Some (n - 48)%Z
  else if ((65 <=? n) && (n <=? 70))%Z then Some (n - 55)%Z
  else if ((97 <=? n) && (n <=? 102))%Z then Some (n - 87)%Z
  else None.

(** [Py_ISSPACE]: space, [\t], [\n], [\v], [\f], [\r]. *)
Definition is_space (c : Ascii.ascii) : bool :=
  let n := Z.of_N (Ascii.N_of_ascii c) in
  ((n =? 32) || ((9 <=? n) && (n <=? 13)))%Z.

(** [bytes.fromhex(s)] / [bytearray.fromhex(s)]: two hexadecimal digits
    per byte; ASCII whitespace between bytes is skipped; anything else
    raises [ValueError]. *)
Fixpoint fromhex (s : string) : result bytearray :=
  match s with
  | EmptyString => Ok []
  | String c rest =>
      if is_space c then fromhex rest
      else
        match hex_digit c with
        | None => Raise ValueError
        | Some top =>
            match rest with
            | EmptyString => Raise ValueError
            | String d rest' =>
                match hex_digit d with
                | None => Raise ValueError
                | Some bot =>
                    bind (fromhex rest')
                         (λ bs, Ok ((top * 16 + bot)%Z :: bs))
                end
            end
        end
  end.

(** [bool(n)] for an integer. *)
Definition truthy (n : Z) : bool := negb (n =? 0)%Z.

End Py.

Export Py(result, Ok, Raise, bytearray).

Declare Scope py_scope.
Delimit Scope py_scope with py.
Notation "'let*' x ':=' m 'in' k" := (Py.bind m (λ x, k))
  (at level 10, x name, m at level 100, k at level 200) : py_scope.
Open Scope py_scope.

(* ===================================================================== *)
(** * The wire-frame codec ([protocol.py])                                *)
(* ===================================================================== *)

Module Protocol.
Import Const.

(** ** Data classes *)

(** A 3-byte identifier.  [DuoFernId_new] is the dataclass constructor
    with its [__post_init__] check; the record alone carries no
    invariant. *)
Record DuoFernId : Type := MkDuoFernId { raw : bytearray }.

Definition DuoFernId_new (r : bytearray) : result DuoFernId :=
  if negb (length r =? 3)%nat then Raise Py.ValueError
  else Ok (MkDuoFernId r).

Definition from_hex (hex_str : string) : result DuoFernId :=
  if negb (String.length hex_str =? 6)%nat then Raise Py.ValueError
  else let* r := Py.fromhex hex_str in DuoFernId_new r.

Definition is_cover (d : DuoFernId) : result bool :=
  let* t := Py.getitem (raw d) 0 in
  Ok (bool_decide (t ∈ COVER_DEVICE_TYPES)).

Record DeviceStatus : Type := MkDeviceStatus {
  position : option Z;
  moving : string;
  time_automatic : option bool;
  sun_automatic : option bool;
  dawn_automatic : option bool;
  dusk_automatic : option bool;
  manual_mode : option bool;
  ventilating_mode : option bool;
  sun_mode : option bool;
  sun_position : option Z;
  ventilating_position : option Z;
  version : option string
}.

(** [DeviceStatus()] with the dataclass defaults. *)
Definition DeviceStatus_default : DeviceStatus :=
  {| position := None; moving := "stop";
     time_automatic := None; sun_automatic := None;
     dawn_automatic := None; dusk_automatic := None;
     manual_mode := None; ventilating_mode := None; sun_mode := None;
     sun_position := None; ventilating_position := None;
     version := None |}.

(** ** Enums *)

Inductive CoverCommand : Type := UP | STOP | DOWN | POSITION | TOGGLE.

Definition CoverCommand_value (c : CoverCommand) : Z :=
  match c with
  | UP => 0x0701
  | STOP => 0x0702
  | DOWN => 0x0703
  | POSITION => 0x0707
  | TOGGLE => 0x071A
  end%Z.

Module MessageType.
Definition INIT1 : Z := 0x01.
Definition SET_PAIRS : Z := 0x03.
Definition START_PAIR : Z := 0x04.
Definition STOP_PAIR : Z := 0x05.
Definition PAIR_RESPONSE : Z := 0x06.
Definition START_UNPAIR : Z := 0x07.
Definition STOP_UNPAIR : Z := 0x08.
Definition SET_DONGLE : Z := 0x0A.
Definition COMMAND : Z := 0x0D.
Definition INIT2 : Z := 0x0E.
Definition STATUS : Z := 0x0F.
Definition INIT_END : Z := 0x10.
Definition INIT3 : Z := 0x14.
Definition ACK : Z := 0x81.
End MessageType.

(** ** Encoder *)

Definition _frame : bytearray := Py.zeros FRAME_SIZE_BYTES.

Definition build_init1 : result bytearray :=
  Py.setitem _frame 0 0x01.

Definition build_init2 : result bytearray :=
  Py.setitem _frame 0 0x0E.

Definition build_set_dongle (system_code : DuoFernId) : result bytearray :=
  let* frame := Py.setitem _frame 0 0x0A in
  let frame := Py.setslice frame 1 4 (raw system_code) in
  let* frame := Py.setitem frame 4 0x00 in
  Py.setitem frame 5 0x01.

Definition build_init3 : result bytearray :=
  let* frame := Py.setitem _frame 0 0x14 in
  Py.setitem frame 1 0x14.

Definition build_set_pair (index : Z) (device_code : DuoFernId)
  : result bytearray :=
  let* frame := Py.setitem _frame 0 0x03 in
  let* frame := Py.setitem frame 1 (Z.land index 0xFF) in
  Ok (Py.setslice frame 2 5 (raw device_code)).

Definition build_init_end : result bytearray :=
  let* frame := Py.setitem _frame 0 0x10 in
  Py.setitem frame 1 0x01.

Definition build_ack : result bytearray :=
  Py.setitem _frame 0 0x81.

Definition build_status_request_broadcast : result bytearray :=
  let* frame := Py.setitem _frame 0 0x0D in
  let* frame := Py.setitem frame 1 0xFF in
  let* frame := Py.setitem frame 2 0x0F in
  let* frame := Py.setitem frame 3 0x40 in
  let* frame := Py.setitem frame 18 0xFF in
  let* frame := Py.setitem frame 19 0xFF in
  let* frame := Py.setitem frame 20 0xFF in
  Py.setitem frame 21 0x01.

(** [system_code] is accepted and ignored, as in the source. *)
Definition build_status_request (device_code system_code : DuoFernId)
    (status_type : Z) : result bytearray :=
  let* frame := Py.setitem _frame 0 0x0D in
  let* frame := Py.setitem frame 1 0xFF in
  let* frame := Py.setitem frame 2 status_type in
  let* frame := Py.setitem frame 3 0x40 in
  let frame := Py.setslice frame 18 21 (raw device_code) in
  Py.setitem frame 21 0x01.

Definition default_status_type : Z := 0x0F.
Definition default_channel : Z := 0x01.

(** The warning logged for a POSITION command without a position is not
    part of the returned frame and is left out. *)
Definition build_cover_command (command : CoverCommand)
    (device_code system_code : DuoFernId) (position : option Z)
    (timer : bool) (channel : Z) : result bytearray :=
  let* frame := Py.setitem _frame 0 0x0D in
  let* frame := Py.setitem frame 1 channel in
  let cmd_high := Z.land (Z.shiftr (CoverCommand_value command) 8) 0xFF in
  let cmd_low := Z.land (CoverCommand_value command) 0xFF in
  let* frame := Py.setitem frame 2 cmd_high in
  let* frame := Py.setitem frame 3 cmd_low in
  let timer_byte := (if timer then 0x01 else 0x00)%Z in
  let* frame :=
    match command with
    | UP | DOWN => Py.setitem frame 4 timer_byte
    | POSITION =>
        let* frame := Py.setitem frame 4 timer_byte in
        match position with
        | Some position =>
            let clamped := Z.max 0 (Z.min 100 position) in
            Py.setitem frame 5 clamped
        | None => Py.setitem frame 5 0
        end
    | STOP | TOGGLE => Ok frame
    end in
  let* frame := Py.setitem frame 12 0x00 in
  let* frame := Py.setitem frame 13 0x00 in
  let* frame := Py.setitem frame 14 0x00 in
  let frame := Py.setslice frame 15 18 (raw system_code) in
  let frame := Py.setslice frame 18 21 (raw device_code) in
  Py.setitem frame 21 0x00.

Definition build_start_pair : result bytearray :=
  Py.setitem _frame 0 0x04.

Definition build_stop_pair : result bytearray :=
  Py.setitem _frame 0 0x05.

Definition build_start_unpair : result bytearray :=
  Py.setitem _frame 0 0x07.

Definition build_stop_unpair : result bytearray :=
  Py.setitem _frame 0 0x08.

(** ** Decoder *)

(** What a decoder entry point can be handed: [bytes | bytearray | str],
    or any other object. *)
Inductive data : Type :=
| Bytes (b : bytearray)
| Str (s : string)
| Other.

Definition _ensure_bytes (d : data) : result bytearray :=
  match d with
  | Str s =>
      if negb (String.length s =? FRAME_SIZE_HEX)%nat
      then Raise Py.ValueError
      else Py.fromhex s
  | Bytes b =>
      if negb (length b =? FRAME_SIZE_BYTES)%nat
      then Raise Py.ValueError
      else Ok b
  | Other => Raise Py.TypeError
  end.

(** [frame[i] == v] *)
Definition byte_is (frame : bytearray) (i : nat) (v : Z) : result bool :=
  let* b := Py.getitem frame i in Ok (b =? v)%Z.

(** Python's short-circuit [a and b] on comparisons that may raise. *)
Definition and_then (a b : result bool) : result bool :=
  let* x := a in if x then b else Ok false.

Definition is_ack (d : data) : result bool :=
  let* frame := _ensure_bytes d in
  byte_is frame 0 MessageType.ACK.

Definition extract_device_code (d : data) : result DuoFernId :=
  let* frame := _ensure_bytes d in
  let* ack := byte_is frame 0 MessageType.ACK in
  if ack then DuoFernId_new (Py.getslice frame 18 21)
  else DuoFernId_new (Py.getslice frame 15 18).

Definition extract_device_code_from_status (d : data) : result DuoFernId :=
  let* frame := _ensure_bytes d in
  DuoFernId_new (Py.getslice frame 15 18).

Definition is_status_response (d : data) : result bool :=
  let* frame := _ensure_bytes d in
  and_then (byte_is frame 0 0x0F)
    (and_then (byte_is frame 1 0xFF) (byte_is frame 2 0x0F)).

Definition is_pair_response (d : data) : result bool :=
  let* frame := _ensure_bytes d in
  and_then (byte_is frame 0 0x06) (byte_is frame 1 0x02).

Definition is_unpair_response (d : data) : result bool :=
  let* frame := _ensure_bytes d in
  and_then (byte_is frame 0 0x06) (byte_is frame 1 0x03).

Definition is_broadcast_status_ack (d : data) : result bool :=
  let* frame := _ensure_bytes d in
  and_then (byte_is frame 0 0x0F)
    (and_then (byte_is frame 1 0xFF) (byte_is frame 2 0x11)).

(** The two local helpers of [parse_status_type40]. *)
Definition read_word (frame : bytearray) (pos : nat) : result Z :=
  let byte_offset := (3 + pos)%nat in
  if (FRAME_SIZE_BYTES <=? byte_offset + 1)%nat then Ok 0%Z
  else
    let* hi := Py.getitem frame byte_offset in
    let* lo := Py.getitem frame (byte_offset + 1) in
    Ok (Z.lor (Z.shiftl hi 8) lo).

(** Only called with [0 <= from_bit <= to_bit], where Python's shifts do
    not raise. *)
Definition extract_bits (word from_bit to_bit : Z) : Z :=
  let length := (to_bit - from_bit + 1)%Z in
  Z.land (Z.shiftr word from_bit) (Z.shiftl 1 length - 1).

(** Attribute assignments [status.f = v]. *)
Definition set_version v (s : DeviceStatus) : DeviceStatus :=
  let '(MkDeviceStatus a b c d e f g h i j k _) := s in
  MkDeviceStatus a b c d e f g h i j k v.
Definition set_position v (s : DeviceStatus) : DeviceStatus :=
  let '(MkDeviceStatus _ b c d e f g h i j k l) := s in
  MkDeviceStatus v b c d e f g h i j k l.
Definition set_moving v (s : DeviceStatus) : DeviceStatus :=
  let '(MkDeviceStatus a _ c d e f g h i j k l) := s in
  MkDeviceStatus a v c d e f g h i j k l.
Definition set_time_automatic v (s : DeviceStatus) : DeviceStatus :=
  let '(MkDeviceStatus a b _ d e f g h i j k l) := s in
  MkDeviceStatus a b v d e f g h i j k l.
Definition set_sun_automatic v (s : DeviceStatus) : DeviceStatus :=
  let '(MkDeviceStatus a b c _ e f g h i j k l) := s in
  MkDeviceStatus a b c v e f g h i j k l.
Definition set_dawn_automatic v (s : DeviceStatus) : DeviceStatus :=
  let '(MkDeviceStatus a b c d _ f g h i j k l) := s in
  MkDeviceStatus a b c d v f g h i j k l.
Definition set_dusk_automatic v (s : DeviceStatus) : DeviceStatus :=
  let '(MkDeviceStatus a b c d e _ g h i j k l) := s in
  MkDeviceStatus a b c d e v g h i j k l.
Definition set_manual_mode v (s : DeviceStatus) : DeviceStatus :=
  let '(MkDeviceStatus a b c d e f _ h i j k l) := s in
  MkDeviceStatus a b c d e f v h i j k l.
Definition set_ventilating_mode v (s : DeviceStatus) : DeviceStatus :=
  let '(MkDeviceStatus a b c d e f g _ i j k l) := s in
  MkDeviceStatus a b c d e f g v i j k l.
Definition set_sun_mode v (s : DeviceStatus) : DeviceStatus :=
  let '(MkDeviceStatus a b c d e f g h _ j k l) := s in
  MkDeviceStatus a b c d e f g h v j k l.
Definition set_sun_position v (s : DeviceStatus) : DeviceStatus :=
  let '(MkDeviceStatus a b c d e f g h i _ k l) := s in
  MkDeviceStatus a b c d e f g h i v k l.
Definition set_ventilating_position v (s : DeviceStatus) : DeviceStatus :=
  let '(MkDeviceStatus a b c d e f g h i j _ l) := s in
  MkDeviceStatus a b c d e f g h i j v l.

(** [f"{(ver_byte >> 4) & 0x0F}.{ver_byte & 0x0F}"] *)
Definition format_version (ver_byte : Z) : string :=
  pretty (Z.land (Z.shiftr ver_byte 4) 0x0F) +:+ "." +:+
  pretty (Z.land ver_byte 0x0F).

Definition parse_status_type40 (d : data) : result DeviceStatus :=
  let* frame := _ensure_bytes d in
  let status := DeviceStatus_default in
  let* is_status := is_status_response (Bytes frame) in
  if negb is_status then Ok status
  else
    let* ver_byte := Py.getitem frame 12 in
    let status := set_version (Some (format_version ver_byte)) status in
    let* word7 := read_word frame 7 in
    let raw_position := extract_bits word7 0 6 in
    let status := set_position (Some raw_position) status in
    let* word0 := read_word frame 0 in
    let moving_bit := extract_bits word0 0 0 in
    let status := set_moving "stop" status in
    let status :=
      set_time_automatic (Some (Py.truthy (extract_bits word0 0 0))) status in
    let status :=
      set_sun_automatic (Some (Py.truthy (extract_bits word0 2 2))) status in
    let status :=
      set_dusk_automatic (Some (Py.truthy (extract_bits word0 3 3))) status in
    let status :=
      set_manual_mode (Some (Py.truthy (extract_bits word0 7 7))) status in
    let* word1 := read_word frame 1 in
    let status :=
      set_dawn_automatic (Some (Py.truthy (extract_bits word1 3 3))) status in
    let* word2 := read_word frame 2 in
    let raw_vent := extract_bits word2 0 6 in
    let status := set_ventilating_position (Some raw_vent) status in
    let status :=
      set_ventilating_mode (Some (Py.truthy (extract_bits word2 7 7))) status in
    let* word6 := read_word frame 6 in
    let raw_sun_pos := extract_bits word6 0 6 in
    let status := set_sun_position (Some raw_sun_pos) status in
    let status :=
      set_sun_mode (Some (Py.truthy (extract_bits word6 7 7))) status in
    Ok status.

Definition parse_status (d : data) : result DeviceStatus :=
  let* frame := _ensure_bytes d in
  let* device_code := extract_device_code_from_status (Bytes frame) in
  let* cover := is_cover device_code in
  if cover then parse_status_type40 (Bytes frame)
  else Ok DeviceStatus_default.

Definition should_dispatch (d : data) : result bool :=
  let* frame := _ensure_bytes d in
  let* ack := byte_is frame 0 0x81 in
  if ack then Ok false
  else
    let* bsa :=
      and_then (byte_is frame 0 0x0F)
        (and_then (byte_is frame 1 0xFF) (byte_is frame 2 0x11)) in
    if bsa then Ok false else Ok true.

End Protocol.

(* ===================================================================== *)
(** * The byte-stream framer and the stick ([stick.py])                   *)
(* ===================================================================== *)

Module Stick.
Import Const Protocol.

(** ** [DuoFernSerialProtocol]: bytes in, 22-byte frames out *)

(** A timer scheduled with [loop.call_later]: still pending, or already
    run. *)
Inductive TimerHandle : Type := Armed | Fired.

(** An [asyncio.Future]: pending ([None]) or done with a result. *)
Abbreviation Future := (option bytearray).

Record DuoFernSerialProtocol : Type := MkSerialProtocol {
  _buffer : bytearray;
  _flush_handle : option TimerHandle;
  _init_response_future : option Future
}.

Definition DuoFernSerialProtocol_init : DuoFernSerialProtocol :=
  {| _buffer := []; _flush_handle := None; _init_response_future := None |}.

Definition set_buffer (b : bytearray) (p : DuoFernSerialProtocol) :=
  {| _buffer := b; _flush_handle := _flush_handle p;
     _init_response_future := _init_response_future p |}.

Definition set_flush_handle (h : option TimerHandle)
    (p : DuoFernSerialProtocol) :=
  {| _buffer := _buffer p; _flush_handle := h;
     _init_response_future := _init_response_future p |}.

Definition set_init_response_future (future : option Future)
    (p : DuoFernSerialProtocol) :=
  {| _buffer := _buffer p; _flush_handle := _flush_handle p;
     _init_response_future := future |}.

(** Where a completed frame goes: into the handshake's pending future, or
    to [_frame_callback]. *)
Inductive delivery : Type :=
| ToFuture (frame : bytearray)
| ToCallback (frame : bytearray).

Definition delivered_frame (d : delivery) : bytearray :=
  match d with ToFuture f | ToCallback f => f end.

(** The body of the loop after slicing: the frame goes to the handshake's
    future if one is installed and not done, to the callback otherwise. *)
Definition deliver (frame : bytearray) (p : DuoFernSerialProtocol)
  : DuoFernSerialProtocol * delivery :=
  match _init_response_future p with
  | Some None =>
      (set_init_response_future (Some (Some frame)) p, ToFuture frame)
  | _ => (p, ToCallback frame)
  end.

(** The [while len(self._buffer) >= FRAME_SIZE_BYTES] loop.  Every
    iteration removes 22 bytes, so the length of the buffer is enough
    fuel (see [extract_frames_drained]). *)
Fixpoint extract_frames (fuel : nat) (p : DuoFernSerialProtocol)
  : DuoFernSerialProtocol * list delivery :=
  match fuel with
  | O => (p, [])
  | S fuel =>
      if (FRAME_SIZE_BYTES <=? length (_buffer p))%nat then
        let frame := Py.getslice (_buffer p) 0 FRAME_SIZE_BYTES in
        let p := set_buffer (drop FRAME_SIZE_BYTES (_buffer p)) p in
        let '(p, d) := deliver frame p in
        let '(p, ds) := extract_frames fuel p in
        (p, d :: ds)
      else (p, [])
  end.

Definition data_received (p : DuoFernSerialProtocol) (data : bytearray)
  : DuoFernSerialProtocol * list delivery :=
  let p :=
    match _flush_handle p with
    | Some _ => set_flush_handle None p
    | None => p
    end in
  let p := set_buffer (_buffer p ++ data) p in
  let '(p, ds) := extract_frames (length (_buffer p)) p in
  let p :=
    if (0 <? length (_buffer p))%nat
    then set_flush_handle (Some Armed) p
    else p in
  (p, ds).

Definition _flush_buffer (p : DuoFernSerialProtocol)
  : DuoFernSerialProtocol :=
  match _buffer p with
  | [] => p
  | _ :: _ => set_buffer [] p
  end.

(** The event loop reaching the flush deadline: the scheduled callback
    runs if the timer was not cancelled in the meantime. *)
Definition deadline_expired (p : DuoFernSerialProtocol)
  : DuoFernSerialProtocol :=
  match _flush_handle p with
  | Some Armed => _flush_buffer (set_flush_handle (Some Fired) p)
  | _ => p
  end.

(** What happens to a protocol object over time: the serial line
    delivers a chunk, the line stays silent past the flush deadline, or
    the stick installs or removes a handshake future. *)
Inductive event : Type :=
| Chunk (data : bytearray)
| Silence
| Install (future : option Future).

Definition step (p : DuoFernSerialProtocol) (e : event)
  : DuoFernSerialProtocol * list delivery :=
  match e with
  | Chunk data => data_received p data
  | Silence => (deadline_expired p, [])
  | Install future => (set_init_response_future future p, [])
  end.

Fixpoint run (p : DuoFernSerialProtocol) (es : list event)
  : DuoFernSerialProtocol * list delivery :=
  match es with
  | [] => (p, [])
  | e :: es =>
      let '(p, ds) := step p e in
      let '(p, ds') := run p es in
      (p, ds ++ ds')
  end.

(** The bytes an event sequence carries, in arrival order. *)
Definition stream (es : list event) : bytearray :=
  concat ((λ e, match e with Chunk data => data | _ => [] end) <$> es).

(** ** [DuoFernStick] *)

Inductive Transport : Type := SerialTransport.

(** The attributes the modelled methods read or write.
    [_cmd_in_flight] and [_closing] belong to [_process_send_queue] and
    [disconnect] and are left to the module [SendQueue]. *)
Record DuoFernStick : Type := MkStick {
  _system_code : DuoFernId;
  _paired_devices : list DuoFernId;
  _transport : option Transport;
  _serial_protocol : option DuoFernSerialProtocol;
  _send_queue : list bytearray;
  _ack_event : bool;
  _queue_task : bool;
  _connected : bool;
  _initialized : bool
}.

(** [DuoFernStick.__init__] *)
Definition DuoFernStick_init (system_code : DuoFernId)
    (paired_devices : list DuoFernId) : DuoFernStick :=
  {| _system_code := system_code; _paired_devices := paired_devices;
     _transport := None; _serial_protocol := None;
     _send_queue := []; _ack_event := false; _queue_task := false;
     _connected := false; _initialized := false |}.

Definition set_transport v (s : DuoFernStick) : DuoFernStick :=
  let '(MkStick a b _ d e f g h i) := s in MkStick a b v d e f g h i.
Definition set_serial_protocol v (s : DuoFernStick) : DuoFernStick :=
  let '(MkStick a b c _ e f g h i) := s in MkStick a b c v e f g h i.
Definition set_send_queue v (s : DuoFernStick) : DuoFernStick :=
  let '(MkStick a b c d _ f g h i) := s in MkStick a b c d v f g h i.
Definition set_ack_event v (s : DuoFernStick) : DuoFernStick :=
  let '(MkStick a b c d e _ g h i) := s in MkStick a b c d e v g h i.
Definition set_queue_task v (s : DuoFernStick) : DuoFernStick :=
  let '(MkStick a b c d e f _ h i) := s in MkStick a b c d e f v h i.
Definition set_connected v (s : DuoFernStick) : DuoFernStick :=
  let '(MkStick a b c d e f g _ i) := s in MkStick a b c d e f g v i.
Definition set_initialized v (s : DuoFernStick) : DuoFernStick :=
  let '(MkStick a b c d e f g h _) := s in MkStick a b c d e f g h v.

(** [connected] property *)
Definition connected (s : DuoFernStick) : bool :=
  _connected s && _initialized s.

(** What the stick does to the outside world, in order. *)
Inductive effect : Type :=
| Tx (frame : bytearray)          (* [self._transport.write(bytes(frame))] *)
| Message (frame : bytearray).    (* [self._message_callback(frame)] *)

(** The outside world: whether the serial port can be opened, the outcome
    of each successive [asyncio.wait_for(response_future, timeout)]
    ([Some frame]: a reply arrived in time; [None]: it timed out; an
    exhausted list: nothing arrives any more), and the effects so far. *)
Record World : Type := MkWorld {
  port_opens : bool;
  replies : list (option bytearray);
  trace : list effect
}.

Definition state : Type := DuoFernStick * World.

(** State and exception monad: an exception leaves the mutations made
    before it in place. *)
Definition M (A : Type) : Type := state → result A * state.

Definition ret {A} (a : A) : M A := λ st, (Ok a, st).
Definition raise {A} (e : Py.exn) : M A := λ st, (Raise e, st).
Definition bind {A B} (m : M A) (k : A → M B) : M B :=
  λ st, match m st with
        | (Ok a, st') => k a st'
        | (Raise e, st') => (Raise e, st')
        end.
Definition lift {A} (r : result A) : M A := λ st, (r, st).
Definition self : M DuoFernStick := λ st, (Ok (fst st), st).
Definition update (f : DuoFernStick → DuoFernStick) : M unit :=
  λ st, (Ok tt, (f (fst st), snd st)).
Definition emit (e : effect) : M unit :=
  λ '(s, w), (Ok tt, (s, MkWorld (port_opens w) (replies w) (trace w ++ [e]))).
Definition open_port : M bool := λ st, (Ok (port_opens (snd st)), st).
Definition wait_for_response : M (option bytearray) :=
  λ '(s, w),
    match replies w with
    | [] => (Ok None, (s, w))
    | r :: rs => (Ok r, (s, MkWorld (port_opens w) rs (trace w)))
    end.

Declare Scope stick_scope.
Delimit Scope stick_scope with stick.
Notation "'let*' x ':=' m 'in' k" := (bind m (λ x, k))
  (at level 10, x name, m at level 100, k at level 200) : stick_scope.
Local Open Scope stick_scope.

(** *** Frame I/O *)

Definition _write_frame (frame : bytearray) : M unit :=
  let* s := self in
  match _transport s with
  | None => ret tt
  | Some _ => emit (Tx frame)
  end.

(** The message callback is consumer code: its call is recorded as an
    effect, and whatever it raises is caught and logged by the source. *)
Definition _on_frame_received (frame : bytearray) : M unit :=
  let* is_ack := lift (is_ack (Bytes frame)) in
  let* _ :=
    if negb is_ack
    then let* ack := lift build_ack in _write_frame ack
    else ret tt in
  if is_ack then update (set_ack_event true)
  else
    let* dispatch := lift (should_dispatch (Bytes frame)) in
    if dispatch then emit (Message frame) else ret tt.

(** *** The send queue's entry point *)

Definition send_command (frame : bytearray) : M unit :=
  let* s := self in
  if negb (_connected s) then raise Py.ConnectionError
  else update (λ s, set_send_queue (_send_queue s ++ [frame]) s).

(** *** Initialization handshake *)

(** [self._serial_protocol.set_init_response_future(future)] *)
Definition install_response_future (future : option Future) : M unit :=
  update (λ s,
    set_serial_protocol
      (set_init_response_future future <$> _serial_protocol s) s).

(** [asyncio.wait_for(response_future, timeout)] is [wait_for_response]:
    the frame the framer put into the future, or [None] for the timeout
    the source catches.  The [finally] clause removes the future either
    way. *)
Definition _send_and_wait (frame : bytearray) : M (option bytearray) :=
  let* s := self in
  match _serial_protocol s with
  | None => ret None
  | Some _ =>
      let* _ := install_response_future (Some None) in
      let* _ := _write_frame frame in
      let* response := wait_for_response in
      let* _ := install_response_future None in
      ret response
  end.

(** How one pass of the [for attempt in range(...)] body ends: with
    [return], or with [continue]. *)
Inductive flow : Type := Return | Continue.

(** [if resp is None: continue] *)
Definition unless_none (resp : option bytearray) (k : M flow) : M flow :=
  match resp with
  | None => ret Continue
  | Some _ => k
  end.

(** Step 5: [for idx, device in enumerate(self._paired_devices)].  Its
    [continue] only skips to the next device. *)
Fixpoint register_paired (idx : nat) (devices : list DuoFernId) : M unit :=
  match devices with
  | [] => ret tt
  | device :: devices =>
      let* frame := lift (build_set_pair (Z.of_nat idx) device) in
      let* resp := _send_and_wait frame in
      let* _ :=
        match resp with
        | None => ret tt
        | Some _ => let* ack := lift build_ack in _write_frame ack
        end in
      register_paired (S idx) devices
  end.

Definition init_attempt : M flow :=
  let* s := self in
  let* frame := lift build_init1 in
  let* resp := _send_and_wait frame in
  unless_none resp (
  let* frame := lift build_init2 in
  let* resp := _send_and_wait frame in
  unless_none resp (
  let* frame := lift (build_set_dongle (_system_code s)) in
  let* resp := _send_and_wait frame in
  unless_none resp (
  let* ack := lift build_ack in
  let* _ := _write_frame ack in
  let* frame := lift build_init3 in
  let* resp := _send_and_wait frame in
  unless_none resp (
  let* ack := lift build_ack in
  let* _ := _write_frame ack in
  let* _ := register_paired 0 (_paired_devices s) in
  let* frame := lift build_init_end in
  let* resp := _send_and_wait frame in
  unless_none resp (
  let* ack := lift build_ack in
  let* _ := _write_frame ack in
  let* frame := lift build_status_request_broadcast in
  let* resp := _send_and_wait frame in
  unless_none resp (
  let* ack := lift build_ack in
  let* _ := _write_frame ack in
  let* _ := update (set_initialized true) in
  ret Return)))))).

(** [for attempt in range(INIT_RETRY_COUNT): ...] followed by the final
    [raise ConnectionError].  [_send_and_wait] turns a timeout into [None]
    itself, so the loop's [except TimeoutError] handler has nothing to
    catch; any other exception leaves the loop. *)
Fixpoint init_attempts (attempts : list nat) : M unit :=
  match attempts with
  | [] => raise Py.ConnectionError
  | _ :: attempts =>
      let* f := init_attempt in
      match f with
      | Return => ret tt
      | Continue => init_attempts attempts
      end
  end.

Definition _init_sequence : M unit :=
  init_attempts (seq 0 INIT_RETRY_COUNT).

Definition connect : M unit :=
  let* opened := open_port in
  if negb opened then raise Py.SerialException
  else
    let* _ :=
      update (λ s,
        set_serial_protocol (Some DuoFernSerialProtocol_init)
          (set_transport (Some SerialTransport) s)) in
    let* _ := update (set_connected true) in
    let* _ := _init_sequence in
    update (set_queue_task true).

End Stick.

(* ===================================================================== *)
(** * Specification-side definitions                                      *)
(* ===================================================================== *)

(** The layout table of the encoder: one entry per message kind, the
    encoder operation that produces it, and the byte positions the table
    assigns. *)
Module EncoderSpec.
Import Protocol.

Inductive message : Type :=
| Init1
| Init2
| SetDongle (system_code : DuoFernId)
| Init3
| SetPair (index : Z) (device_code : DuoFernId)
| InitEnd
| Ack
| StatusRequestBroadcast
| StatusRequest (device_code system_code : DuoFernId) (status_type : Z)
| CoverCmd (command : CoverCommand) (device_code system_code : DuoFernId)
    (position : option Z) (timer : bool) (channel : Z)
| StartPair
| StopPair
| StartUnpair
| StopUnpair.

Definition encode (m : message) : result bytearray :=
  match m with
  | Init1 => build_init1
  | Init2 => build_init2
  | SetDongle sys => build_set_dongle sys
  | Init3 => build_init3
  | SetPair idx dev => build_set_pair idx dev
  | InitEnd => build_init_end
  | Ack => build_ack
  | StatusRequestBroadcast => build_status_request_broadcast
  | StatusRequest dev sys ty => build_status_request dev sys ty
  | CoverCmd cmd dev sys pos timer ch =>
      build_cover_command cmd dev sys pos timer ch
  | StartPair => build_start_pair
  | StopPair => build_stop_pair
  | StartUnpair => build_start_unpair
  | StopUnpair => build_stop_unpair
  end.

(** Byte positions given a value by the layout table. *)
Definition assigned (m : message) : list nat :=
  match m with
  | Init1 | Init2 | Ack | StartPair | StopPair | StartUnpair | StopUnpair =>
      [0]
  | Init3 | InitEnd => [0; 1]
  | SetDongle _ => [0; 1; 2; 3; 4; 5]
  | SetPair _ _ => [0; 1; 2; 3; 4]
  | StatusRequestBroadcast | StatusRequest _ _ _ =>
      [0; 1; 2; 3; 18; 19; 20; 21]
  | CoverCmd cmd _ _ _ _ _ =>
      [0; 1; 2; 3]
      ++ match cmd with UP | DOWN | POSITION => [4] | _ => [] end
      ++ match cmd with POSITION => [5] | _ => [] end
      ++ [12; 13; 14; 15; 16; 17; 18; 19; 20; 21]
  end.

(** The identifiers a message embeds, and its integer arguments that are
    written as a byte without masking or clamping. *)
Definition identifiers (m : message) : list DuoFernId :=
  match m with
  | SetDongle sys => [sys]
  | SetPair _ dev => [dev]
  | StatusRequest dev sys _ => [dev; sys]
  | CoverCmd _ dev sys _ _ _ => [dev; sys]
  | _ => []
  end.

Definition byte_arguments (m : message) : list Z :=
  match m with
  | StatusRequest _ _ ty => [ty]
  | CoverCmd _ _ _ _ _ ch => [ch]
  | _ => []
  end.

End EncoderSpec.

(** The framer as the specification words it: the consecutive [n]-byte
    slices of a byte stream, and what is left over. *)
Module FramerSpec.

Definition slices (n : nat) (stream : bytearray) : list bytearray :=
  (λ i, take n (drop (n * i) stream)) <$> seq 0 (length stream / n).

Definition remainder (n : nat) (stream : bytearray) : bytearray :=
  drop (n * (length stream / n)) stream.

End FramerSpec.

(** The handshake as the specification words it: a flat state machine that
    sends one frame per state and moves on the reply or the timeout. *)
Module HandshakeSpec.
Import Const Protocol Stick.

Inductive hs_state : Type :=
| SendInit1
| SendInit2
| SendSetDongle
| SendInit3
| SendSetPair (idx : nat)
| SendInitEnd
| SendStatusBroadcast
| Ready
| Failed.

(** [attempt] counts the sequences already given up. *)
Record config : Type := MkConfig {
  phase : hs_state;
  attempt : nat;
  pending : list (option bytearray);
  sent : list effect
}.

Section Machine.
Variable system_code : DuoFernId.
Variable paired_devices : list DuoFernId.

Definition pair_or_end (idx : nat) : hs_state :=
  if (idx <? length paired_devices)%nat then SendSetPair idx
  else SendInitEnd.

Definition next (st : hs_state) : hs_state :=
  match st with
  | SendInit1 => SendInit2
  | SendInit2 => SendSetDongle
  | SendSetDongle => SendInit3
  | SendInit3 => pair_or_end 0
  | SendSetPair idx => pair_or_end (S idx)
  | SendInitEnd => SendStatusBroadcast
  | SendStatusBroadcast => Ready
  | Ready => Ready
  | Failed => Failed
  end.

(** The frame a state sends; the terminal states send nothing. *)
Definition request (st : hs_state) : option (result bytearray) :=
  match st with
  | SendInit1 => Some build_init1
  | SendInit2 => Some build_init2
  | SendSetDongle => Some (build_set_dongle system_code)
  | SendInit3 => Some build_init3
  | SendSetPair idx =>
      build_set_pair (Z.of_nat idx) <$> paired_devices !! idx
  | SendInitEnd => Some build_init_end
  | SendStatusBroadcast => Some build_status_request_broadcast
  | Ready | Failed => None
  end.

(** Replies are acknowledged from SetDongle on. *)
Definition acknowledged (st : hs_state) : bool :=
  match st with
  | SendInit1 | SendInit2 => false
  | _ => true
  end.

(** A timeout skips a SetPair registration and restarts everything
    else from SendInit1, up to the retry bound. *)
Definition on_timeout (st : hs_state) (a : nat) : hs_state * nat :=
  match st with
  | SendSetPair idx => (pair_or_end (S idx), a)
  | _ =>
      if (S a <? INIT_RETRY_COUNT)%nat then (SendInit1, S a)
      else (Failed, a)
  end.

(** The outcome of the pending await: the next reply, or a timeout when
    the reply is missing or nothing arrives any more. *)
Definition next_reply (rs : list (option bytearray)) : option bytearray :=
  match rs with
  | [] => None
  | r :: _ => r
  end.

Definition hs_step (c : config) : option config :=
  match request (phase c), build_ack with
  | Some (Ok frame), Ok ack =>
      match next_reply (pending c) with
      | Some _ =>
          Some (MkConfig (next (phase c)) (attempt c) (tail (pending c))
                  (sent c ++ Tx frame ::
                     (if acknowledged (phase c) then [Tx ack] else [])))
      | None =>
          let '(st, a) := on_timeout (phase c) (attempt c) in
          Some (MkConfig st a (tail (pending c)) (sent c ++ [Tx frame]))
      end
  | _, _ => None
  end.

Definition hs_rel (c c' : config) : Prop := hs_step c = Some c'.

(** The stick as [connect] leaves it when it enters [_init_sequence]. *)
Definition handshaking : DuoFernStick :=
  set_connected true
    (set_serial_protocol (Some DuoFernSerialProtocol_init)
       (set_transport (Some SerialTransport)
          (DuoFernStick_init system_code paired_devices))).

(** The machine's view of the outside world. *)
Definition view (st : hs_state) (a : nat) (w : World) : config :=
  MkConfig st a (replies w) (trace w).

End Machine.

End HandshakeSpec.

(* ===================================================================== *)
(** * The rest of the codec ([protocol.py])                               *)
(* ===================================================================== *)

Module ProtocolUtil.
Import Const Protocol.

(** ** Hexadecimal text *)

(** One digit of [bytes.hex()]: [Py_hexdigits[n]], lowercase. *)
Definition hex_char (n : Z) : Ascii.ascii :=
  Ascii.ascii_of_N (Z.to_N (if (n <? 10)%Z then 48 + n else 87 + n)).

(** [bytes.hex()]: for every byte its high and its low nibble. *)
Fixpoint bytes_hex (b : bytearray) : string :=
  match b with
  | [] => EmptyString
  | v :: b =>
      String (hex_char (Z.shiftr v 4))
        (String (hex_char (Z.land v 0x0F)) (bytes_hex b))
  end.

(** [str.upper()] on ASCII text.  It is only applied to the output of
    [bytes.hex()] and to strings [bytes.fromhex] has accepted, which are
    ASCII. *)
Definition upper_char (c : Ascii.ascii) : Ascii.ascii :=
  let n := Ascii.N_of_ascii c in
  if ((97 <=? n) && (n <=? 122))%N then Ascii.ascii_of_N (n - 32) else c.

Fixpoint upper (s : string) : string :=
  match s with
  | EmptyString => EmptyString
  | String c s => String (upper_char c) (upper s)
  end.

(** [str.startswith(prefix)] *)
Fixpoint startswith (s prefix : string) : bool :=
  match prefix with
  | EmptyString => true
  | String c prefix =>
      match s with
      | EmptyString => false
      | String d s => Ascii.eqb c d && startswith s prefix
      end
  end.

(** [DuoFernId.hex] *)
Definition hex (d : DuoFernId) : string := upper (bytes_hex (raw d)).

(** [DuoFernId.device_type] *)
Definition device_type (d : DuoFernId) : result Z := Py.getitem (raw d) 0.

Definition frame_to_hex (frame : bytearray) : string :=
  upper (bytes_hex frame).

Definition hex_to_frame (hex_str : string) : result bytearray :=
  Py.fromhex hex_str.

(** [try: bytes.fromhex(code) except ValueError: return False]; any other
    exception would leave the function. *)
Definition fromhex_succeeds (code : string) : result bool :=
  match Py.fromhex code with
  | Ok _ => Ok true
  | Raise Py.ValueError => Ok false
  | Raise e => Raise e
  end.

Definition validate_system_code (code : string) : result bool :=
  if negb (String.length code =? 6)%nat then Ok false
  else
    let* parsed := fromhex_succeeds code in
    if negb parsed then Ok false
    else Ok (startswith (upper code) "6F").

Definition validate_device_code (code : string) : result bool :=
  if negb (String.length code =? 6)%nat then Ok false
  else
    let* parsed := fromhex_succeeds code in
    if negb parsed then Ok false else Ok true.

(** ** Message kinds *)

(** The values of the [MessageType] enumeration, in declaration order. *)
Definition MessageType_members : list Z :=
  [MessageType.INIT1; MessageType.SET_PAIRS; MessageType.START_PAIR;
   MessageType.STOP_PAIR; MessageType.PAIR_RESPONSE;
   MessageType.START_UNPAIR; MessageType.STOP_UNPAIR;
   MessageType.SET_DONGLE; MessageType.COMMAND; MessageType.INIT2;
   MessageType.STATUS; MessageType.INIT_END; MessageType.INIT3;
   MessageType.ACK].

(** [MessageType(value)]: the member with that value, or [ValueError]. *)
Definition MessageType_of_value (value : Z) : result Z :=
  if bool_decide (value ∈ MessageType_members) then Ok value
  else Raise Py.ValueError.

(** What [classify_message] returns: a member of the enumeration, or the
    plain integer.  Both compare equal to the byte they come from. *)
Inductive classified : Type :=
| Member (value : Z)
| Plain (value : Z).

Definition classified_value (c : classified) : Z :=
  match c with Member v | Plain v => v end.

Definition classify_message (d : data) : result classified :=
  let* frame := _ensure_bytes d in
  let* b0 := Py.getitem frame 0 in
  match MessageType_of_value b0 with
  | Ok m => Ok (Member m)
  | Raise Py.ValueError => Ok (Plain b0)
  | Raise e => Raise e
  end.

End ProtocolUtil.

(** The serial line as the framer sees it: the byte streams between two
    silences. *)
Module LineSpec.
Import Stick.

(** The flush timer is pending exactly when bytes are waiting, and they
    are fewer than one frame. *)
Definition timer_tracks_buffer (p : DuoFernSerialProtocol) : Prop :=
  length (_buffer p) < 22 ∧
  (_flush_handle p = Some Armed ↔ _buffer p ≠ []).

(** [segments es current]: the stream in progress is [current]; a chunk
    extends it, a silence closes it and opens an empty one. *)
Fixpoint segments (es : list event) (current : bytearray)
  : list bytearray :=
  match es with
  | [] => [current]
  | Chunk data :: es => segments es (current ++ data)
  | Silence :: es => current :: segments es []
  | Install _ :: es => segments es current
  end.

(** The stream still in progress after [es]. *)
Fixpoint open_segment (es : list event) (current : bytearray) : bytearray :=
  match es with
  | [] => current
  | Chunk data :: es => open_segment es (current ++ data)
  | Silence :: es => open_segment es []
  | Install _ :: es => open_segment es current
  end.

End LineSpec.


(* ===================================================================== *)
(** * The framer wired to the stick ([stick.py])                          *)
(* ===================================================================== *)

(** [connect] creates the protocol object with
    [DuoFernSerialProtocol(self._on_frame_received)], so [data_received]
    calls the stick's [_on_frame_received] from inside its loop.  The
    protocol object is the one [self._serial_protocol] refers to: every
    mutation of it is written through to the stick. *)
Module Wiring.
Import Const Protocol Stick.
Local Open Scope stick_scope.

Definition put_protocol (p : DuoFernSerialProtocol) : M unit :=
  update (set_serial_protocol (Some p)).

(** The loop of [data_received] with [self._frame_callback(frame)]
    calling the stick. *)
Fixpoint feed_frames (fuel : nat) (p : DuoFernSerialProtocol)
  : M DuoFernSerialProtocol :=
  match fuel with
  | O => ret p
  | S fuel =>
      if (FRAME_SIZE_BYTES <=? length (_buffer p))%nat then
        let frame := Py.getslice (_buffer p) 0 FRAME_SIZE_BYTES in
        let p := set_buffer (drop FRAME_SIZE_BYTES (_buffer p)) p in
        let '(p, d) := deliver frame p in
        let* _ := put_protocol p in
        let* _ :=
          match d with
          | ToFuture _ => ret tt
          | ToCallback frame => _on_frame_received frame
          end in
        feed_frames fuel p
      else ret p
  end.

(** [self._serial_protocol.data_received(data)], as the event loop calls
    it on the protocol object of a stick. *)
Definition serial_data_received (data : bytearray) : M unit :=
  let* s := self in
  match _serial_protocol s with
  | None => ret tt
  | Some p =>
      let p :=
        match _flush_handle p with
        | Some _ => set_flush_handle None p
        | None => p
        end in
      let p := set_buffer (_buffer p ++ data) p in
      let* _ := put_protocol p in
      let* p := feed_frames (length (_buffer p)) p in
      let p :=
        if (0 <? length (_buffer p))%nat
        then set_flush_handle (Some Armed) p
        else p in
      put_protocol p
  end.


End Wiring.

(** What the stick owes each inbound frame. *)
Module InboundSpec.
Import Stick.

Definition ack_frame : bytearray := (0x81 :: replicate 21 0)%Z.

Definition is_ack_frame (frame : bytearray) : bool :=
  match frame with
  | b0 :: _ => (b0 =? 0x81)%Z
  | [] => false
  end.

(** An ACK is answered by nothing; any other frame by one ACK, and then
    handed to the message callback unless it is a broadcast-status-ack. *)
Definition reaction (frame : bytearray) : list effect :=
  match frame with
  | b0 :: b1 :: b2 :: _ =>
      if (b0 =? 0x81)%Z then []
      else
        Tx ack_frame ::
        (if (b0 =? 0x0F)%Z && (b1 =? 0xFF)%Z && (b2 =? 0x11)%Z
         then [] else [Message frame])
  | _ => []
  end.

(** The frames of a chunk that reach the frame callback: all complete
    frames, but the first when a handshake future is pending. *)
Definition callback_frames (future : option Future)
    (frames : list bytearray) : list bytearray :=
  match future, frames with
  | Some None, _ :: frames => frames
  | _, frames => frames
  end.

End InboundSpec.

(* ===================================================================== *)
(** * The coordinator ([coordinator.py])                                  *)
(* ===================================================================== *)

Module Coordinator.
Import Const Protocol ProtocolUtil.

(** [DuoFernDeviceState].  Its [last_seen] is [None] at construction and
    never assigned: it is left out. *)
Record DuoFernDeviceState : Type := MkDeviceState {
  device_code : DuoFernId;
  status : DeviceStatus;
  available : bool
}.

Definition set_status v (d : DuoFernDeviceState) : DuoFernDeviceState :=
  {| device_code := device_code d; status := v; available := available d |}.
Definition set_available v (d : DuoFernDeviceState) : DuoFernDeviceState :=
  {| device_code := device_code d; status := status d; available := v |}.

(** The attributes of [DuoFernCoordinator] its own code uses.  [devices]
    is [self._data.devices], a dict keyed by [device.hex]; [self.data] is
    the same object.  [updates] counts the calls of
    [async_set_updated_data(self._data)], which hands the data to the
    entities. *)
Record DuoFernCoordinator : Type := MkCoordinator {
  _system_code : DuoFernId;
  _paired_devices : list DuoFernId;
  devices : gmap string DuoFernDeviceState;
  _stick : option Stick.DuoFernStick;
  updates : nat
}.

Definition set_devices v (c : DuoFernCoordinator) : DuoFernCoordinator :=
  let '(MkCoordinator a b _ d e) := c in MkCoordinator a b v d e.
Definition set_stick v (c : DuoFernCoordinator) : DuoFernCoordinator :=
  let '(MkCoordinator a b c _ e) := c in MkCoordinator a b c v e.
Definition set_updates v (c : DuoFernCoordinator) : DuoFernCoordinator :=
  let '(MkCoordinator a b c d _) := c in MkCoordinator a b c d v.

(** [DuoFernCoordinator.__init__]: one default state per paired device,
    a later device with the same key replacing an earlier one. *)
Definition DuoFernCoordinator_init (system_code : DuoFernId)
    (paired_devices : list DuoFernId) : DuoFernCoordinator :=
  {| _system_code := system_code;
     _paired_devices := paired_devices;
     devices :=
       foldl (λ data device,
                <[hex device :=
                    MkDeviceState device DeviceStatus_default true]> data)
             ∅ paired_devices;
     _stick := None;
     updates := 0 |}.

(** The coordinator and the world of its stick, threaded through the
    methods; an exception leaves the mutations made before it in place. *)
Definition state : Type := DuoFernCoordinator * Stick.World.
Definition M (A : Type) : Type := state → result A * state.

Definition ret {A} (a : A) : M A := λ st, (Ok a, st).
Definition bind {A B} (m : M A) (k : A → M B) : M B :=
  λ st, match m st with
        | (Ok a, st') => k a st'
        | (Raise e, st') => (Raise e, st')
        end.
Definition lift {A} (r : result A) : M A := λ st, (r, st).
Definition self : M DuoFernCoordinator := λ st, (Ok (fst st), st).
Definition update (f : DuoFernCoordinator → DuoFernCoordinator) : M unit :=
  λ st, (Ok tt, (f (fst st), snd st)).

(** [try: body except Exception: log]. *)
Definition logging_exceptions (body : M unit) : M unit :=
  λ st, match body st with
        | (Ok a, st') => (Ok a, st')
        | (Raise _, st') => (Ok tt, st')
        end.

Declare Scope coordinator_scope.
Delimit Scope coordinator_scope with coordinator.
Notation "'let*' x ':=' m 'in' k" := (bind m (λ x, k))
  (at level 10, x name, m at level 100, k at level 200)
  : coordinator_scope.
Local Open Scope coordinator_scope.

Definition async_set_updated_data : M unit :=
  update (λ c, set_updates (S (updates c)) c).

(** A method of the stick called on [self._stick]. *)
Definition on_stick {A} (s : Stick.DuoFernStick) (m : Stick.M A) : M A :=
  λ '(c, w),
    let '(r, (s, w)) := m (s, w) in
    (r, (set_stick (Some s) c, w)).

(** ** Internal *)

Definition _send (frame : bytearray) : M unit :=
  let* c := self in
  match _stick c with
  | None => ret tt
  | Some s =>
      if negb (Stick.connected s) then ret tt
      else on_stick s (Stick.send_command frame)
  end.

(** [if state:] holds for every state object found. *)
Definition _update_moving_state (device_code : DuoFernId)
    (direction : string) : M unit :=
  let* c := self in
  match devices c !! hex device_code with
  | None => ret tt
  | Some state =>
      let state := set_status (set_moving direction (status state)) state in
      let* _ := update (set_devices (<[hex device_code := state]> (devices c))) in
      async_set_updated_data
  end.

Definition _handle_status (frame : bytearray) : M unit :=
  let* device_code := lift (extract_device_code_from_status (Bytes frame)) in
  let hex_code := hex device_code in
  let* c := self in
  match devices c !! hex_code with
  | None => ret tt
  | Some state =>
      let* status := lift (parse_status (Bytes frame)) in
      let state := set_available true (set_status status state) in
      let* _ := update (set_devices (<[hex_code := state]> (devices c))) in
      async_set_updated_data
  end.

(** The branches for pair and unpair responses and for other frames only
    log; what they evaluate for the log can still raise. *)
Definition _on_message (frame : bytearray) : M unit :=
  logging_exceptions (
    let* is_status := lift (is_status_response (Bytes frame)) in
    if is_status then _handle_status frame
    else
      let* is_pair := lift (is_pair_response (Bytes frame)) in
      if is_pair then
        let* _ := lift (extract_device_code (Bytes frame)) in ret tt
      else
        let* is_unpair := lift (is_unpair_response (Bytes frame)) in
        if is_unpair then
          let* _ := lift (extract_device_code (Bytes frame)) in ret tt
        else
          let* _ := lift (Py.getitem frame 0) in ret tt).

(** ** Device commands *)

Definition async_cover_up (device_code : DuoFernId) : M unit :=
  let* c := self in
  let* frame :=
    lift (build_cover_command UP device_code (_system_code c)
            None false default_channel) in
  let* _ := _send frame in
  _update_moving_state device_code "up".

Definition async_cover_down (device_code : DuoFernId) : M unit :=
  let* c := self in
  let* frame :=
    lift (build_cover_command DOWN device_code (_system_code c)
            None false default_channel) in
  let* _ := _send frame in
  _update_moving_state device_code "down".

Definition async_cover_stop (device_code : DuoFernId) : M unit :=
  let* c := self in
  let* frame :=
    lift (build_cover_command STOP device_code (_system_code c)
            None false default_channel) in
  let* _ := _send frame in
  _update_moving_state device_code "stop".

Definition async_cover_position (device_code : DuoFernId) (position : Z)
  : M unit :=
  let* c := self in
  let* frame :=
    lift (build_cover_command POSITION device_code (_system_code c)
            (Some position) false default_channel) in
  let* _ := _send frame in
  let* c := self in
  match devices c !! hex device_code with
  | None => ret tt
  | Some state =>
      match Protocol.position (status state) with
      | None => ret tt
      | Some known =>
          if (known <? position)%Z
          then _update_moving_state device_code "down"
          else if (position <? known)%Z
          then _update_moving_state device_code "up"
          else ret tt
      end
  end.

Definition async_request_status (device_code : option DuoFernId) : M unit :=
  let* c := self in
  let* frame :=
    lift match device_code with
         | None => build_status_request_broadcast
         | Some device_code =>
             build_status_request device_code (_system_code c)
               default_status_type
         end in
  _send frame.

(** [connect]: the stick is assigned to [self._stick] before its
    [connect] is awaited, and stays there when that raises. *)
Definition connect : M unit :=
  let* c := self in
  on_stick (Stick.DuoFernStick_init (_system_code c) (_paired_devices c))
    Stick.connect.

(** ** The message callback *)

(** The stick is created with [message_callback=self._on_message]: a
    [Message] effect of the stick is a call of [_on_message]. *)
Fixpoint handle_messages (effects : list Stick.effect) : M unit :=
  match effects with
  | [] => ret tt
  | Stick.Tx _ :: effects => handle_messages effects
  | Stick.Message frame :: effects =>
      let* _ := _on_message frame in handle_messages effects
  end.

(** The event loop feeding bytes from the serial line to the protocol
    object of the coordinator's stick. *)
Definition serial_data_received (data : bytearray) : M unit :=
  λ '(c, w),
    match _stick c with
    | None => (Ok tt, (c, w))
    | Some s =>
        let '(r, (c', w')) :=
          on_stick s (Wiring.serial_data_received data) (c, w) in
        match r with
        | Raise e => (Raise e, (c', w'))
        | Ok _ =>
            handle_messages
              (drop (length (Stick.trace w)) (Stick.trace w')) (c', w')
        end
    end.

End Coordinator.

(* ===================================================================== *)
(** * The cover entity ([cover.py])                                       *)
(* ===================================================================== *)

Module Cover.
Import Protocol ProtocolUtil Coordinator.

Record DuoFernCover : Type := MkCover {
  _device_code : DuoFernId;
  _hex_code : string
}.

Definition DuoFernCover_init (device_code : DuoFernId) : DuoFernCover :=
  {| _device_code := device_code; _hex_code := hex device_code |}.

(** [self.coordinator.data] is the coordinator's data object, never
    [None]. *)
Definition _device_state (e : DuoFernCover) (c : DuoFernCoordinator)
  : option DuoFernDeviceState :=
  devices c !! _hex_code e.

Definition current_cover_position (e : DuoFernCover)
    (c : DuoFernCoordinator) : option Z :=
  match _device_state e c with
  | None => None
  | Some state =>
      match position (status state) with
      | None => None
      | Some position => Some (100 - position)%Z
      end
  end.

Definition is_closed (e : DuoFernCover) (c : DuoFernCoordinator)
  : option bool :=
  match current_cover_position e c with
  | None => None
  | Some pos => Some (pos =? 0)%Z
  end.

Definition is_opening (e : DuoFernCover) (c : DuoFernCoordinator) : bool :=
  match _device_state e c with
  | None => false
  | Some state => String.eqb (moving (status state)) "up"
  end.

Definition is_closing (e : DuoFernCover) (c : DuoFernCoordinator) : bool :=
  match _device_state e c with
  | None => false
  | Some state => String.eqb (moving (status state)) "down"
  end.

Definition async_open_cover (e : DuoFernCover) : M unit :=
  async_cover_up (_device_code e).

Definition async_close_cover (e : DuoFernCover) : M unit :=
  async_cover_down (_device_code e).

Definition async_stop_cover (e : DuoFernCover) : M unit :=
  async_cover_stop (_device_code e).

(** [kwargs.get("position", 0)] *)
Definition async_set_cover_position (e : DuoFernCover)
    (position : option Z) : M unit :=
  let ha_position := default 0%Z position in
  let duofern_position := (100 - ha_position)%Z in
  async_cover_position (_device_code e) duofern_position.

End Cover.

(** What the coordinator's methods do to a stick and to a device state. *)
Module CoordinatorSpec.
Import Protocol Coordinator.

(** The frame joins the send queue of a stick that is connected and
    initialized; any other stick is left as it is. *)
Definition queued (frame : bytearray) (s : Stick.DuoFernStick)
  : Stick.DuoFernStick :=
  if Stick.connected s
  then Stick.set_send_queue (Stick._send_queue s ++ [frame]) s
  else s.

(** The device state with its moving direction replaced. *)
Definition marked (direction : string) (state : DuoFernDeviceState)
  : DuoFernDeviceState :=
  set_status (set_moving direction (status state)) state.

(** The three one-button commands: the encoder command, the coordinator
    method, and the direction it marks. *)
Definition buttons
  : list (CoverCommand * (DuoFernId → M unit) * string) :=
  [(UP, async_cover_up, "up");
   (DOWN, async_cover_down, "down");
   (STOP, async_cover_stop, "stop")].

(** The sender of a status response, if the coordinator knows it: the
    frame has 22 bytes starting with 0F FF 0F, and bytes 15 to 17, in
    upper-case hexadecimal, are a key of the device table. *)
Definition status_sender (frame : bytearray) (c : DuoFernCoordinator)
  : option (string * DuoFernDeviceState) :=
  if bool_decide (length frame = 22 ∧ take 3 frame = [0x0F; 0xFF; 0x0F]%Z)
  then
    let key := ProtocolUtil.hex (MkDuoFernId (take 3 (drop 15 frame))) in
    (λ state, (key, state)) <$> devices c !! key
  else None.

End CoordinatorSpec.

(* ===================================================================== *)
(** * The ACK-gated send queue and [disconnect] ([stick.py])              *)
(* ===================================================================== *)

(** [asyncio] runs the task of [_process_send_queue] between the other
    callbacks, one stretch at a time, from one [await] that suspends to
    the next.  The task is modelled by where it is suspended; the event
    loop's decisions (a caller sends a command, the framer hands over a
    frame, the task is resumed, the ACK timeout elapses, [disconnect] is
    awaited, the cancelled task ends) are events.  [_cmd_in_flight] is
    written and never read, and [task_done()] only serves [Queue.join],
    which is never called: both are left out. *)
Module SendQueue.
Import Const Protocol Stick.

Inductive task_state : Type :=
| Created    (* [asyncio.create_task] returned; the coroutine has not run *)
| InGet      (* suspended in [await self._send_queue.get()]: queue empty *)
| InWait     (* suspended in [await asyncio.wait_for(self._ack_event.wait())] *)
| Cancelled  (* [cancel()] was called; the task has not ended yet *)
| Finished.  (* returned, or ended by the cancellation *)

(** The stick with the rest of what [_process_send_queue] and
    [disconnect] use.  [task] is the state of [self._queue_task] when
    there is one, that is when [_queue_task] of the stick is set;
    [disconnecting] tells that a call of [disconnect] is suspended in
    [await self._queue_task]. *)
Record Runtime : Type := MkRuntime {
  stick : DuoFernStick;
  _closing : bool;
  task : task_state;
  disconnecting : bool
}.

Definition set_stick v (r : Runtime) : Runtime :=
  {| stick := v; _closing := _closing r; task := task r;
     disconnecting := disconnecting r |}.
Definition set_closing v (r : Runtime) : Runtime :=
  {| stick := stick r; _closing := v; task := task r;
     disconnecting := disconnecting r |}.
Definition set_task v (r : Runtime) : Runtime :=
  {| stick := stick r; _closing := _closing r; task := v;
     disconnecting := disconnecting r |}.
Definition set_disconnecting v (r : Runtime) : Runtime :=
  {| stick := stick r; _closing := _closing r; task := task r;
     disconnecting := v |}.

(** The stick as [connect] leaves it when it returns. *)
Definition started (s : DuoFernStick) : Runtime :=
  {| stick := s; _closing := false; task := Created;
     disconnecting := false |}.

Definition state : Type := Runtime * World.

(** A stretch of the task also yields the frames it took from the
    queue. *)
Definition stretch : Type := state * list bytearray.

(** [get] has returned [frame]: [self._ack_event.clear()],
    [self._write_frame(frame)], and the task suspends in [wait_for]; the
    event was just cleared, so the wait cannot return at once. *)
Definition take_frame (frame : bytearray) (rest : list bytearray)
    (r : Runtime) (w : World) : stretch :=
  let s := set_ack_event false (set_send_queue rest (stick r)) in
  let '(_, (s, w)) := _write_frame frame (s, w) in
  ((set_task InWait (set_stick s r), w), [frame]).

(** [while not self._closing: frame = await self._send_queue.get()]:
    [get] returns without suspending when the queue is not empty. *)
Definition loop_head (r : Runtime) (w : World) : stretch :=
  if _closing r then ((set_task Finished r, w), [])
  else
    match _send_queue (stick r) with
    | [] => ((set_task InGet r, w), [])
    | frame :: rest => take_frame frame rest r w
    end.

(** [self._queue_task.done()] *)
Definition is_done (t : task_state) : bool :=
  match t with
  | Finished => true
  | _ => false
  end.

(** [disconnect] up to [await self._queue_task]: the flags, and the
    cancellation of a task that has not ended.  A cancelled task runs no
    further statement of the loop: [get] and [wait_for] raise
    [CancelledError], which leaves the coroutine, and a [wait_for] that
    returns instead, because the event was set in the meantime, finds
    [_closing] set at the loop head. *)
Definition disconnect_begins (r : Runtime) : Runtime * bool :=
  let r := set_closing true r in
  let r := set_stick (set_initialized false (stick r)) r in
  if _queue_task (stick r) && negb (is_done (task r))
  then (set_disconnecting true (set_task Cancelled r), true)
  else (r, false).

(** [disconnect] after the task: the transport is closed. *)
Definition disconnect_ends (r : Runtime) : Runtime :=
  let r :=
    match _transport (stick r) with
    | Some _ => set_stick (set_transport None (stick r)) r
    | None => r
    end in
  set_stick (set_connected false (stick r)) r.

Inductive event : Type :=
| Command (frame : bytearray)   (* a caller awaits [send_command(frame)] *)
| Inbound (frame : bytearray)   (* the framer calls [_on_frame_received] *)
| Wake                          (* the event loop resumes the task *)
| AckTimeout                    (* [ACK_TIMEOUT] elapses in [wait_for] *)
| Disconnect                    (* a caller awaits [disconnect()] *)
| TaskEnds.                     (* the event loop ends the cancelled task *)

(** An exception of [send_command] or [_on_frame_received] goes to the
    caller; the state is as the method left it.  Resuming a task that
    cannot run changes nothing: a [get] on an empty queue and a wait for
    an event that is not set stay suspended, and all that happens to a
    cancelled task is its end.  [disconnect] runs to its end at once
    when it has no task to wait for; otherwise it continues when the
    task has ended. *)
Definition step (st : state) (e : event) : stretch :=
  let '(r, w) := st in
  match e with
  | Command frame =>
      let '(_, (s, w)) := send_command frame (stick r, w) in
      ((set_stick s r, w), [])
  | Inbound frame =>
      let '(_, (s, w)) := _on_frame_received frame (stick r, w) in
      ((set_stick s r, w), [])
  | Wake =>
      if negb (_queue_task (stick r)) then (st, [])
      else
        match task r with
        | Created => loop_head r w
        | InGet =>
            match _send_queue (stick r) with
            | [] => (st, [])
            | frame :: rest => take_frame frame rest r w
            end
        | InWait => if _ack_event (stick r) then loop_head r w else (st, [])
        | Cancelled | Finished => (st, [])
        end
  | AckTimeout =>
      if negb (_queue_task (stick r)) then (st, [])
      else
        match task r with
        | InWait => loop_head r w
        | _ => (st, [])
        end
  | Disconnect =>
      let '(r, suspended) := disconnect_begins r in
      if suspended then ((r, w), [])
      else ((disconnect_ends r, w), [])
  | TaskEnds =>
      match task r with
      | Cancelled =>
          let r := set_task Finished r in
          if disconnecting r
          then ((disconnect_ends (set_disconnecting false r), w), [])
          else ((r, w), [])
      | _ => (st, [])
      end
  end.

Fixpoint run (st : state) (es : list event) : stretch :=
  match es with
  | [] => (st, [])
  | e :: es =>
      let '(st, taken) := step st e in
      let '(st, taken') := run st es in
      (st, taken ++ taken')
  end.

End SendQueue.

(** What the send queue is expected to do. *)
Module SendQueueSpec.
Import Protocol SendQueue.

(** The commands [send_command] accepts: those sent while the
    [_connected] flag is up. *)
Fixpoint accepted (st : state) (es : list event) : list bytearray :=
  match es with
  | [] => []
  | e :: es =>
      match e with
      | Command frame =>
          if Stick._connected (stick st.1) then [frame] else []
      | _ => []
      end ++ accepted (step st e).1 es
  end.

(** What can end a wait for an ACK: an inbound ACK frame, or the
    timeout. *)
Fixpoint releases (es : list event) : nat :=
  match es with
  | [] => 0
  | Inbound frame :: es =>
      match is_ack (Bytes frame) with
      | Ok true => S (releases es)
      | _ => releases es
      end
  | AckTimeout :: es => S (releases es)
  | _ :: es => releases es
  end.

(** The task is free to write one more frame without a further release:
    it is not waiting for an ACK, or the ACK has arrived. *)
Definition may_send (r : Runtime) : bool :=
  match task r with
  | Created | InGet => true
  | InWait => Stick._ack_event (stick r)
  | Cancelled | Finished => false
  end.

(** [disconnect] has returned: closing, the port closed, and no task
    that can run. *)
Definition shut_down (r : Runtime) : Prop :=
  _closing r = true ∧
  Stick._initialized (stick r) = false ∧
  (Stick._queue_task (stick r) = false ∨ task r = Finished) ∧
  Stick._connected (stick r) = false ∧
  Stick._transport (stick r) = None.

(** [disconnect] is suspended, waiting for the cancelled task. *)
Definition cancelling (r : Runtime) : Prop :=
  _closing r = true ∧
  Stick._initialized (stick r) = false ∧
  Stick._queue_task (stick r) = true ∧
  task r = Cancelled ∧ disconnecting r = true.

End SendQueueSpec.
(* ===================================================================== *)
(** * Properties of the encoder                                           *)
(* ===================================================================== *)

Section EncoderFacts.
Import Protocol EncoderSpec.

Lemma byte_ok_iff v : Py.byte_ok v = true ↔ (0 ≤ v < 256)%Z.
Proof. unfold Py.byte_ok. rewrite andb_true_iff, Z.leb_le, Z.ltb_lt. done. Qed.

Lemma byte_ok_mask x : Py.byte_ok (Z.land x 0xFF) = true.
Proof.
  apply byte_ok_iff. change 0xFF%Z with (Z.ones 8).
  rewrite Z.land_ones by lia. apply Z.mod_pos_bound. lia.
Qed.

Lemma byte_ok_clamp p : Py.byte_ok (Z.max 0 (Z.min 100 p)) = true.
Proof. apply byte_ok_iff. lia. Qed.

Lemma setitem_ok (b : bytearray) i v :
  i < length b → Py.byte_ok v = true → Py.setitem b i v = Ok (<[i:=v]> b).
Proof.
  intros Hi Hv. unfold Py.setitem. rewrite Hv.
  by apply Nat.ltb_lt in Hi as ->.
Qed.

Lemma three_bytes (d : DuoFernId) :
  length (raw d) = 3 → ∃ a b c, d = MkDuoFernId [a; b; c].
Proof.
  destruct d as [[|a [|b [|c [|? ?]]]]]; simpl; try discriminate. eauto.
Qed.

End EncoderFacts.

(** Name the bytes of the identifiers among the hypotheses. *)
Ltac name_identifiers :=
  repeat match goal with
    | H : Forall _ (_ :: _) |- _ => apply Forall_cons in H as [? H]
    | H : Forall _ [] |- _ => clear H
    | H : length (Protocol.raw ?d) = 3 |- _ =>
        apply three_bytes in H as (? & ? & ? & ->)
    end.

(** Decide a byte test on an argument that is written unmasked. *)
Ltac split_byte v :=
  let Hv := fresh "Hv" in
  destruct (Py.byte_ok v) eqn:Hv;
  [ | try (apply not_true_iff_false in Hv; rewrite byte_ok_iff in Hv) ].

(** A frame that has been computed byte by byte: its length, and the value
    at every position outside the assigned ones. *)
Ltac check_layout :=
  split; [reflexivity |];
  let i := fresh "i" in
  let Hi := fresh "Hi" in
  let Hn := fresh "Hn" in
  intros i Hi Hn;
  do 22 (destruct i as [|i];
         [first [reflexivity
                | exfalso; apply Hn, list_elem_of_In; simpl; tauto] |]);
  lia.

Section EncoderLayout.
Import Protocol EncoderSpec.

(** C1.  Whatever the message kind, a frame returned by its encoder is
    exactly 22 bytes long and is zero at every position its layout does
    not assign; the encoder returns a frame whenever the integer
    arguments it writes unmasked are bytes.  The identifiers are 3 bytes
    long, as [DuoFernId] guarantees. *)
Theorem encoder_frame_22_bytes_rest_zero (m : message) :
  Forall (λ d, length (raw d) = 3) (identifiers m) →
  (Forall (λ v, 0 ≤ v < 256)%Z (byte_arguments m) →
   ∃ frame, encode m = Ok frame) ∧
  (∀ frame, encode m = Ok frame →
     length frame = 22 ∧
     ∀ i, i < 22 → i ∉ assigned m → frame !! i = Some 0%Z).
Proof.
  intros Hids.
  destruct m as [| |sys| |idx dev| | | |dev sys ty|cmd dev sys pos timer ch
                | | | |]; simpl in Hids; name_identifiers; simpl encode.
  1,2,4,6,7,8,11,12,13,14:
    (split; [intros _; eexists; reflexivity |];
     intros frame [= <-]; check_layout).
  - (* SetDongle *)
    split; [intros _; eexists; reflexivity |].
    intros frame [= <-]. check_layout.
  - (* SetPair *)
    unfold build_set_pair.
    pose proof (byte_ok_mask idx) as Hm.
    set (v := Z.land idx 255) in *. clearbody v.
    unfold Py.setitem; rewrite Hm.
    split; [intros _; eexists; reflexivity |].
    intros frame [= <-]. check_layout.
  - (* StatusRequest *)
    unfold build_status_request, Py.setitem. simpl byte_arguments.
    split_byte ty.
    + split; [intros _; eexists; reflexivity |].
      intros frame [= <-]. check_layout.
    + split; [intros Hb; apply Forall_cons in Hb as [? _]; lia |].
      intros frame [=].
  - (* CoverCommand *)
    unfold build_cover_command, Py.setitem. simpl byte_arguments.
    split_byte ch.
    + destruct cmd, timer; try destruct pos as [p|];
        try (pose proof (byte_ok_clamp p) as Hp;
             set (clamped := Z.max 0 (Z.min 100 p)) in *; clearbody clamped;
             simpl; rewrite Hp);
        (split; [intros _; eexists; reflexivity |];
         intros frame [= <-]; check_layout).
    + split; [intros Hb; apply Forall_cons in Hb as [? _]; lia |].
      intros frame [=].
Qed.

End EncoderLayout.

Section EncoderWitness.
Import Protocol EncoderSpec.

Lemma encoder_frame_22_bytes_rest_zero_witness :
  let m := CoverCmd POSITION (MkDuoFernId [0x40; 0x12; 0x34]%Z)
             (MkDuoFernId [0x6F; 0x1A; 0x2B]%Z) (Some 37%Z) false 0x01 in
  Forall (λ d, length (raw d) = 3) (identifiers m) ∧
  (∃ frame, encode m = Ok frame) ∧
  (∀ frame, encode m = Ok frame →
     length frame = 22 ∧
     ∀ i, i < 22 → i ∉ assigned m → frame !! i = Some 0%Z).
Proof.
  intros m.
  assert (Hids : Forall (λ d, length (raw d) = 3) (identifiers m))
    by (repeat constructor).
  split; [exact Hids |].
  destruct (encoder_frame_22_bytes_rest_zero m Hids) as [Hex Hlay].
  split; [| exact Hlay].
  apply Hex. repeat constructor; simpl; lia.
Defined.

(** C7.  A cover command with 3-byte identifiers and a byte-sized channel
    is always encoded, never rejected for its position.  Byte 5 of the
    frame holds [max(0, min(100, position))] for a POSITION command that
    carries a position, and is zero for every other command, whatever
    position is passed along. *)
Theorem cover_command_position_clamped
    (command : CoverCommand) (dev sys : DuoFernId) (position : option Z)
    (timer : bool) (channel : Z) :
  length (raw dev) = 3 → length (raw sys) = 3 → (0 ≤ channel < 256)%Z →
  ∃ frame,
    build_cover_command command dev sys position timer channel = Ok frame ∧
    frame !! 5 =
      Some match command, position with
           | POSITION, Some p => Z.max 0 (Z.min 100 p)
           | _, _ => 0
           end%Z.
Proof.
  intros Hdev Hsys Hch%byte_ok_iff. name_identifiers.
  unfold build_cover_command, Py.setitem. rewrite Hch.
  destruct command, timer; try destruct position as [p|];
    try (pose proof (byte_ok_clamp p) as Hp;
         set (clamped := Z.max 0 (Z.min 100 p)) in *; clearbody clamped;
         simpl; rewrite Hp);
    eexists; (split; [reflexivity |]); reflexivity.
Qed.

Lemma cover_command_position_clamped_witness :
  ∃ frame,
    build_cover_command POSITION (MkDuoFernId [0x40; 0x12; 0x34]%Z)
      (MkDuoFernId [0x6F; 0x1A; 0x2B]%Z) (Some 150%Z) false 0x01
    = Ok frame ∧
    frame !! 5 = Some (Z.max 0 (Z.min 100 150)).
Proof.
  apply (cover_command_position_clamped POSITION
           (MkDuoFernId [0x40; 0x12; 0x34]%Z)
           (MkDuoFernId [0x6F; 0x1A; 0x2B]%Z) (Some 150%Z) false 0x01);
    simpl; lia.
Defined.

(** The three positions the specification names. *)
Example position_37_150_minus5 :
  let dev := MkDuoFernId [0x40; 0x12; 0x34]%Z in
  let sys := MkDuoFernId [0x6F; 0x1A; 0x2B]%Z in
  let byte5 p :=
    match build_cover_command POSITION dev sys (Some p) false 0x01 with
    | Ok frame => frame !! 5
    | Raise _ => None
    end in
  byte5 37%Z = Some 37%Z ∧ byte5 150%Z = Some 100%Z ∧
  byte5 (-5)%Z = Some 0%Z.
Proof. repeat split. Qed.

End EncoderWitness.

(* ===================================================================== *)
(** * Properties of the decoder                                           *)
(* ===================================================================== *)

(** Name the 22 bytes of a frame of known length. *)
Ltac expose_frame frame H :=
  do 22 (destruct frame as [|? frame]; [discriminate H |]);
  destruct frame; [clear H | discriminate H].

Section DecoderFacts.
Import Protocol.

Lemma ensure_bytes_frame (frame : bytearray) :
  length frame = 22 → _ensure_bytes (Bytes frame) = Ok frame.
Proof. intros H. unfold _ensure_bytes. by rewrite H. Qed.

(** C4.  In a 22-byte frame the identifier is read from bytes 18..20 when
    byte 0 is 0x81 and from bytes 15..17 for every other byte 0; an
    identifier planted at the position of the frame's kind is recovered
    unchanged. *)
Theorem extract_device_code_by_kind (frame : bytearray) :
  length frame = 22 →
  (∃ b0 a b c,
     frame !! 0 = Some b0 ∧
     (if decide (b0 = 0x81%Z)
      then frame !! 18 = Some a ∧ frame !! 19 = Some b ∧
           frame !! 20 = Some c
      else frame !! 15 = Some a ∧ frame !! 16 = Some b ∧
           frame !! 17 = Some c) ∧
     extract_device_code (Bytes frame) = Ok (MkDuoFernId [a; b; c])) ∧
  (∀ id kind, length (raw id) = 3 →
     let offset := if decide (kind = 0x81%Z) then 18 else 15 in
     extract_device_code
       (Bytes (<[0:=kind]> (Py.setslice frame offset (offset + 3) (raw id))))
     = Ok id).
Proof.
  intros H. expose_frame frame H. split.
  - unfold extract_device_code, byte_is, MessageType.ACK.
    rewrite ensure_bytes_frame by reflexivity.
    cbn -[Z.eqb decide].
    destruct (Z.eqb_spec z 129) as [->|Hne].
    + eexists _, _, _, _. split; [reflexivity |].
      rewrite decide_True by done. done.
    + eexists _, _, _, _. split; [reflexivity |].
      rewrite decide_False by done. done.
  - intros id kind Hid offset. subst offset. name_identifiers.
    unfold extract_device_code, byte_is, MessageType.ACK.
    destruct (decide (kind = 129%Z)) as [->|Hne].
    + reflexivity.
    + rewrite ensure_bytes_frame by reflexivity.
      cbn -[Z.eqb].
      by destruct (Z.eqb_spec kind 129).
Qed.

Lemma extract_device_code_by_kind_witness :
  let frame := (0x81 :: replicate 17 0 ++ [0x40; 0x12; 0x34; 0])%Z in
  extract_device_code (Bytes frame) = Ok (MkDuoFernId [0x40; 0x12; 0x34]%Z).
Proof.
  intros frame.
  destruct (extract_device_code_by_kind frame eq_refl)
    as [(b0 & a & b & c & H0 & Hpos & ->) _].
  injection H0 as <-. simpl in Hpos.
  destruct Hpos as ([= <-] & [= <-] & [= <-]). reflexivity.
Defined.

(** C5.  For a 22-byte frame [should_dispatch] answers false exactly when
    byte 0 is 0x81, or bytes 0, 1, 2 are 0x0F, 0xFF, 0x11; every other
    frame, whatever its byte 0, is dispatched, status and pair responses
    among them. *)
Theorem should_dispatch_gate (frame : bytearray) :
  length frame = 22 →
  ∃ b0 b1 b2 d,
    frame !! 0 = Some b0 ∧ frame !! 1 = Some b1 ∧ frame !! 2 = Some b2 ∧
    should_dispatch (Bytes frame) = Ok d ∧
    (d = false ↔
       b0 = 0x81 ∨ (b0 = 0x0F ∧ b1 = 0xFF ∧ b2 = 0x11))%Z ∧
    (is_status_response (Bytes frame) = Ok true → d = true) ∧
    (is_pair_response (Bytes frame) = Ok true → d = true).
Proof.
  intros H. expose_frame frame H.
  exists z, z0, z1,
    (negb ((z =? 129) || ((z =? 15) && (z0 =? 255) && (z1 =? 17))))%Z.
  do 3 (split; [reflexivity |]).
  unfold should_dispatch, is_status_response, is_pair_response,
    and_then, byte_is.
  rewrite ensure_bytes_frame by reflexivity.
  cbn -[Z.eqb].
  destruct (Z.eqb_spec z 129) as [->|H0]; simpl.
  { split; [reflexivity |]. split; [intuition |]. split; discriminate. }
  destruct (Z.eqb_spec z 15) as [->|H1]; simpl.
  2: { split; [reflexivity |].
       split; [split; [discriminate | lia] |].
       destruct (Z.eqb_spec z 6); done. }
  destruct (Z.eqb_spec z0 255) as [->|H2]; simpl.
  2: { split; [reflexivity |]. split; [split; [discriminate | lia] | done]. }
  destruct (Z.eqb_spec z1 17) as [->|H3]; simpl.
  - split; [reflexivity |]. split; [intuition |]. split; discriminate.
  - split; [reflexivity |]. split; [split; [discriminate | lia] | done].
Qed.

Lemma should_dispatch_gate_witness :
  should_dispatch (Bytes (0x0F :: 0xFF :: 0x11 :: replicate 19 0)%Z)
  = Ok false.
Proof.
  destruct (should_dispatch_gate (0x0F :: 0xFF :: 0x11 :: replicate 19 0)%Z
              eq_refl)
    as (b0 & b1 & b2 & d & [= <-] & [= <-] & [= <-] & -> & Hd & _).
  f_equal. apply Hd. right. done.
Defined.

End DecoderFacts.

Section StatusFacts.
Import Protocol.

Lemma extract_low7 word : extract_bits word 0 6 = (word mod 2 ^ 7)%Z.
Proof.
  unfold extract_bits. rewrite Z.shiftr_0_r.
  change (Z.shiftl 1 (6 - 0 + 1) - 1)%Z with (Z.ones 7).
  apply Z.land_ones. lia.
Qed.

Lemma word_low7 hi lo :
  (Z.lor (Z.shiftl hi 8) lo mod 2 ^ 7 = (hi * 256 + lo) mod 2 ^ 7)%Z.
Proof.
  rewrite <- (Z.land_ones _ 7) by lia.
  rewrite Z.land_lor_distr_l, !Z.land_ones by lia.
  rewrite Z.shiftl_mul_pow2 by lia.
  replace (hi * 2 ^ 8)%Z with (hi * 2 * 2 ^ 7)%Z by lia.
  rewrite Z.mod_mul by lia. rewrite Z.lor_0_l.
  replace (hi * 256 + lo)%Z with (lo + hi * 2 * 2 ^ 7)%Z by lia.
  by rewrite Z.mod_add by lia.
Qed.

(** C6.  Parsing any 22-byte frame returns a status whose moving
    direction is "stop".  When bytes 0, 1, 2 are 0x0F, 0xFF, 0x0F the
    position is bits 0..6 of the big-endian word held by bytes 10 and 11,
    so it is 42 when those bits hold 42. *)
Theorem parse_status_position (frame : bytearray) :
  length frame = 22 →
  ∃ status hi lo,
    parse_status_type40 (Bytes frame) = Ok status ∧
    moving status = "stop" ∧
    frame !! 10 = Some hi ∧ frame !! 11 = Some lo ∧
    (frame !! 0 = Some 0x0F%Z → frame !! 1 = Some 0xFF%Z →
     frame !! 2 = Some 0x0F%Z →
     position status = Some ((hi * 256 + lo) mod 2 ^ 7)%Z ∧
     ((hi * 256 + lo) mod 2 ^ 7 = 42 → position status = Some 42)%Z).
Proof.
  intros H. expose_frame frame H.
  unfold parse_status_type40, is_status_response.
  rewrite !ensure_bytes_frame by reflexivity.
  unfold and_then, byte_is.
  cbn -[Z.eqb extract_bits format_version Z.lor Z.shiftl].
  destruct (Z.eqb_spec z 15) as [->|H0]; simpl negb; cbv iota;
    [destruct (Z.eqb_spec z0 255) as [->|H1]; simpl negb; cbv iota;
     [destruct (Z.eqb_spec z1 15) as [->|H2]; simpl negb; cbv iota |] |].
  - eexists _, _, _. split; [reflexivity |].
    split; [reflexivity |]. do 2 (split; [reflexivity |]).
    intros _ _ _.
    cbn -[extract_bits format_version Z.lor Z.shiftl Z.modulo Z.pow
          Z.mul Z.add].
    rewrite extract_low7, word_low7.
    split; [reflexivity |]. by intros ->.
  - eexists _, _, _. split; [reflexivity |].
    split; [reflexivity |]. do 2 (split; [reflexivity |]).
    intros _ _ [=]. done.
  - eexists _, _, _. split; [reflexivity |].
    split; [reflexivity |]. do 2 (split; [reflexivity |]).
    intros _ [=]. done.
  - eexists _, _, _. split; [reflexivity |].
    split; [reflexivity |]. do 2 (split; [reflexivity |]).
    intros [=]. done.
Qed.

Lemma parse_status_position_witness :
  let frame :=
    ([0x0F; 0xFF; 0x0F; 0x21] ++ replicate 6 0 ++ [0x00; 0x2A; 0x12]
     ++ replicate 2 0 ++ [0x40; 0x12; 0x34] ++ replicate 4 0)%Z in
  ∃ status,
    parse_status_type40 (Bytes frame) = Ok status ∧
    moving status = "stop" ∧ position status = Some 42%Z.
Proof.
  intros frame.
  destruct (parse_status_position frame eq_refl)
    as (status & hi & lo & Hparse & Hmoving & [= <-] & [= <-] & Hpos).
  exists status. split; [exact Hparse |]. split; [exact Hmoving |].
  apply Hpos; reflexivity.
Defined.

End StatusFacts.

(* ===================================================================== *)
(** * Properties of the byte-stream framer                                *)
(* ===================================================================== *)

Section SliceFacts.
Import FramerSpec.
Variable n : nat.
Hypothesis n_pos : 0 < n.

Lemma slices_short (l : bytearray) : length l < n → slices n l = [].
Proof. intros H. unfold slices. by rewrite Nat.div_small. Qed.

Lemma remainder_short (l : bytearray) : length l < n → remainder n l = l.
Proof.
  intros H. unfold remainder. by rewrite Nat.div_small, Nat.mul_0_r.
Qed.

Lemma div_step (l : bytearray) :
  n ≤ length l → length l / n = S (length (drop n l) / n).
Proof.
  intros H. rewrite length_drop.
  replace (length l) with (1 * n + (length l - n)) at 1 by lia.
  rewrite Nat.div_add_l by lia. done.
Qed.

Lemma slices_cons (l : bytearray) :
  n ≤ length l → slices n l = take n l :: slices n (drop n l).
Proof.
  intros H. unfold slices. rewrite (div_step l H).
  rewrite <- cons_seq. cbn [fmap list_fmap].
  rewrite Nat.mul_0_r, drop_0. f_equal.
  rewrite <- fmap_S_seq, <- list_fmap_compose.
  apply list_fmap_ext. intros _ i _. simpl.
  rewrite drop_drop. do 2 f_equal. lia.
Qed.

Lemma remainder_cons (l : bytearray) :
  n ≤ length l → remainder n l = remainder n (drop n l).
Proof.
  intros H. unfold remainder. rewrite (div_step l H).
  rewrite drop_drop. f_equal. lia.
Qed.

Lemma remainder_length (l : bytearray) :
  length (remainder n l) = length l mod n.
Proof.
  unfold remainder. rewrite length_drop.
  pose proof (Nat.div_mod_eq (length l) n). lia.
Qed.

Lemma slices_length (l : bytearray) :
  Forall (λ f, length f = n) (slices n l).
Proof.
  unfold slices. apply Forall_fmap, Forall_forall. intros i Hi. simpl.
  apply elem_of_seq in Hi. rewrite length_take, length_drop.
  pose proof (Nat.div_mod_eq (length l) n). nia.
Qed.

(** Slicing a stream that arrives in two parts. *)
Lemma slices_app (l1 l2 : bytearray) :
  slices n (l1 ++ l2) = slices n l1 ++ slices n (remainder n l1 ++ l2).
Proof.
  remember (length l1) as m eqn:Hm. revert l1 Hm.
  induction (lt_wf m) as [m _ IH]. intros l1 ->.
  destruct (decide (length l1 < n)) as [Hlt|Hge].
  - by rewrite (slices_short l1), (remainder_short l1).
  - rewrite (slices_cons l1), (slices_cons (l1 ++ l2))
      by (rewrite ?length_app; lia).
    rewrite take_app_le, drop_app_le by lia. simpl. f_equal.
    rewrite (remainder_cons l1) by lia.
    apply (IH (length (drop n l1))); [rewrite length_drop; lia | done].
Qed.

Lemma remainder_app (l1 l2 : bytearray) :
  remainder n (l1 ++ l2) = remainder n (remainder n l1 ++ l2).
Proof.
  remember (length l1) as m eqn:Hm. revert l1 Hm.
  induction (lt_wf m) as [m _ IH]. intros l1 ->.
  destruct (decide (length l1 < n)) as [Hlt|Hge].
  - by rewrite (remainder_short l1).
  - rewrite (remainder_cons (l1 ++ l2))
      by (rewrite ?length_app; lia).
    rewrite drop_app_le by lia.
    rewrite (remainder_cons l1) by lia.
    apply (IH (length (drop n l1))); [rewrite length_drop; lia | done].
Qed.

End SliceFacts.

Section FramerFacts.
Import Const Stick FramerSpec.

Lemma deliver_keeps (frame : bytearray) (p : DuoFernSerialProtocol) :
  _buffer (deliver frame p).1 = _buffer p ∧
  _flush_handle (deliver frame p).1 = _flush_handle p ∧
  delivered_frame (deliver frame p).2 = frame.
Proof. unfold deliver. by destruct (_init_response_future p) as [[?|]|]. Qed.

(** The loop of [data_received], run with enough fuel, stops because the
    buffer is short: it has emitted the 22-byte slices of the buffer and
    kept the remainder. *)
Lemma extract_frames_drained fuel (p : DuoFernSerialProtocol) :
  length (_buffer p) ≤ fuel →
  delivered_frame <$> (extract_frames fuel p).2 = slices 22 (_buffer p) ∧
  _buffer (extract_frames fuel p).1 = remainder 22 (_buffer p) ∧
  _flush_handle (extract_frames fuel p).1 = _flush_handle p.
Proof.
  revert p. induction fuel as [|fuel IH]; intros p Hlen.
  - simpl. destruct (_buffer p); [done | simpl in Hlen; lia].
  - cbn [extract_frames]. unfold FRAME_SIZE_BYTES.
    destruct (Nat.leb_spec 22 (length (_buffer p))) as [Hge|Hlt].
    + rewrite (slices_cons 22) by lia.
      rewrite (remainder_cons 22) by lia.
      set (b := _buffer p) in *.
      pose proof (deliver_keeps (Py.getslice b 0 22)
                    (set_buffer (drop 22 b) p)) as (Hb & Hh & Hd).
      destruct (deliver _ _) as [p2 d].
      cbn [fst snd _buffer _flush_handle set_buffer] in Hb, Hh, Hd.
      assert (Hfuel : length (_buffer p2) ≤ fuel)
        by (rewrite Hb, length_drop; lia).
      specialize (IH p2 Hfuel). rewrite Hb, Hh in IH.
      destruct (extract_frames fuel p2) as [p3 ds]. cbn [fst snd] in *.
      destruct IH as (IH1 & IH2 & IH3).
      cbn [fmap list_fmap]. rewrite Hd, IH1.
      unfold Py.getslice. by rewrite drop_0.
    + cbn [fst snd fmap list_fmap].
      by rewrite (slices_short 22), (remainder_short 22).
Qed.

Lemma data_received_frames (p : DuoFernSerialProtocol) (data : bytearray) :
  delivered_frame <$> (data_received p data).2
    = slices 22 (_buffer p ++ data) ∧
  _buffer (data_received p data).1 = remainder 22 (_buffer p ++ data) ∧
  (_buffer (data_received p data).1 ≠ [] →
   _flush_handle (data_received p data).1 = Some Armed).
Proof.
  unfold data_received.
  set (p1 := match _flush_handle p with
             | Some _ => set_flush_handle None p
             | None => p
             end).
  assert (Hb1 : _buffer p1 = _buffer p) by (subst p1; by destruct _flush_handle).
  rewrite Hb1.
  set (p2 := set_buffer (_buffer p ++ data) p1).
  destruct (extract_frames_drained (length (_buffer p2)) p2 (le_n _))
    as (Hf & Hb & _).
  destruct (extract_frames (length (_buffer p2)) p2) as [p3 ds].
  simpl in *. split; [done |].
  destruct (_buffer p3) as [|x b3] eqn:Hb3; simpl.
  - by rewrite Hb3.
  - by rewrite <- Hb.
Qed.

Lemma stream_cons_chunk data es : stream (Chunk data :: es) = data ++ stream es.
Proof. done. Qed.

Lemma run_app (es1 es2 : list event) (p : DuoFernSerialProtocol) :
  run p (es1 ++ es2) =
  ((run (run p es1).1 es2).1, (run p es1).2 ++ (run (run p es1).1 es2).2).
Proof.
  revert p. induction es1 as [|e es1 IH]; intros p; simpl.
  - by destruct (run p es2).
  - destruct (step p e) as [p1 ds1]. rewrite IH.
    destruct (run p1 es1) as [p2 ds2]. simpl.
    destruct (run p2 es2) as [p3 ds3]. simpl. by rewrite app_assoc.
Qed.

(** Between events the buffer holds less than a frame, and whatever it
    holds is guarded by an armed flush timer. *)
Lemma step_settled (e : event) (p : DuoFernSerialProtocol) :
  length (_buffer p) < 22 ∧ (_buffer p ≠ [] → _flush_handle p = Some Armed) →
  length (_buffer (step p e).1) < 22 ∧
  (_buffer (step p e).1 ≠ [] → _flush_handle (step p e).1 = Some Armed).
Proof.
  intros [Hlen Harm]. destruct e as [data| |future]; simpl.
  - destruct (data_received_frames p data) as (_ & Hb & Ha).
    split; [| exact Ha]. rewrite Hb, remainder_length by lia.
    apply Nat.mod_upper_bound. lia.
  - unfold deadline_expired.
    destruct (_flush_handle p) as [[|]|] eqn:Hh.
    + unfold _flush_buffer. simpl.
      destruct (_buffer p) eqn:Hb; simpl; [rewrite Hb |]; split;
        (simpl; lia) || done.
    + split; [done |]. intros Hne. specialize (Harm Hne). congruence.
    + split; [done |]. intros Hne. specialize (Harm Hne). congruence.
  - done.
Qed.

Lemma run_settled (es : list event) (p : DuoFernSerialProtocol) :
  length (_buffer p) < 22 ∧ (_buffer p ≠ [] → _flush_handle p = Some Armed) →
  length (_buffer (run p es).1) < 22 ∧
  (_buffer (run p es).1 ≠ [] → _flush_handle (run p es).1 = Some Armed).
Proof.
  revert p. induction es as [|e es IH]; intros p Hp; [done |].
  simpl. pose proof (step_settled e p Hp) as H1.
  destruct (step p e) as [p1 ds1]. specialize (IH p1 H1).
  by destruct (run p1 es).
Qed.

(** A silence past the deadline leaves a settled protocol with an empty
    buffer. *)
Lemma silence_empties (p : DuoFernSerialProtocol) :
  (_buffer p ≠ [] → _flush_handle p = Some Armed) →
  _buffer (deadline_expired p) = [].
Proof.
  intros Harm. unfold deadline_expired, _flush_buffer.
  destruct (_buffer p) as [|x b] eqn:Hb.
  - destruct (_flush_handle p) as [[|]|]; simpl; by rewrite Hb.
  - rewrite Harm by done. simpl. by rewrite Hb.
Qed.

(** Without a flush in between, the frames emitted over a whole event
    sequence are the slices of the buffered bytes followed by the bytes
    that arrived. *)
Lemma run_frames (es : list event) (p : DuoFernSerialProtocol) :
  length (_buffer p) < 22 →
  Forall (λ e, e ≠ Silence) es →
  delivered_frame <$> (run p es).2 = slices 22 (_buffer p ++ stream es) ∧
  _buffer (run p es).1 = remainder 22 (_buffer p ++ stream es).
Proof.
  revert p. induction es as [|e es IH]; intros p Hlen Hes.
  - simpl. unfold stream. simpl. rewrite app_nil_r.
    by rewrite (slices_short 22), (remainder_short 22).
  - apply Forall_cons in Hes as [He Hes].
    destruct e as [data| |future]; [| done |].
    + rewrite stream_cons_chunk. simpl.
      destruct (data_received_frames p data) as (Hf & Hb & _).
      destruct (data_received p data) as [p1 ds1]. simpl in Hf, Hb.
      assert (Hlen1 : length (_buffer p1) < 22).
      { rewrite Hb, remainder_length by lia.
        apply Nat.mod_upper_bound. lia. }
      destruct (IH p1 Hlen1 Hes) as [IHf IHb].
      destruct (run p1 es) as [p2 ds2]. simpl in *.
      rewrite fmap_app, Hf, IHf, IHb, Hb, app_assoc.
      by rewrite <- (slices_app 22), <- (remainder_app 22) by lia.
    + simpl. destruct (IH (set_init_response_future future p) Hlen Hes)
        as [IHf IHb].
      destruct (run _ es) as [p2 ds2]. simpl in *. done.
Qed.

(** C3.  Fed any sequence of chunks (with handshake futures coming and
    going in between), a fresh framer emits exactly the consecutive
    22-byte slices of the concatenated stream, in order, and keeps the
    remainder, whose length is the stream length modulo 22.  A flush
    empties the buffer; after a silence past the deadline, 22 fresh bytes
    yield one more frame, made of those bytes alone, and leave the buffer
    empty. *)
Theorem framer_emits_consecutive_slices :
  (∀ es, Forall (λ e, e ≠ Silence) es →
     delivered_frame <$> (run DuoFernSerialProtocol_init es).2
       = slices 22 (stream es) ∧
     Forall (λ f, length f = 22) (slices 22 (stream es)) ∧
     _buffer (run DuoFernSerialProtocol_init es).1
       = remainder 22 (stream es) ∧
     length (_buffer (run DuoFernSerialProtocol_init es).1)
       = length (stream es) mod 22) ∧
  (∀ p, _buffer (_flush_buffer p) = []) ∧
  (∀ es fresh, length fresh = 22 →
     _buffer (run DuoFernSerialProtocol_init (es ++ [Silence])).1 = [] ∧
     delivered_frame
       <$> (run DuoFernSerialProtocol_init (es ++ [Silence; Chunk fresh])).2
       = (delivered_frame <$> (run DuoFernSerialProtocol_init es).2)
         ++ [fresh] ∧
     _buffer (run DuoFernSerialProtocol_init (es ++ [Silence; Chunk fresh])).1
       = []).
Proof.
  assert (Hinit : length (_buffer DuoFernSerialProtocol_init) < 22 ∧
                  (_buffer DuoFernSerialProtocol_init ≠ [] →
                   _flush_handle DuoFernSerialProtocol_init = Some Armed))
    by (simpl; split; [lia | done]).
  split; [| split].
  - intros es Hes.
    destruct (run_frames es DuoFernSerialProtocol_init) as [Hf Hb];
      [simpl; lia | done |].
    simpl in Hf, Hb. rewrite Hf, Hb.
    split; [done |]. split; [apply slices_length; lia |].
    split; [done |]. apply remainder_length. lia.
  - intros p. unfold _flush_buffer. by destruct (_buffer p) eqn:Hb.
  - intros es fresh Hfresh.
    pose proof (run_settled es _ Hinit) as [Hlen Harm].
    pose proof (silence_empties _ Harm) as Hempty.
    rewrite !run_app. cbn [run step fst snd].
    destruct (run DuoFernSerialProtocol_init es) as [p1 ds1].
    cbn [fst snd] in *. split; [done |].
    destruct (data_received_frames (deadline_expired p1) fresh)
      as (Hf & Hb & _).
    rewrite Hempty in Hf, Hb. simpl in Hf, Hb.
    destruct (data_received (deadline_expired p1) fresh) as [p2 ds2].
    cbn [fst snd app] in *. rewrite app_nil_r, fmap_app, Hf, Hb.
    rewrite (slices_cons 22), (remainder_cons 22) by lia.
    rewrite take_ge, drop_ge by lia.
    by rewrite (slices_short 22), (remainder_short 22) by (simpl; lia).
Qed.

Lemma framer_emits_consecutive_slices_witness :
  let a := replicate 10 1%Z in
  let b := replicate 12 1%Z ++ replicate 22 2%Z in
  let c := replicate 22 3%Z in
  let d := replicate 5 4%Z in
  let fresh := replicate 22 5%Z in
  delivered_frame <$> (run DuoFernSerialProtocol_init [Chunk a; Chunk b]).2
    = [replicate 22 1%Z; replicate 22 2%Z] ∧
  delivered_frame
    <$> (run DuoFernSerialProtocol_init
           ([Chunk c; Chunk d] ++ [Silence; Chunk fresh])).2
    = [c; fresh].
Proof.
  intros a b c d fresh.
  destruct framer_emits_consecutive_slices as (Hrun & _ & Hflush).
  split.
  - destruct (Hrun [Chunk a; Chunk b]) as [-> _]; [| reflexivity].
    repeat constructor; discriminate.
  - destruct (Hflush [Chunk c; Chunk d] fresh) as (_ & -> & _);
      reflexivity.
Defined.

End FramerFacts.

(* ===================================================================== *)
(** * Properties of the stick                                             *)
(* ===================================================================== *)

Section StickFacts.
Import Const Protocol Stick.
Local Open Scope stick_scope.

Lemma bind_run {A B} (m : M A) (k : A → M B) st a st' :
  m st = (Ok a, st') → bind m k st = k a st'.
Proof. intros H. unfold bind. by rewrite H. Qed.

(** C10.  A complete 22-byte frame handed to [_on_frame_received] while
    the transport is open: if its byte 0 is not 0x81, exactly one ACK
    frame (0x81 followed by 21 zero bytes) is written, and only then is
    the frame passed to the message callback, if [should_dispatch] lets it
    through; a broadcast-status-ack is acknowledged and not dispatched.
    If byte 0 is 0x81 nothing is written and nothing is dispatched. *)
Theorem inbound_frame_acknowledged_first
    (frame : bytearray) (s : DuoFernStick) (w : World) :
  length frame = 22 →
  _transport s = Some SerialTransport →
  ∃ b0 dispatch,
    frame !! 0 = Some b0 ∧
    should_dispatch (Bytes frame) = Ok dispatch ∧
    build_ack = Ok (0x81 :: replicate 21 0)%Z ∧
    (_on_frame_received frame (s, w)).1 = Ok tt ∧
    trace (_on_frame_received frame (s, w)).2.2 =
      trace w ++
        (if decide (b0 = 0x81%Z) then []
         else Tx (0x81 :: replicate 21 0)%Z ::
                (if dispatch then [Message frame] else [])) ∧
    (is_broadcast_status_ack (Bytes frame) = Ok true →
     trace (_on_frame_received frame (s, w)).2.2 =
       trace w ++ [Tx (0x81 :: replicate 21 0)%Z]).
Proof.
  intros H Ht. expose_frame frame H.
  exists z, (negb ((z =? 129) || ((z =? 15) && (z0 =? 255) && (z1 =? 17))))%Z.
  split; [reflexivity |].
  unfold _on_frame_received, is_ack, should_dispatch,
    is_broadcast_status_ack, and_then, byte_is, MessageType.ACK,
    _write_frame.
  rewrite !ensure_bytes_frame by reflexivity.
  destruct s as [sys devs tr sp q ae qt cn ini]. simpl in Ht. subst tr.
  destruct w as [po rs t].
  cbn -[Z.eqb decide].
  destruct (decide (z = 129%Z)) as [Hack|Hack];
    destruct (Z.eqb_spec z 129); try done;
    destruct (Z.eqb_spec z 15); try lia;
    destruct (Z.eqb_spec z0 255);
    destruct (Z.eqb_spec z1 17);
    cbn; rewrite ?app_nil_r, <- ?app_assoc;
    repeat (split; [reflexivity |]); done.
Qed.

Lemma inbound_frame_acknowledged_first_witness :
  let frame := (0x0F :: 0xFF :: 0x11 :: replicate 19 0)%Z in
  let s := set_transport (Some SerialTransport)
             (DuoFernStick_init (MkDuoFernId [0x6F; 0x1A; 0x2B]%Z) []) in
  trace (_on_frame_received frame (s, MkWorld true [] [])).2.2
  = [Tx (0x81 :: replicate 21 0)%Z].
Proof.
  intros frame s.
  destruct (inbound_frame_acknowledged_first frame s (MkWorld true [] [])
              eq_refl eq_refl)
    as (b0 & dispatch & _ & _ & _ & _ & _ & Hbsa).
  apply Hbsa. reflexivity.
Defined.

(** C9, as the code has it.  [send_command] raises [ConnectionError]
    exactly when the [_connected] flag is down, and leaves everything
    unchanged; with the flag up it appends the frame to the queue, whether
    or not the handshake has completed. *)
Theorem send_command_guards_on_open_port
    (frame : bytearray) (s : DuoFernStick) (w : World) :
  send_command frame (s, w) =
    if _connected s
    then (Ok tt, (set_send_queue (_send_queue s ++ [frame]) s, w))
    else (Raise Py.ConnectionError, (s, w)).
Proof. unfold send_command, bind, self, update, raise. simpl. by destruct (_connected s). Qed.

(** After a handshake that failed, the stick is not connected in the sense
    of the [connected] property, and [send_command] still accepts a
    frame. *)
Lemma send_command_accepts_before_handshake_completes :
  let st := (connect (DuoFernStick_init (MkDuoFernId [0x6F; 0x1A; 0x2B]%Z) [],
                      MkWorld true [] [])).2 in
  let frame := (0x0D :: replicate 21 0)%Z in
  _connected st.1 = true ∧ _initialized st.1 = false ∧
  connected st.1 = false ∧
  (send_command frame st).1 = Ok tt ∧
  _send_queue (send_command frame st).2.1 = [frame].
Proof. repeat split. Qed.

End StickFacts.

(* ===================================================================== *)
(** * The handshake refines the specification's state machine            *)
(* ===================================================================== *)

Section EncoderTotal.
Import Protocol.

Lemma build_set_dongle_total d : ∃ f, build_set_dongle d = Ok f.
Proof.
  unfold build_set_dongle, _frame.
  rewrite setitem_ok by (simpl; done || lia). cbn [Py.bind].
  rewrite setitem_ok; [| unfold Py.setslice;
    rewrite !length_app, length_take, length_drop; simpl; lia | done].
  cbn [Py.bind].
  rewrite setitem_ok; [| rewrite length_insert; unfold Py.setslice;
    rewrite !length_app, length_take, length_drop; simpl; lia | done].
  eauto.
Qed.

Lemma build_set_pair_total i d : ∃ f, build_set_pair i d = Ok f.
Proof.
  unfold build_set_pair, _frame.
  rewrite setitem_ok by (simpl; done || lia). cbn [Py.bind].
  rewrite setitem_ok;
    [| rewrite length_insert; simpl; lia | apply byte_ok_mask].
  cbn [Py.bind]. eauto.
Qed.

End EncoderTotal.

Section HandshakeFacts.
Import Const Protocol Stick HandshakeSpec.
Local Open Scope stick_scope.

Variable sys : DuoFernId.
Variable devs : list DuoFernId.

Lemma run_send_and_wait frame w :
  _send_and_wait frame (handshaking sys devs, w) =
  (Ok (next_reply (replies w)),
   (handshaking sys devs,
    MkWorld (port_opens w) (tail (replies w)) (trace w ++ [Tx frame]))).
Proof. destruct w as [po [|r rs] t]; reflexivity. Qed.

Lemma run_write_frame frame w :
  _write_frame frame (handshaking sys devs, w) =
  (Ok tt,
   (handshaking sys devs,
    MkWorld (port_opens w) (replies w) (trace w ++ [Tx frame]))).
Proof. destruct w as [po rs t]; reflexivity. Qed.

(** One move of the machine, worded on the world the code produces. *)
Lemma machine_reply_plain st a w frame r :
  request sys devs st = Some (Ok frame) →
  acknowledged st = false →
  next_reply (replies w) = Some r →
  hs_rel sys devs (view st a w)
    (view (next devs st) a
       (MkWorld (port_opens w) (tail (replies w)) (trace w ++ [Tx frame]))).
Proof.
  intros Hreq Hack Hr. unfold hs_rel, hs_step, view. simpl.
  by rewrite Hreq, Hr, Hack.
Qed.

Lemma machine_reply_acked st a w frame ack r :
  request sys devs st = Some (Ok frame) →
  build_ack = Ok ack →
  acknowledged st = true →
  next_reply (replies w) = Some r →
  let w1 :=
    MkWorld (port_opens w) (tail (replies w)) (trace w ++ [Tx frame]) in
  hs_rel sys devs (view st a w)
    (view (next devs st) a
       (MkWorld (port_opens w1) (replies w1) (trace w1 ++ [Tx ack]))).
Proof.
  intros Hreq Hb Hack Hr. unfold hs_rel, hs_step, view. simpl.
  rewrite Hreq, Hr, Hack. injection Hb as <-. simpl.
  by rewrite <- app_assoc.
Qed.

Lemma machine_timeout st a w frame :
  request sys devs st = Some (Ok frame) →
  (∀ idx, st ≠ SendSetPair idx) →
  next_reply (replies w) = None →
  hs_rel sys devs (view st a w)
    (view (on_timeout devs SendInit1 a).1 (on_timeout devs SendInit1 a).2
       (MkWorld (port_opens w) (tail (replies w)) (trace w ++ [Tx frame]))).
Proof.
  intros Hreq Hst Hr. unfold hs_rel, hs_step, view. simpl.
  rewrite Hreq, Hr.
  destruct st; try done; simpl; try (by destruct (_ <? _)%nat).
  by destruct (Hst idx).
Qed.

Lemma machine_pair_timeout idx a w frame :
  request sys devs (SendSetPair idx) = Some (Ok frame) →
  next_reply (replies w) = None →
  hs_rel sys devs (view (SendSetPair idx) a w)
    (view (pair_or_end devs (S idx)) a
       (MkWorld (port_opens w) (tail (replies w)) (trace w ++ [Tx frame]))).
Proof.
  intros Hreq Hr. unfold hs_rel, hs_step, view.
  cbn [phase attempt pending sent]. by rewrite Hreq, Hr.
Qed.

(** Run [_send_and_wait] and split on its outcome; a timeout outside
    Step 5 ends the attempt with the machine's timeout move. *)
Ltac await_reply w0 Hrun :=
  rewrite (bind_run _ _ _ _ _ (run_send_and_wait _ w0));
  let r := fresh "r" in
  let Hr := fresh "Hr" in
  destruct (next_reply (replies w0)) as [r|] eqn:Hr;
  cbn [unless_none];
  [ | exists Continue; eexists; split; [reflexivity |];
      eapply rtc_r; [exact Hrun |];
      eapply machine_timeout; [first [reflexivity | eassumption] | done
                              | exact Hr] ].

(** Forget the world reached so far, keeping the run that led to it. *)
Ltac forget_world w0 Hrun Hstep :=
  let Hrun' := fresh "Hrun" in
  pose proof (rtc_r _ _ _ Hrun Hstep) as Hrun';
  clear Hrun Hstep; rename Hrun' into Hrun;
  match goal with
  | |- context [(handshaking _ _, ?wc)] =>
      let w' := fresh "w" in
      set (w' := wc) in *; clearbody w'; clear dependent w0;
      rename w' into w0
  end.

Ltac reply_plain st w0 Hrun :=
  match type of Hrun with
  | rtc _ _ (view _ ?a _) =>
      match goal with
      | Hr : next_reply (replies w0) = Some _ |- _ =>
          let Hstep := fresh "Hstep" in
          pose proof (machine_reply_plain st a w0 _ _ eq_refl eq_refl Hr)
            as Hstep;
          forget_world w0 Hrun Hstep
      end
  end.

Ltac reply_acked st w0 Hrun :=
  rewrite (bind_run (lift build_ack) _ _ _ _ eq_refl);
  rewrite (bind_run _ _ _ _ _ (run_write_frame _ _));
  match type of Hrun with
  | rtc _ _ (view _ ?a _) =>
      match goal with
      | Hr : next_reply (replies w0) = Some _ |- _ =>
          let Hstep := fresh "Hstep" in
          first
            [ pose proof (machine_reply_acked st a w0 _ _ _ eq_refl eq_refl
                            eq_refl Hr) as Hstep
            | match goal with
              | Hreq : request _ _ st = Some _ |- _ =>
                  pose proof (machine_reply_acked st a w0 _ _ _ Hreq eq_refl
                                eq_refl Hr) as Hstep
              end ];
          cbv zeta in Hstep;
          forget_world w0 Hrun Hstep
      end
  end.

(** Step 5 walks the machine through its SetPair states, registering or
    skipping each device, and never gives the sequence up. *)
Lemma register_paired_refines rest : ∀ idx a w,
  drop idx devs = rest →
  ∃ w',
    register_paired idx rest (handshaking sys devs, w)
    = (Ok tt, (handshaking sys devs, w')) ∧
    rtc (hs_rel sys devs) (view (pair_or_end devs idx) a w)
        (view SendInitEnd a w').
Proof.
  induction rest as [|device rest IH]; intros idx a w Hdrop.
  - exists w. split; [reflexivity |].
    unfold pair_or_end.
    assert (length devs ≤ idx) as Hlen.
    { destruct (decide (length devs ≤ idx)); [done |].
      apply (f_equal length) in Hdrop. rewrite length_drop in Hdrop.
      simpl in Hdrop. lia. }
    apply Nat.ltb_ge in Hlen as ->. apply rtc_refl.
  - assert (devs !! idx = Some device) as Hdev.
    { pose proof (lookup_drop devs idx 0) as H.
      rewrite Hdrop, Nat.add_0_r in H. by simpl in H. }
    assert (drop (S idx) devs = rest) as Hrest.
    { replace (S idx) with (idx + 1) by lia.
      by rewrite <- drop_drop, Hdrop. }
    pose proof (lookup_lt_Some _ _ _ Hdev) as Hlt.
    destruct (build_set_pair_total (Z.of_nat idx) device) as [f Hf].
    assert (request sys devs (SendSetPair idx) = Some (Ok f)) as Hreq.
    { simpl. by rewrite Hdev, <- Hf. }
    assert (pair_or_end devs idx = SendSetPair idx) as ->.
    { unfold pair_or_end. by apply Nat.ltb_lt in Hlt as ->. }
    cbn [register_paired]. rewrite Hf.
    rewrite (bind_run (lift (Ok f)) _ _ _ _ eq_refl).
    rewrite (bind_run _ _ _ _ _ (run_send_and_wait _ _)).
    destruct (next_reply (replies w)) as [r|] eqn:Hr.
    + rewrite (bind_run (let* ack := lift build_ack in _write_frame ack)
                 _ _ tt _ (run_write_frame _ _)).
      edestruct (IH (S idx) a) as (w' & Hrun & Hrtc); [exact Hrest |].
      exists w'. split; [exact Hrun |].
      eapply rtc_l; [| exact Hrtc].
      by eapply machine_reply_acked.
    + rewrite (bind_run (ret tt) _ _ tt _ eq_refl).
      edestruct (IH (S idx) a) as (w' & Hrun & Hrtc); [exact Hrest |].
      exists w'. split; [exact Hrun |].
      eapply rtc_l; [| exact Hrtc].
      by eapply machine_pair_timeout.
Qed.

(** One attempt either completes the machine's run to Ready, or stops at
    the first timeout outside Step 5 and hands the machine its timeout
    move. *)
Lemma init_attempt_refines a w :
  ∃ f w',
    init_attempt (handshaking sys devs, w)
    = (Ok f,
       (match f with
        | Return => set_initialized true (handshaking sys devs)
        | Continue => handshaking sys devs
        end, w')) ∧
    rtc (hs_rel sys devs) (view SendInit1 a w)
      match f with
      | Return => view Ready a w'
      | Continue =>
          view (on_timeout devs SendInit1 a).1
               (on_timeout devs SendInit1 a).2 w'
      end.
Proof.
  destruct (build_set_dongle_total sys) as [fd Hfd].
  assert (request sys devs SendSetDongle = Some (Ok fd)) as Hreqd
    by (simpl; by rewrite Hfd).
  pose proof (rtc_refl (hs_rel sys devs) (view SendInit1 a w)) as Hrun.
  unfold init_attempt.
  rewrite (bind_run self _ _ _ _ eq_refl).
  change (_system_code (handshaking sys devs, w).1) with sys.
  change (_paired_devices (handshaking sys devs, w).1) with devs.
  rewrite Hfd.
  revert Hrun. generalize w at 2 3 as w0. intros w0 Hrun.
  (* Step 1: Init1 *)
  rewrite (bind_run (lift build_init1) _ _ _ _ eq_refl).
  await_reply w0 Hrun.
  reply_plain SendInit1 w0 Hrun.
  (* Step 2: Init2 *)
  rewrite (bind_run (lift build_init2) _ _ _ _ eq_refl).
  await_reply w0 Hrun.
  reply_plain SendInit2 w0 Hrun.
  (* Step 3: SetDongle *)
  rewrite (bind_run (lift (Ok fd)) _ _ _ _ eq_refl).
  await_reply w0 Hrun.
  reply_acked SendSetDongle w0 Hrun.
  (* Step 4: Init3 *)
  rewrite (bind_run (lift build_init3) _ _ _ _ eq_refl).
  await_reply w0 Hrun.
  reply_acked SendInit3 w0 Hrun.
  (* Step 5: SetPair for each device *)
  destruct (register_paired_refines devs 0 a w0 eq_refl)
    as (w1 & Hpairs & Hrtc).
  rewrite (bind_run _ _ _ _ _ Hpairs).
  pose proof (rtc_trans _ _ _ Hrun Hrtc) as Hrun'.
  clear Hrun Hrtc Hpairs w0. rename w1 into w0, Hrun' into Hrun.
  (* Step 6: InitEnd *)
  rewrite (bind_run (lift build_init_end) _ _ _ _ eq_refl).
  await_reply w0 Hrun.
  reply_acked SendInitEnd w0 Hrun.
  (* Step 7: status broadcast *)
  rewrite (bind_run (lift build_status_request_broadcast) _ _ _ _ eq_refl).
  await_reply w0 Hrun.
  reply_acked SendStatusBroadcast w0 Hrun.
  exists Return. eexists. split; [reflexivity | exact Hrun].
Qed.

(** The retry loop: the machine reaches Ready when an attempt returns,
    and Failed when the last attempt gives up. *)
Lemma init_attempts_refines n : ∀ a w,
  0 < n → a + n = INIT_RETRY_COUNT →
  ∃ r s' w' st a',
    init_attempts (seq a n) (handshaking sys devs, w) = (r, (s', w')) ∧
    rtc (hs_rel sys devs) (view SendInit1 a w) (view st a' w') ∧
    (r = Ok tt ∧ st = Ready ∧
       s' = set_initialized true (handshaking sys devs) ∨
     r = Raise Py.ConnectionError ∧ st = Failed ∧
       s' = handshaking sys devs).
Proof.
  induction n as [|n IH]; intros a w Hn Ha; [lia |].
  cbn [seq init_attempts].
  destruct (init_attempt_refines a w) as (f & w1 & Hrun & Hrtc).
  rewrite (bind_run _ _ _ _ _ Hrun). destruct f.
  - eexists _, _, _, Ready, a. split; [reflexivity |]. split; [exact Hrtc |].
    by left.
  - unfold on_timeout in Hrtc. destruct n as [|n].
    + assert ((S a <? INIT_RETRY_COUNT)%nat = false) as Hlast
        by (apply Nat.ltb_ge; lia).
      rewrite Hlast in Hrtc.
      eexists _, _, _, Failed, a. split; [reflexivity |].
      split; [exact Hrtc |]. by right.
    + assert ((S a <? INIT_RETRY_COUNT)%nat = true) as Hmore
        by (apply Nat.ltb_lt; lia).
      rewrite Hmore in Hrtc.
      destruct (IH (S a) w1) as (r & s' & w' & st & a' & Hloop & Hrtc' & Hres);
        [lia | lia |].
      exists r, s', w', st, a'. split; [exact Hloop |].
      split; [| exact Hres]. by eapply rtc_trans.
Qed.

(** An attempt whose first await times out sends Init1 and nothing else. *)
Lemma init_attempt_silent w :
  next_reply (replies w) = None →
  init_attempt (handshaking sys devs, w)
  = (Ok Continue,
     (handshaking sys devs,
      MkWorld (port_opens w) (tail (replies w))
        (trace w ++ [Tx (0x01 :: replicate 21 0)%Z]))).
Proof.
  intros Hr. unfold init_attempt.
  rewrite (bind_run self _ _ _ _ eq_refl).
  rewrite (bind_run (lift build_init1) _ _ _ _ eq_refl).
  rewrite (bind_run _ _ _ _ _ (run_send_and_wait _ w)).
  by rewrite Hr.
Qed.

(** With nothing ever arriving, every attempt of the loop is such an
    attempt, and the loop ends on its final [raise]. *)
Lemma init_attempts_silent n : ∀ a w,
  Forall (λ r, r = None) (replies w) →
  init_attempts (seq a n) (handshaking sys devs, w)
  = (Raise Py.ConnectionError,
     (handshaking sys devs,
      MkWorld (port_opens w) (drop n (replies w))
        (trace w ++ replicate n (Tx (0x01 :: replicate 21 0)%Z)))).
Proof.
  induction n as [|n IH]; intros a [po rs t] Hrs; cbn [seq init_attempts].
  - unfold raise. simpl. by rewrite app_nil_r, drop_0.
  - simpl in Hrs.
    assert (next_reply rs = None ∧ Forall (λ r, r = None) (tail rs))
      as [Hr Htail].
    { destruct Hrs as [|r rs' Hnone Hrs]; [done |]. by subst r. }
    rewrite (bind_run _ _ _ _ _
               (init_attempt_silent (MkWorld po rs t) Hr)).
    rewrite IH by exact Htail.
    cbn [port_opens replies trace replicate].
    rewrite <- app_assoc.
    destruct rs as [|r rs']; simpl; [by rewrite drop_nil | done].
Qed.

End HandshakeFacts.

Section Handshake.
Import Const Protocol Stick HandshakeSpec.
Local Open Scope stick_scope.

(** C2.  [connect] runs the handshake machine of the specification: from
    SendInit1 with no attempt given up, on the same replies, it sends the
    same frames and ends in Ready (connected) or in Failed with a
    [ConnectionError].  In that machine a timeout in a SetPair state moves
    on to the next state within the same attempt, and a timeout in any
    other state goes back to SendInit1 with one more attempt given up, or
    to Failed once 4 attempts are used.  When no reply ever arrives,
    [connect] raises [ConnectionError] after writing exactly 4 frames, each
    of them Init1. *)
Theorem handshake_restarts_from_init1
    (sys : DuoFernId) (devs : list DuoFernId)
    (rs : list (option bytearray)) :
  let run := connect (DuoFernStick_init sys devs, MkWorld true rs []) in
  (∀ st a pend out frame,
     request sys devs st = Some (Ok frame) → next_reply pend = None →
     hs_step sys devs (MkConfig st a pend out) =
       Some (MkConfig
               match st with
               | SendSetPair idx => pair_or_end devs (S idx)
               | _ => if (S a <? 4)%nat then SendInit1 else Failed
               end
               match st with
               | SendSetPair _ => a
               | _ => if (S a <? 4)%nat then S a else a
               end
               (tail pend) (out ++ [Tx frame]))) ∧
  (∃ st a,
     rtc (hs_rel sys devs) (MkConfig SendInit1 0 rs [])
       (MkConfig st a (replies run.2.2) (trace run.2.2)) ∧
     (run.1 = Ok tt ∧ st = Ready ∧ connected run.2.1 = true ∨
      run.1 = Raise Py.ConnectionError ∧ st = Failed ∧
        connected run.2.1 = false)) ∧
  (Forall (λ r, r = None) rs →
     run.1 = Raise Py.ConnectionError ∧
     build_init1 = Ok (0x01 :: replicate 21 0)%Z ∧
     trace run.2.2 = replicate 4 (Tx (0x01 :: replicate 21 0)%Z)).
Proof.
  intros run.
  assert (Hconnect : ∀ w, port_opens w = true →
            connect (DuoFernStick_init sys devs, w) =
            bind _init_sequence (λ _, update (set_queue_task true))
              (handshaking sys devs, w)).
  { intros [po rs' t] Hpo. simpl in Hpo. subst po. reflexivity. }
  split; [| split].
  - intros st a pend out frame Hreq Hr. unfold hs_step.
    cbn [phase attempt pending sent]. rewrite Hreq, Hr.
    change build_ack with (Ok (0x81 :: replicate 21 0)%Z).
    unfold on_timeout, INIT_RETRY_COUNT.
    destruct st; try done; by destruct (S a <? 4)%nat.
  - subst run. rewrite Hconnect by done. unfold _init_sequence.
    destruct (init_attempts_refines sys devs INIT_RETRY_COUNT 0
                (MkWorld true rs []))
      as (r & s' & w' & st & a' & Hloop & Hrtc & Hres);
      [unfold INIT_RETRY_COUNT; lia | done |].
    exists st, a'.
    destruct Hres as [(-> & -> & ->) | (-> & -> & ->)].
    + rewrite (bind_run _ _ _ _ _ Hloop). split; [exact Hrtc |]. by left.
    + unfold bind. rewrite Hloop. split; [exact Hrtc |]. by right.
  - intros Hrs. subst run. rewrite Hconnect by done.
    unfold _init_sequence, bind.
    rewrite (init_attempts_silent sys devs) by exact Hrs.
    done.
Qed.

Lemma handshake_restarts_from_init1_witness :
  let sys := MkDuoFernId [0x6F; 0x1A; 0x2B]%Z in
  let devs := [MkDuoFernId [0x40; 0x12; 0x34]%Z] in
  let run := connect (DuoFernStick_init sys devs,
                      MkWorld true [None; None; None; None; None] []) in
  run.1 = Raise Py.ConnectionError ∧
  trace run.2.2 = replicate 4 (Tx (0x01 :: replicate 21 0)%Z).
Proof.
  intros sys devs run.
  destruct (handshake_restarts_from_init1 sys devs
              [None; None; None; None; None])
    as (_ & _ & Hsilent).
  destruct Hsilent as (Hraise & _ & Htrace); [by repeat constructor |].
  by split.
Defined.

End Handshake.

(* ===================================================================== *)
(** * Malformed input at the boundary                                     *)
(* ===================================================================== *)

Section MalformedInput.
Import Const Protocol.

(** What [fromhex] accepts: at most one byte per two characters, and
    exactly one only if every character is a hexadecimal digit. *)
Lemma fromhex_accepts (s : string) : ∀ bs,
  Py.fromhex s = Ok bs →
  2 * length bs ≤ String.length s ∧
  (2 * length bs = String.length s →
   ∀ c, In c (String.list_ascii_of_string s) → is_Some (Py.hex_digit c)).
Proof.
  remember (String.length s) as n eqn:Hn. revert s Hn.
  induction (lt_wf n) as [n _ IH]. intros s -> bs.
  destruct s as [|c rest]; simpl.
  { intros [= <-]. split; [done |]. intros _ c []. }
  destruct (Py.is_space c).
  { intros Hrest.
    destruct (IH (String.length rest) (Nat.lt_succ_diag_r _) rest eq_refl
                bs Hrest) as [Hle _].
    split; [lia | intros; lia]. }
  destruct (Py.hex_digit c) as [top|] eqn:Hc; [| done].
  destruct rest as [|d rest']; [done |].
  destruct (Py.hex_digit d) as [bot|] eqn:Hd; [| done].
  destruct (Py.fromhex rest') as [bs'|] eqn:Hrest; [| done].
  intros [= <-]. simpl.
  destruct (IH (String.length rest') ltac:(simpl; lia) rest' eq_refl
              bs' Hrest) as [Hle Hhex].
  split; [lia |].
  intros Hlen x [<- | [<- | Hx]]; [by rewrite Hc | by rewrite Hd |].
  apply Hhex; [lia | done].
Qed.

Lemma fromhex_raises (s : string) : ∀ e,
  Py.fromhex s = Raise e → e = Py.ValueError.
Proof.
  remember (String.length s) as n eqn:Hn. revert s Hn.
  induction (lt_wf n) as [n _ IH]. intros s -> e.
  destruct s as [|c rest]; simpl; [done |].
  destruct (Py.is_space c).
  { apply (IH (String.length rest) (Nat.lt_succ_diag_r _) rest eq_refl). }
  destruct (Py.hex_digit c); [| by intros [= <-]].
  destruct rest as [|d rest']; [by intros [= <-] |].
  destruct (Py.hex_digit d); [| by intros [= <-]].
  destruct (Py.fromhex rest') as [bs'|e'] eqn:Hrest; [done |].
  intros [= <-].
  by apply (IH (String.length rest') ltac:(simpl; lia) rest' eq_refl).
Qed.

(** The identifier half of the boundary: [from_hex] returns an identifier
    only for exactly 6 hexadecimal digits, the identifier is 3 bytes long,
    and every other string raises [ValueError]. *)
Lemma from_hex_strict (s : string) :
  (∀ d, from_hex s = Ok d →
     String.length s = 6 ∧ length (raw d) = 3 ∧
     ∀ c, In c (String.list_ascii_of_string s) → is_Some (Py.hex_digit c)) ∧
  (∀ e, from_hex s = Raise e → e = Py.ValueError).
Proof.
  unfold from_hex, DuoFernId_new.
  destruct (Nat.eqb_spec (String.length s) 6) as [Hlen|Hlen]; simpl;
    [| split; [done | by intros e [= <-]]].
  destruct (Py.fromhex s) as [r|e'] eqn:Hr; simpl.
  - destruct (Nat.eqb_spec (length r) 3) as [Hr3|Hr3]; simpl;
      [| split; [done | by intros e [= <-]]].
    split; [| done]. intros d [= <-]. simpl.
    destruct (fromhex_accepts s r Hr) as [_ Hhex].
    repeat split; [done | done |]. apply Hhex. lia.
  - split; [done |]. intros e [= <-]. by eapply fromhex_raises.
Qed.

(** The frame half holds for [bytes] and [bytearray] input. *)
Lemma ensure_bytes_strict_on_bytes (b : bytearray) :
  _ensure_bytes (Bytes b) =
    if decide (length b = 22) then Ok b else Raise Py.ValueError.
Proof.
  unfold _ensure_bytes, FRAME_SIZE_BYTES.
  destruct (Nat.eqb_spec (length b) 22); by case_decide.
Qed.

(** C8, where the code departs from it.  A 44-character string made of 42
    hexadecimal digits and two spaces passes the length test of
    [_ensure_bytes]; [fromhex] skips the spaces, so the decoder works on a
    21-byte frame instead of raising: the frame is classified and
    dispatched. *)
Theorem ensure_bytes_accepts_short_frame :
  let s := "000000000000000000000000000000000000000000  " in
  String.length s = 44 ∧
  _ensure_bytes (Str s) = Ok (replicate 21 0%Z) ∧
  is_ack (Str s) = Ok false ∧
  should_dispatch (Str s) = Ok true.
Proof. repeat split. Qed.

End MalformedInput.

(* ===================================================================== *)
(** * Hexadecimal text and validation                                     *)
(* ===================================================================== *)

Section HexFacts.
Import Const Protocol ProtocolUtil.

Lemma nibbles v :
  (0 ≤ v < 256)%Z →
  (0 ≤ Z.shiftr v 4 < 16 ∧ 0 ≤ Z.land v 0x0F < 16 ∧
   Z.shiftr v 4 * 16 + Z.land v 0x0F = v)%Z.
Proof.
  intros Hv. rewrite Z.shiftr_div_pow2 by lia.
  change 0x0F%Z with (Z.ones 4). rewrite Z.land_ones by lia.
  change (2 ^ 4)%Z with 16%Z.
  pose proof (Z.div_mod v 16). pose proof (Z.mod_pos_bound v 16).
  split; [| lia]. split; [apply Z.div_pos; lia |].
  apply Z.div_lt_upper_bound; lia.
Qed.

Lemma join_nibbles top bot :
  (0 ≤ top < 16 → 0 ≤ bot < 16 →
   0 ≤ top * 16 + bot < 256 ∧
   Z.shiftr (top * 16 + bot) 4 = top ∧ Z.land (top * 16 + bot) 0x0F = bot)%Z.
Proof.
  intros Ht Hb. rewrite Z.shiftr_div_pow2 by lia.
  change 0x0F%Z with (Z.ones 4). rewrite Z.land_ones by lia.
  change (2 ^ 4)%Z with 16%Z.
  split; [lia |]. split.
  - rewrite Z.div_add_l by lia. rewrite Z.div_small by lia. lia.
  - rewrite Z.add_comm, Z.mod_add by lia. apply Z.mod_small. lia.
Qed.

(** A digit printed by [hex_char], in either case, reads back. *)
Lemma hex_char_reads_back n :
  (0 ≤ n < 16)%Z →
  Py.hex_digit (hex_char n) = Some n ∧
  Py.hex_digit (upper_char (hex_char n)) = Some n ∧
  Py.is_space (hex_char n) = false ∧
  Py.is_space (upper_char (hex_char n)) = false.
Proof.
  intros Hn. replace n with (Z.of_nat (Z.to_nat n)) by lia.
  assert (Z.to_nat n < 16) as Hk by lia. revert Hk.
  generalize (Z.to_nat n) as k. intros k Hk.
  do 16 (destruct k as [|k]; [by vm_compute |]). lia.
Qed.

(** What a hexadecimal digit is: its value, the digit [hex_char] prints
    for it, and that it is no whitespace. *)
Lemma hex_digit_inv c n :
  Py.hex_digit c = Some n →
  (0 ≤ n < 16)%Z ∧ upper_char (hex_char n) = upper_char c ∧
  Py.is_space c = false ∧
  Ascii.eqb (Ascii.ascii_of_nat 54) (upper_char c) = (n =? 6)%Z ∧
  Ascii.eqb (Ascii.ascii_of_nat 70) (upper_char c) = (n =? 15)%Z.
Proof.
  intros H.
  destruct c as [[] [] [] [] [] [] [] []]; vm_compute in H;
    try discriminate H; injection H as <-; by vm_compute.
Qed.

Lemma bytes_hex_length (b : bytearray) :
  String.length (bytes_hex b) = 2 * length b.
Proof. induction b as [|v b IH]; simpl; [done | rewrite IH; lia]. Qed.

Lemma upper_length s : String.length (upper s) = String.length s.
Proof. induction s as [|c s IH]; simpl; [done | by rewrite IH]. Qed.

Lemma fromhex_bytes_hex (b : bytearray) :
  Forall (λ v, 0 ≤ v < 256)%Z b →
  Py.fromhex (upper (bytes_hex b)) = Ok b.
Proof.
  induction 1 as [|v b Hv Hb IH]; [done |].
  destruct (nibbles v Hv) as (Hhi & Hlo & Hjoin).
  destruct (hex_char_reads_back _ Hhi) as (_ & Hd1 & _ & Hs1).
  destruct (hex_char_reads_back _ Hlo) as (_ & Hd2 & _ & _).
  cbn [bytes_hex upper Py.fromhex].
  rewrite Hs1, Hd1, Hd2, IH. simpl. by rewrite Hjoin.
Qed.

(** Without whitespace [fromhex] turns every two characters into one
    byte. *)
Lemma fromhex_dense (s : string) : ∀ bs,
  Py.fromhex s = Ok bs →
  (∀ c, In c (String.list_ascii_of_string s) → Py.is_space c = false) →
  2 * length bs = String.length s.
Proof.
  remember (String.length s) as n eqn:Hn. revert s Hn.
  induction (lt_wf n) as [n _ IH]. intros s -> bs.
  destruct s as [|c rest]; simpl.
  { by intros [= <-]. }
  intros Hparse Hns. rewrite (Hns c) in Hparse by auto.
  destruct (Py.hex_digit c) as [top|]; [| done].
  destruct rest as [|d rest']; [done |].
  destruct (Py.hex_digit d) as [bot|]; [| done].
  destruct (Py.fromhex rest') as [bs'|] eqn:Hrest; [| done].
  injection Hparse as <-. simpl.
  rewrite <- (IH (String.length rest') ltac:(simpl; lia) rest' eq_refl bs'
                Hrest); [lia |].
  intros x Hx. apply Hns. simpl. auto.
Qed.

(** Read from text that is all digits, the bytes print back to that text,
    up to letter case. *)
Lemma fromhex_prints_back (s : string) : ∀ bs,
  Py.fromhex s = Ok bs →
  2 * length bs = String.length s →
  upper (bytes_hex bs) = upper s ∧ Forall (λ v, 0 ≤ v < 256)%Z bs.
Proof.
  remember (String.length s) as n eqn:Hn. revert s Hn.
  induction (lt_wf n) as [n _ IH]. intros s -> bs.
  destruct s as [|c rest]; simpl.
  { by intros [= <-]. }
  destruct (Py.is_space c).
  { intros Hrest Hlen.
    destruct (fromhex_accepts rest bs Hrest) as [Hle _]. lia. }
  destruct (Py.hex_digit c) as [top|] eqn:Hc; [| done].
  destruct rest as [|d rest']; [done |].
  destruct (Py.hex_digit d) as [bot|] eqn:Hd; [| done].
  destruct (Py.fromhex rest') as [bs'|] eqn:Hrest; [| done].
  intros [= <-] Hlen. simpl in Hlen.
  destruct (IH (String.length rest') ltac:(simpl; lia) rest' eq_refl bs'
              Hrest ltac:(lia)) as [Hback Hbytes].
  destruct (hex_digit_inv c top Hc) as (Ht & Hct & _).
  destruct (hex_digit_inv d bot Hd) as (Hb & Hdb & _).
  destruct (join_nibbles top bot Ht Hb) as (Hv & Hhi & Hlo).
  split; [| by constructor].
  cbn [bytes_hex upper]. by rewrite Hhi, Hlo, Hct, Hdb, Hback.
Qed.

(** X1.  An identifier and its hexadecimal text determine each other:
    the text of a 3-byte identifier parses back to it, and an identifier
    parsed from a text prints as that text in upper case. *)
Theorem identifier_hex_round_trip :
  (∀ d, length (raw d) = 3 → Forall (λ v, 0 ≤ v < 256)%Z (raw d) →
     String.length (hex d) = 6 ∧ from_hex (hex d) = Ok d) ∧
  (∀ s d, from_hex s = Ok d →
     hex d = upper s ∧ Forall (λ v, 0 ≤ v < 256)%Z (raw d)).
Proof.
  split.
  - intros [r] Hlen Hbytes. simpl in *. unfold from_hex, hex. simpl.
    rewrite upper_length, bytes_hex_length, Hlen. simpl.
    split; [done |]. rewrite (fromhex_bytes_hex r Hbytes). simpl.
    unfold DuoFernId_new. by rewrite Hlen.
  - intros s d. unfold from_hex, DuoFernId_new, hex.
    destruct (Nat.eqb_spec (String.length s) 6) as [Hlen|]; [| done].
    simpl. destruct (Py.fromhex s) as [r|] eqn:Hr; [| done]. simpl.
    destruct (Nat.eqb_spec (length r) 3) as [Hr3|]; [| done].
    intros [= <-]. simpl. apply (fromhex_prints_back s r Hr). lia.
Qed.

Lemma identifier_hex_round_trip_witness :
  hex (MkDuoFernId [0x6F; 0x1A; 0x2B]%Z) = "6F1A2B" ∧
  from_hex (hex (MkDuoFernId [0x6F; 0x1A; 0x2B]%Z))
  = Ok (MkDuoFernId [0x6F; 0x1A; 0x2B]%Z) ∧
  hex (MkDuoFernId [0x6F; 0x1A; 0x2B]%Z) = upper "6f1a2b".
Proof.
  destruct identifier_hex_round_trip as [Hprint Hparse].
  split; [reflexivity |]. split.
  - apply (Hprint (MkDuoFernId [0x6F; 0x1A; 0x2B]%Z)); [reflexivity |].
    repeat constructor; lia.
  - apply (Hparse "6f1a2b"). reflexivity.
Defined.

(** X2.  A frame printed as hexadecimal text parses back to the same
    frame, and a decoder handed the text of a 22-byte frame answers as it
    does on the bytes. *)
Theorem frame_hex_round_trip (frame : bytearray) :
  Forall (λ v, 0 ≤ v < 256)%Z frame →
  String.length (frame_to_hex frame) = 2 * length frame ∧
  hex_to_frame (frame_to_hex frame) = Ok frame ∧
  (length frame = 22 →
   _ensure_bytes (Str (frame_to_hex frame)) = Ok frame ∧
   is_ack (Str (frame_to_hex frame)) = is_ack (Bytes frame) ∧
   classify_message (Str (frame_to_hex frame))
     = classify_message (Bytes frame) ∧
   extract_device_code (Str (frame_to_hex frame))
     = extract_device_code (Bytes frame) ∧
   is_status_response (Str (frame_to_hex frame))
     = is_status_response (Bytes frame) ∧
   is_pair_response (Str (frame_to_hex frame))
     = is_pair_response (Bytes frame) ∧
   is_unpair_response (Str (frame_to_hex frame))
     = is_unpair_response (Bytes frame) ∧
   is_broadcast_status_ack (Str (frame_to_hex frame))
     = is_broadcast_status_ack (Bytes frame) ∧
   parse_status (Str (frame_to_hex frame)) = parse_status (Bytes frame) ∧
   should_dispatch (Str (frame_to_hex frame))
     = should_dispatch (Bytes frame)).
Proof.
  intros Hbytes. unfold frame_to_hex, hex_to_frame.
  rewrite upper_length, bytes_hex_length.
  pose proof (fromhex_bytes_hex frame Hbytes) as Hback.
  split; [done |]. split; [done |]. intros Hlen.
  assert (_ensure_bytes (Str (upper (bytes_hex frame))) = Ok frame) as Hs.
  { unfold _ensure_bytes, FRAME_SIZE_HEX.
    by rewrite upper_length, bytes_hex_length, Hlen. }
  pose proof (ensure_bytes_frame frame Hlen) as Hb.
  unfold is_ack, classify_message, extract_device_code, is_status_response,
    is_pair_response, is_unpair_response, is_broadcast_status_ack,
    parse_status, should_dispatch.
  by rewrite Hs, Hb.
Qed.

Lemma frame_hex_round_trip_witness :
  frame_to_hex (0x81 :: replicate 21 0)%Z
  = "81000000000000000000000000000000000000000000" ∧
  is_ack (Str (frame_to_hex (0x81 :: replicate 21 0)%Z)) = Ok true.
Proof.
  split; [reflexivity |].
  destruct (frame_hex_round_trip (0x81 :: replicate 21 0)%Z)
    as (_ & _ & Hdec).
  { repeat constructor; lia. }
  destruct (Hdec eq_refl) as (_ & -> & _). reflexivity.
Defined.

Lemma fromhex_succeeds_total s :
  fromhex_succeeds s = Ok (Py.is_ok (Py.fromhex s)).
Proof.
  unfold fromhex_succeeds.
  destruct (Py.fromhex s) as [bs|e] eqn:Hs; [done |].
  by rewrite (fromhex_raises s e Hs).
Qed.

(** X3.  [validate_device_code] never raises.  It accepts every text
    [from_hex] accepts; the converse holds for a text without whitespace,
    and fails otherwise: six characters with two blanks in the middle are
    a valid device code that [from_hex] rejects. *)
Theorem validate_device_code_and_from_hex (s : string) :
  (∃ b, validate_device_code s = Ok b) ∧
  (∀ d, from_hex s = Ok d → validate_device_code s = Ok true) ∧
  (validate_device_code s = Ok true →
   (∀ c, In c (String.list_ascii_of_string s) → Py.is_space c = false) →
   ∃ d, from_hex s = Ok d) ∧
  (validate_device_code "6F  1A" = Ok true ∧
   from_hex "6F  1A" = Raise Py.ValueError).
Proof.
  unfold validate_device_code, from_hex. rewrite fromhex_succeeds_total.
  destruct (Nat.eqb_spec (String.length s) 6) as [Hlen|Hlen]; simpl.
  2: { split; [eauto |]. repeat split; done. }
  destruct (Py.fromhex s) as [bs|e] eqn:Hs; simpl.
  2: { split; [eauto |]. repeat split; done. }
  split; [eauto |]. split; [done |]. split; [| done].
  intros _ Hns. pose proof (fromhex_dense s bs Hs Hns) as Hdense.
  unfold DuoFernId_new.
  destruct (Nat.eqb_spec (length bs) 3) as [|Hne]; simpl; [eauto | lia].
Qed.

Lemma validate_device_code_and_from_hex_witness :
  ∃ d, from_hex "401234" = Ok d.
Proof.
  destruct (validate_device_code_and_from_hex "401234")
    as (_ & _ & Hconv & _).
  apply Hconv; [reflexivity |].
  intros c Hc. simpl in Hc.
  repeat (destruct Hc as [<- | Hc]; [reflexivity |]). destruct Hc.
Defined.

(** X4.  [validate_system_code] never raises, a valid system code is a
    valid device code, and on every text that [from_hex] accepts,
    [validate_system_code] answers whether the first byte of the
    identifier is 0x6F. *)
Theorem validate_system_code_first_byte (s : string) :
  (∃ b, validate_system_code s = Ok b) ∧
  (validate_system_code s = Ok true → validate_device_code s = Ok true) ∧
  (∀ d, from_hex s = Ok d →
     validate_system_code s = Ok (bool_decide (raw d !! 0 = Some 0x6F%Z))).
Proof.
  unfold validate_system_code, validate_device_code.
  rewrite fromhex_succeeds_total. split; [| split].
  - destruct (String.length s =? 6)%nat; simpl; [| eauto].
    destruct (Py.fromhex s); simpl; eauto.
  - destruct (String.length s =? 6)%nat; simpl; [| done].
    by destruct (Py.fromhex s).
  - intros d Hd. destruct (from_hex_strict s) as [Hok _].
    destruct (Hok d Hd) as (Hlen & Hraw & Hhex).
    revert Hd. unfold from_hex, DuoFernId_new. rewrite Hlen. simpl.
    destruct (Py.fromhex s) as [bs|] eqn:Hs; [| done]. simpl.
    destruct (length bs =? 3)%nat; [| done]. intros [= <-]. simpl.
    destruct s as [|c1 [|c2 rest]]; try done.
    assert (is_Some (Py.hex_digit c1)) as [h1 H1] by (apply Hhex; simpl; auto).
    assert (is_Some (Py.hex_digit c2)) as [h2 H2] by (apply Hhex; simpl; auto).
    destruct (hex_digit_inv c1 h1 H1) as (Hh1 & _ & Hs1 & H6 & _).
    destruct (hex_digit_inv c2 h2 H2) as (Hh2 & _ & _ & _ & HF).
    revert Hs. cbn [Py.fromhex]. rewrite Hs1, H1, H2.
    destruct (Py.fromhex rest) as [bs'|]; [| done]. intros [= <-].
    cbn [upper startswith lookup list_lookup].
    change (Ascii.ascii_of_nat 54)
      with (Ascii.Ascii false true true false true true false false) in H6.
    change (Ascii.ascii_of_nat 70)
      with (Ascii.Ascii false true true false false false true false) in HF.
    assert (startswith (upper rest) "" = true) as -> by (by destruct rest).
    f_equal. rewrite H6, HF, andb_true_r.
    destruct (Z.eqb_spec h1 6) as [->|]; destruct (Z.eqb_spec h2 15) as [->|];
      simpl; symmetry;
      [reflexivity | apply bool_decide_eq_false; intros [=]; lia ..].
Qed.

Lemma validate_system_code_first_byte_witness :
  validate_system_code "6f1A2B" = Ok true ∧
  validate_system_code "401234" = Ok false.
Proof.
  split.
  - destruct (validate_system_code_first_byte "6f1A2B") as (_ & _ & H).
    apply (H (MkDuoFernId [0x6F; 0x1A; 0x2B]%Z)). reflexivity.
  - destruct (validate_system_code_first_byte "401234") as (_ & _ & H).
    apply (H (MkDuoFernId [0x40; 0x12; 0x34]%Z)). reflexivity.
Defined.

End HexFacts.

(* ===================================================================== *)
(** * Classification and reading frames back                              *)
(* ===================================================================== *)

(** Name the 22 bytes of a frame [b0] to [b21]. *)
Ltac frame_bytes frame H :=
  destruct frame as
    [|b0 [|b1 [|b2 [|b3 [|b4 [|b5 [|b6 [|b7 [|b8 [|b9 [|b10 [|b11 [|b12
     [|b13 [|b14 [|b15 [|b16 [|b17 [|b18 [|b19 [|b20 [|b21 [|? ?]]]]]]]]]]]
     ]]]]]]]]]]]];
  try discriminate H; clear H.

Section ClassificationFacts.
Import Const Protocol ProtocolUtil EncoderSpec.

(** X5.  [classify_message] never fails on a 22-byte frame and keeps the
    value of byte 0: as a member of the enumeration for the 14 known
    values, as a plain integer otherwise.  The five classification
    predicates agree with it, and at most one of them holds for a
    frame. *)
Theorem classification_consistent (frame : bytearray) :
  length frame = 22 →
  ∃ b0 c,
    frame !! 0 = Some b0 ∧
    classify_message (Bytes frame) = Ok c ∧
    classified_value c = b0 ∧
    (b0 ∈ MessageType_members → c = Member b0) ∧
    (b0 ∉ MessageType_members → c = Plain b0) ∧
    (is_ack (Bytes frame) = Ok true ↔ c = Member MessageType.ACK) ∧
    (is_status_response (Bytes frame) = Ok true →
     c = Member MessageType.STATUS) ∧
    (is_broadcast_status_ack (Bytes frame) = Ok true →
     c = Member MessageType.STATUS) ∧
    (is_pair_response (Bytes frame) = Ok true →
     c = Member MessageType.PAIR_RESPONSE) ∧
    (is_unpair_response (Bytes frame) = Ok true →
     c = Member MessageType.PAIR_RESPONSE) ∧
    let holds r := match r with Ok true => 1 | _ => 0 end in
    holds (is_ack (Bytes frame)) + holds (is_status_response (Bytes frame))
    + holds (is_broadcast_status_ack (Bytes frame))
    + holds (is_pair_response (Bytes frame))
    + holds (is_unpair_response (Bytes frame)) ≤ 1.
Proof.
  intros H. frame_bytes frame H.
  unfold classify_message, is_ack, is_status_response,
    is_broadcast_status_ack, is_pair_response, is_unpair_response,
    and_then, byte_is, MessageType_of_value.
  rewrite !ensure_bytes_frame by reflexivity.
  cbn -[Z.eqb MessageType_members bool_decide].
  exists b0.
  destruct (bool_decide_reflect (b0 ∈ MessageType_members)) as [Hin|Hout].
  - exists (Member b0). do 3 (split; [reflexivity |]).
    split; [done |]. split; [done |].
    unfold MessageType.ACK, MessageType.STATUS, MessageType.PAIR_RESPONSE.
    destruct (Z.eqb_spec b0 129); destruct (Z.eqb_spec b0 15);
      destruct (Z.eqb_spec b0 6); try lia;
      destruct (Z.eqb_spec b1 255); destruct (Z.eqb_spec b1 2);
      destruct (Z.eqb_spec b1 3); try lia;
      destruct (Z.eqb_spec b2 15); destruct (Z.eqb_spec b2 17); try lia;
      cbn; repeat split; intros; try done; try congruence; lia.
  - exists (Plain b0). do 3 (split; [reflexivity |]).
    split; [done |]. split; [done |].
    assert (b0 ≠ 129 ∧ b0 ≠ 15 ∧ b0 ≠ 6)%Z as (H129 & H15 & H6).
    { repeat split; intros ->; apply Hout;
        by apply (bool_decide_eq_true_1 _). }
    unfold MessageType.ACK.
    destruct (Z.eqb_spec b0 129); [done |].
    destruct (Z.eqb_spec b0 15); [done |].
    destruct (Z.eqb_spec b0 6); [done |].
    cbn. repeat split; intros; try done; lia.
Qed.

Lemma classification_consistent_witness :
  classify_message (Bytes (0x99 :: replicate 21 0)%Z) = Ok (Plain 0x99%Z).
Proof.
  destruct (classification_consistent (0x99 :: replicate 21 0)%Z eq_refl)
    as (b0 & c & [= <-] & -> & _ & _ & Hplain & _).
  f_equal. apply Hplain. by apply (bool_decide_eq_false_1 _).
Defined.

(** X6.  Whatever the encoder builds is of a known kind, and no outbound
    frame is taken for an inbound one: only the ACK frame satisfies
    [is_ack], none satisfies the status, pair or unpair predicates, and
    every frame except the ACK would be dispatched. *)
Theorem encoder_output_classified (m : message) (frame : bytearray) :
  Forall (λ d, length (raw d) = 3) (identifiers m) →
  encode m = Ok frame →
  (∃ k, classify_message (Bytes frame) = Ok (Member k)) ∧
  is_ack (Bytes frame) = Ok match m with Ack => true | _ => false end ∧
  is_status_response (Bytes frame) = Ok false ∧
  is_broadcast_status_ack (Bytes frame) = Ok false ∧
  is_pair_response (Bytes frame) = Ok false ∧
  is_unpair_response (Bytes frame) = Ok false ∧
  should_dispatch (Bytes frame) = Ok match m with Ack => false | _ => true end.
Proof.
  intros Hids.
  destruct m as [| |sys| |idx dev| | | |dev sys ty|cmd dev sys pos timer ch
                | | | |]; simpl in Hids; name_identifiers; simpl encode.
  1,2,4,6,7,8,11,12,13,14:
    (intros [= <-]; repeat split; try reflexivity; eexists; reflexivity).
  - intros [= <-]. repeat split; try reflexivity. eexists; reflexivity.
  - unfold build_set_pair.
    pose proof (byte_ok_mask idx) as Hm.
    set (v := Z.land idx 255) in *. clearbody v.
    unfold Py.setitem; rewrite Hm.
    intros [= <-]. repeat split; try reflexivity. eexists; reflexivity.
  - unfold build_status_request, Py.setitem.
    split_byte ty; [| done].
    intros [= <-]. repeat split; try reflexivity. eexists; reflexivity.
  - unfold build_cover_command, Py.setitem.
    split_byte ch; [| done].
    destruct cmd, timer; try destruct pos as [p|];
      try (pose proof (byte_ok_clamp p) as Hp;
           set (clamped := Z.max 0 (Z.min 100 p)) in *; clearbody clamped;
           simpl; rewrite Hp);
      intros [= <-]; repeat split; try reflexivity; eexists; reflexivity.
Qed.

Lemma encoder_output_classified_witness :
  let frame :=
    ([0x0D; 0xFF; 0x0F; 0x40] ++ replicate 14 0 ++ [0x40; 0x12; 0x34; 0x01])%Z
  in
  build_status_request (MkDuoFernId [0x40; 0x12; 0x34]%Z)
    (MkDuoFernId [0x6F; 0x1A; 0x2B]%Z) 0x0F = Ok frame ∧
  should_dispatch (Bytes frame) = Ok true.
Proof.
  intros frame. split; [reflexivity |].
  destruct (encoder_output_classified
              (StatusRequest (MkDuoFernId [0x40; 0x12; 0x34]%Z)
                 (MkDuoFernId [0x6F; 0x1A; 0x2B]%Z) 0x0F) frame)
    as (_ & _ & _ & _ & _ & _ & H); [repeat constructor | reflexivity |].
  exact H.
Defined.

(** X7.  Reading an outbound frame back.  A cover command carries its
    channel, its command code as a big-endian word, the system code at
    bytes 15..17 and the device code at bytes 18..20, so
    [extract_device_code] returns the system code, not the device that is
    addressed.  A status request leaves bytes 15..17 zero:
    [extract_device_code] returns the identifier 000000. *)
Theorem outbound_frame_reads_back (dev sys : DuoFernId) :
  length (raw dev) = 3 → length (raw sys) = 3 →
  (∀ cmd pos timer ch frame,
     build_cover_command cmd dev sys pos timer ch = Ok frame →
     frame !! 1 = Some ch ∧
     (∃ hi lo, frame !! 2 = Some hi ∧ frame !! 3 = Some lo ∧
               (hi * 256 + lo)%Z = CoverCommand_value cmd) ∧
     Py.getslice frame 15 18 = raw sys ∧
     Py.getslice frame 18 21 = raw dev ∧
     extract_device_code (Bytes frame) = Ok sys) ∧
  (∀ ty frame,
     build_status_request dev sys ty = Ok frame →
     frame !! 2 = Some ty ∧
     Py.getslice frame 18 21 = raw dev ∧
     extract_device_code (Bytes frame) = Ok (MkDuoFernId [0; 0; 0]%Z)).
Proof.
  intros Hdev Hsys. name_identifiers. split.
  - intros cmd pos timer ch frame.
    unfold build_cover_command, Py.setitem.
    split_byte ch; [| done].
    destruct cmd, timer; try destruct pos as [p|];
      try (pose proof (byte_ok_clamp p) as Hp;
           set (clamped := Z.max 0 (Z.min 100 p)) in *; clearbody clamped;
           simpl; rewrite Hp);
      intros [= <-]; repeat split; try reflexivity;
      eexists _, _; repeat split; reflexivity.
  - intros ty frame. unfold build_status_request, Py.setitem.
    split_byte ty; [| done].
    intros [= <-]. repeat split; reflexivity.
Qed.

Lemma outbound_frame_reads_back_witness :
  let frame :=
    ([0x0D; 0x01; 0x07; 0x01] ++ replicate 11 0
     ++ [0x6F; 0x1A; 0x2B; 0x40; 0x12; 0x34; 0x00])%Z in
  build_cover_command UP (MkDuoFernId [0x40; 0x12; 0x34]%Z)
    (MkDuoFernId [0x6F; 0x1A; 0x2B]%Z) None false 0x01 = Ok frame ∧
  extract_device_code (Bytes frame) = Ok (MkDuoFernId [0x6F; 0x1A; 0x2B]%Z).
Proof.
  intros frame. split; [reflexivity |].
  destruct (outbound_frame_reads_back (MkDuoFernId [0x40; 0x12; 0x34]%Z)
              (MkDuoFernId [0x6F; 0x1A; 0x2B]%Z) eq_refl eq_refl)
    as [Hcmd _].
  by destruct (Hcmd UP None false 0x01%Z frame eq_refl) as (_ & _ & _ & _ & ?).
Defined.

End ClassificationFacts.

(* ===================================================================== *)
(** * Status parsing, byte by byte                                        *)
(* ===================================================================== *)

Section StatusBytes.
Import Const Protocol ProtocolUtil.

(** A field that lies within bits 0..7 of a word is a field of the word's
    low byte. *)
Lemma extract_bits_low_byte hi lo from_bit to_bit :
  (0 ≤ from_bit ≤ to_bit → to_bit < 8 →
   extract_bits (Z.lor (Z.shiftl hi 8) lo) from_bit to_bit
   = extract_bits lo from_bit to_bit)%Z.
Proof.
  intros Hft Ht. unfold extract_bits.
  set (len := (to_bit - from_bit + 1)%Z).
  replace (Z.shiftl 1 len - 1)%Z with (Z.ones len)
    by (unfold Z.ones; lia).
  apply Z.bits_inj'. intros i Hi.
  rewrite !Z.land_spec, !Z.shiftr_spec by lia.
  destruct (Z.lt_ge_cases i len) as [Hlt|Hge].
  - rewrite Z.lor_spec, Z.shiftl_spec_low by lia. done.
  - rewrite Z.ones_spec_high by lia. by rewrite !andb_false_r.
Qed.

Lemma extract_bits_flag lo k :
  (0 ≤ k → Py.truthy (extract_bits lo k k) = Z.testbit lo k)%Z.
Proof.
  intros Hk. unfold extract_bits, Py.truthy.
  replace (k - k + 1)%Z with 1%Z by lia.
  change (Z.shiftl 1 1 - 1)%Z with (Z.ones 1).
  rewrite Z.land_ones by lia. change (2 ^ 1)%Z with 2%Z.
  rewrite <- Z.bit0_mod, Z.shiftr_spec by lia. rewrite Z.add_0_l.
  by destruct (Z.testbit lo k).
Qed.

(** X8.  What [parse_status_type40] reads from a status frame.  Every
    field comes from one byte: the flags from bits of bytes 4, 5, 6 and
    10, the three positions from the low 7 bits of bytes 6, 10 and 11, the
    version from byte 12.  The format byte 3 and bytes 7 to 9 and 13 to 21
    are not looked at, and a position lies in 0..127, not in 0..100. *)
Theorem parse_status_reads_single_bytes (frame : bytearray) :
  length frame = 22 →
  frame !! 0 = Some 0x0F%Z → frame !! 1 = Some 0xFF%Z →
  frame !! 2 = Some 0x0F%Z →
  ∃ b4 b5 b6 b10 b11 b12,
    frame !! 4 = Some b4 ∧ frame !! 5 = Some b5 ∧ frame !! 6 = Some b6 ∧
    frame !! 10 = Some b10 ∧ frame !! 11 = Some b11 ∧
    frame !! 12 = Some b12 ∧
    parse_status_type40 (Bytes frame) =
      Ok {| position := Some (b11 mod 128)%Z;
            moving := "stop";
            time_automatic := Some (Z.testbit b4 0);
            sun_automatic := Some (Z.testbit b4 2);
            dawn_automatic := Some (Z.testbit b5 3);
            dusk_automatic := Some (Z.testbit b4 3);
            manual_mode := Some (Z.testbit b4 7);
            ventilating_mode := Some (Z.testbit b6 7);
            sun_mode := Some (Z.testbit b10 7);
            sun_position := Some (b10 mod 128)%Z;
            ventilating_position := Some (b6 mod 128)%Z;
            version := Some (format_version b12) |} ∧
    (0 ≤ b11 mod 128 ≤ 127 ∧ 0 ≤ b10 mod 128 ≤ 127 ∧
     0 ≤ b6 mod 128 ≤ 127)%Z.
Proof.
  intros H. frame_bytes frame H. intros [= ->] [= ->] [= ->].
  exists b4, b5, b6, b10, b11, b12. do 6 (split; [reflexivity |]).
  split.
  - unfold parse_status_type40, is_status_response.
    rewrite !ensure_bytes_frame by reflexivity.
    unfold and_then, byte_is.
    cbn -[extract_bits format_version Z.lor Z.shiftl Z.modulo Z.testbit].
    rewrite !extract_bits_low_byte by lia.
    rewrite !extract_bits_flag by lia.
    rewrite !extract_low7. reflexivity.
  - pose proof (Z.mod_pos_bound b11 128).
    pose proof (Z.mod_pos_bound b10 128).
    pose proof (Z.mod_pos_bound b6 128). lia.
Qed.

Lemma parse_status_reads_single_bytes_witness :
  let frame :=
    ([0x0F; 0xFF; 0x0F; 0x21; 0x85; 0x08; 0x8A] ++ replicate 3 0
     ++ [0xE4; 0x7F; 0x23] ++ replicate 9 0)%Z in
  ∃ status,
    parse_status_type40 (Bytes frame) = Ok status ∧
    position status = Some 127%Z ∧ sun_position status = Some 100%Z ∧
    manual_mode status = Some true ∧ version status = Some "2.3".
Proof.
  intros frame.
  destruct (parse_status_reads_single_bytes frame eq_refl eq_refl eq_refl
              eq_refl)
    as (b4 & b5 & b6 & b10 & b11 & b12 & [= <-] & [= <-] & [= <-] & [= <-]
        & [= <-] & [= <-] & Hparse & _).
  eexists. split; [exact Hparse |]. repeat split.
Defined.

(** X9.  [parse_status] never fails on a 22-byte frame, and reports a
    position exactly for a status response whose byte 15 is a cover device
    type; any other frame gives the default status. *)
Theorem parse_status_gated_on_cover_type (frame : bytearray) :
  length frame = 22 →
  ∃ status b15,
    parse_status (Bytes frame) = Ok status ∧
    frame !! 15 = Some b15 ∧
    (is_Some (position status) ↔
       is_status_response (Bytes frame) = Ok true ∧
       b15 ∈ COVER_DEVICE_TYPES) ∧
    (position status = None → status = DeviceStatus_default).
Proof.
  intros H. frame_bytes frame H.
  unfold parse_status, extract_device_code_from_status, is_cover.
  rewrite !ensure_bytes_frame by reflexivity.
  cbn -[parse_status_type40 COVER_DEVICE_TYPES bool_decide
        is_status_response].
  destruct (bool_decide_reflect (b15 ∈ COVER_DEVICE_TYPES)) as [Hin|Hout].
  - unfold parse_status_type40, is_status_response.
    rewrite !ensure_bytes_frame by reflexivity.
    unfold and_then, byte_is.
    cbn -[extract_bits format_version Z.lor Z.shiftl Z.eqb
          COVER_DEVICE_TYPES].
    destruct (b0 =? 15)%Z; [destruct (b1 =? 255)%Z;
      [destruct (b2 =? 15)%Z |] |]; cbn -[extract_bits format_version
        Z.lor Z.shiftl COVER_DEVICE_TYPES];
      eexists _, _; (split; [reflexivity |]); (split; [reflexivity |]);
      cbn -[extract_bits Z.lor Z.shiftl COVER_DEVICE_TYPES];
      split; try done; split; try done;
      first [by intros [? ?] | by intros [[=] _] | by eauto].
  - eexists _, _. split; [reflexivity |]. split; [reflexivity |].
    simpl. split; [| done]. split; [by intros [? ?] | by intros [_ ?]].
Qed.

Lemma parse_status_gated_on_cover_type_witness :
  parse_status
    (Bytes ([0x0F; 0xFF; 0x0F; 0x21] ++ replicate 7 0 ++ [0x2A]
            ++ replicate 3 0 ++ [0xA0] ++ replicate 6 0)%Z)
  = Ok DeviceStatus_default.
Proof.
  destruct (parse_status_gated_on_cover_type
              ([0x0F; 0xFF; 0x0F; 0x21] ++ replicate 7 0 ++ [0x2A]
               ++ replicate 3 0 ++ [0xA0] ++ replicate 6 0)%Z eq_refl)
    as (status & b15 & -> & [= <-] & [Hcover _] & Hdefault).
  f_equal. apply Hdefault.
  destruct (position status) as [p|]; [| reflexivity].
  destruct Hcover as [_ Hin]; [by eexists |].
  by apply (bool_decide_eq_false_1 _) in Hin.
Defined.

End StatusBytes.

(* ===================================================================== *)
(** * More on the byte-stream framer                                      *)
(* ===================================================================== *)

Section FramerSegments.
Import Const Stick FramerSpec LineSpec.

Lemma remainder_small (l : bytearray) : length (remainder 22 l) < 22.
Proof.
  rewrite remainder_length by lia. apply Nat.mod_upper_bound. lia.
Qed.

(** Framing a stream in progress: its complete frames now, the rest with
    what follows. *)
Lemma segments_frames_split (es : list event) : ∀ l,
  concat (slices 22 <$> segments es l)
  = slices 22 l ++ concat (slices 22 <$> segments es (remainder 22 l)).
Proof.
  induction es as [|e es IH]; intros l.
  - simpl. rewrite !app_nil_r.
    by rewrite (slices_short 22 (remainder 22 l)), app_nil_r
      by (lia || apply remainder_small).
  - destruct e as [data| |future]; cbn [segments].
    + rewrite (IH (l ++ data)), (IH (remainder 22 l ++ data)).
      rewrite (slices_app 22 ltac:(lia) l data), <- app_assoc.
      by rewrite <- (remainder_app 22) by lia.
    + cbn [fmap list_fmap concat].
      by rewrite (slices_short 22 (remainder 22 l))
        by (lia || apply remainder_small).
    + apply IH.
Qed.

Lemma open_segment_remainder (es : list event) : ∀ l,
  remainder 22 (open_segment es l)
  = remainder 22 (open_segment es (remainder 22 l)).
Proof.
  induction es as [|e es IH]; intros l.
  - simpl. by rewrite (remainder_short 22 (remainder 22 l))
      by (lia || apply remainder_small).
  - destruct e as [data| |future]; cbn [open_segment]; [| done | apply IH].
    rewrite (IH (l ++ data)), (IH (remainder 22 l ++ data)).
    by rewrite <- (remainder_app 22) by lia.
Qed.

Lemma run_segments (es : list event) : ∀ p,
  length (_buffer p) < 22 ∧ (_buffer p ≠ [] → _flush_handle p = Some Armed) →
  delivered_frame <$> (run p es).2
    = concat (slices 22 <$> segments es (_buffer p)) ∧
  _buffer (run p es).1 = remainder 22 (open_segment es (_buffer p)).
Proof.
  induction es as [|e es IH]; intros p Hp.
  - simpl. rewrite app_nil_r. destruct Hp as [Hlen _].
    by rewrite (slices_short 22), (remainder_short 22) by lia.
  - pose proof (step_settled e p Hp) as Hp1.
    destruct e as [data| |future]; cbn [run step segments open_segment].
    + destruct (data_received_frames p data) as (Hf & Hb & _).
      cbn [step] in Hp1.
      destruct (data_received p data) as [p1 ds1]. cbn [fst snd] in *.
      destruct (IH p1 Hp1) as (IHf & IHb).
      destruct (run p1 es) as [p2 ds2]. cbn [fst snd] in *.
      rewrite fmap_app, Hf, IHf, IHb, Hb.
      rewrite (segments_frames_split es (_buffer p ++ data)).
      by rewrite (open_segment_remainder es (_buffer p ++ data)).
    + cbn [step fst] in Hp1. destruct Hp as [Hlen Harm].
      pose proof (silence_empties p Harm) as Hempty.
      destruct (IH (deadline_expired p) Hp1) as (IHf & IHb).
      destruct (run (deadline_expired p) es) as [p2 ds2].
      cbn [fst snd app] in *. rewrite Hempty in IHf, IHb.
      cbn [fmap list_fmap concat].
      by rewrite (slices_short 22 (_buffer p)) by lia.
    + cbn [step fst] in Hp1.
      destruct (IH (set_init_response_future future p) Hp1) as (IHf & IHb).
      destruct (run (set_init_response_future future p) es) as [p2 ds2].
      cbn [fst snd app] in *. done.
Qed.

(** X10.  Silences cut the serial line into segments, and each segment is
    framed on its own: the frames a fresh framer emits over any sequence
    of chunks and silences are the 22-byte slices of each segment, in
    order; what a silence discards is the segment's incomplete tail,
    fewer than 22 bytes, and the buffer holds the tail of the segment in
    progress. *)
Theorem framer_frames_each_segment (es : list event) :
  delivered_frame <$> (run DuoFernSerialProtocol_init es).2
    = concat (slices 22 <$> segments es []) ∧
  _buffer (run DuoFernSerialProtocol_init es).1
    = remainder 22 (open_segment es []) ∧
  Forall (λ seg, concat (slices 22 seg) ++ remainder 22 seg = seg ∧
                 length (remainder 22 seg) < 22) (segments es []).
Proof.
  destruct (run_segments es DuoFernSerialProtocol_init) as [Hf Hb].
  { simpl. split; [lia | done]. }
  split; [exact Hf |]. split; [exact Hb |].
  apply Forall_forall. intros seg _. split; [| apply remainder_small].
  remember (length seg) as m eqn:Hm. revert seg Hm.
  induction (lt_wf m) as [m _ IH]. intros seg ->.
  destruct (decide (length seg < 22)) as [Hlt|Hge].
  - by rewrite (slices_short 22), (remainder_short 22) by lia.
  - rewrite (slices_cons 22), (remainder_cons 22) by lia.
    cbn [concat]. rewrite <- app_assoc.
    rewrite (IH (length (drop 22 seg))) by (rewrite ?length_drop; lia || done).
    apply take_drop.
Qed.

End FramerSegments.

Section FramerRouting.
Import Const Stick FramerSpec LineSpec.

(** Where the frames of one chunk go, given the handshake future at the
    start of the chunk. *)
Lemma extract_frames_to_callback fuel : ∀ p : DuoFernSerialProtocol,
  length (_buffer p) ≤ fuel →
  _init_response_future p ≠ Some None →
  (extract_frames fuel p).2 = ToCallback <$> slices 22 (_buffer p) ∧
  _init_response_future (extract_frames fuel p).1 = _init_response_future p.
Proof.
  induction fuel as [|fuel IH]; intros p Hlen Hfut.
  - simpl. destruct (_buffer p); [done | simpl in Hlen; lia].
  - cbn [extract_frames]. unfold FRAME_SIZE_BYTES.
    destruct (Nat.leb_spec 22 (length (_buffer p))) as [Hge|Hlt].
    + rewrite (slices_cons 22) by lia.
      assert (Hd : deliver (Py.getslice (_buffer p) 0 22)
                     (set_buffer (drop 22 (_buffer p)) p)
                   = (set_buffer (drop 22 (_buffer p)) p,
                      ToCallback (take 22 (_buffer p)))).
      { unfold deliver, Py.getslice. rewrite drop_0. simpl.
        by destruct (_init_response_future p) as [[?|]|]. }
      rewrite Hd.
      destruct (IH (set_buffer (drop 22 (_buffer p)) p)) as [IH1 IH2].
      { simpl. rewrite length_drop. lia. }
      { done. }
      destruct (extract_frames fuel _) as [p3 ds]. cbn [fst snd] in *.
      by rewrite IH1, IH2.
    + cbn [fst snd]. by rewrite (slices_short 22) by lia.
Qed.

Lemma extract_frames_routes fuel (p : DuoFernSerialProtocol) :
  length (_buffer p) ≤ fuel →
  (extract_frames fuel p).2
    = match _init_response_future p, slices 22 (_buffer p) with
      | Some None, f :: fs => ToFuture f :: (ToCallback <$> fs)
      | _, fs => ToCallback <$> fs
      end ∧
  _init_response_future (extract_frames fuel p).1
    = match _init_response_future p, slices 22 (_buffer p) with
      | Some None, f :: _ => Some (Some f)
      | future, _ => future
      end.
Proof.
  intros Hlen.
  destruct (decide (_init_response_future p = Some None)) as [Hpend|Hno].
  - rewrite Hpend. destruct fuel as [|fuel].
    + simpl. destruct (_buffer p); [done | simpl in Hlen; lia].
    + cbn [extract_frames]. unfold FRAME_SIZE_BYTES.
      destruct (Nat.leb_spec 22 (length (_buffer p))) as [Hge|Hlt].
      * rewrite (slices_cons 22) by lia.
        assert (Hd : deliver (Py.getslice (_buffer p) 0 22)
                       (set_buffer (drop 22 (_buffer p)) p)
                     = (set_init_response_future
                          (Some (Some (take 22 (_buffer p))))
                          (set_buffer (drop 22 (_buffer p)) p),
                        ToFuture (take 22 (_buffer p)))).
        { unfold deliver, Py.getslice. rewrite drop_0. simpl.
          by rewrite Hpend. }
        rewrite Hd.
        destruct (extract_frames_to_callback fuel
                    (set_init_response_future
                       (Some (Some (take 22 (_buffer p))))
                       (set_buffer (drop 22 (_buffer p)) p))) as [H1 H2].
        { simpl. rewrite length_drop. lia. }
        { done. }
        destruct (extract_frames fuel _) as [p3 ds]. cbn [fst snd] in *.
        by rewrite H1, H2.
      * cbn [fst snd]. by rewrite (slices_short 22) by lia.
  - destruct (extract_frames_to_callback fuel p Hlen Hno) as [H1 H2].
    rewrite H1, H2.
    by destruct (_init_response_future p) as [[?|]|].
Qed.

(** X11.  A pending handshake future takes exactly one frame: the first
    complete frame of a chunk resolves it, and every later frame, also of
    the same chunk, goes to the frame callback; without a pending future
    every frame goes to the callback and the future is left alone. *)
Theorem pending_future_takes_first_frame
    (p : DuoFernSerialProtocol) (data : bytearray) :
  (data_received p data).2
    = match _init_response_future p, slices 22 (_buffer p ++ data) with
      | Some None, f :: fs => ToFuture f :: (ToCallback <$> fs)
      | _, fs => ToCallback <$> fs
      end ∧
  _init_response_future (data_received p data).1
    = match _init_response_future p, slices 22 (_buffer p ++ data) with
      | Some None, f :: _ => Some (Some f)
      | future, _ => future
      end.
Proof.
  unfold data_received.
  set (p1 := match _flush_handle p with
             | Some _ => set_flush_handle None p
             | None => p
             end).
  assert (Hb1 : _buffer p1 = _buffer p)
    by (subst p1; by destruct _flush_handle).
  assert (Hf1 : _init_response_future p1 = _init_response_future p)
    by (subst p1; by destruct _flush_handle).
  rewrite Hb1.
  set (p2 := set_buffer (_buffer p ++ data) p1).
  destruct (extract_frames_routes (length (_buffer p2)) p2 (le_n _))
    as [Hd Hf].
  change (_init_response_future p2) with (_init_response_future p1) in Hd, Hf.
  change (_buffer p2) with (_buffer p ++ data) in Hd, Hf.
  rewrite Hf1 in Hd, Hf.
  change (_buffer p2) with (_buffer p ++ data).
  destruct (extract_frames (length (_buffer p ++ data)) p2) as [p3 ds].
  cbn [fst snd] in *. split; [exact Hd |].
  rewrite <- Hf. by destruct (0 <? length (_buffer p3))%nat.
Qed.

Lemma step_timer (e : event) (p : DuoFernSerialProtocol) :
  timer_tracks_buffer p → timer_tracks_buffer (step p e).1.
Proof.
  unfold timer_tracks_buffer.
  intros [Hlen Harm]. destruct e as [data| |future]; simpl.
  - split.
    { destruct (data_received_frames p data) as (_ & Hb & _).
      rewrite Hb. apply remainder_small. }
    unfold data_received.
    set (p1 := match _flush_handle p with
               | Some _ => set_flush_handle None p
               | None => p
               end).
    assert (Hh1 : _flush_handle p1 = None)
      by (subst p1; by destruct (_flush_handle p) eqn:E).
    set (p2 := set_buffer (_buffer p1 ++ data) p1).
    destruct (extract_frames_drained (length (_buffer p2)) p2 (le_n _))
      as (_ & _ & Hh).
    change (_flush_handle p2) with (_flush_handle p1) in Hh.
    rewrite Hh1 in Hh.
    destruct (extract_frames (length (_buffer p2)) p2) as [p3 ds].
    cbn [fst snd] in *.
    destruct (_buffer p3) as [|x b3] eqn:Hb3; simpl.
    + rewrite Hb3, Hh. split; [discriminate | done].
    + rewrite Hb3. split; [discriminate | done].
  - unfold deadline_expired.
    destruct (_flush_handle p) as [[|]|] eqn:Hh.
    + unfold _flush_buffer. simpl.
      destruct (_buffer p) eqn:Hb; simpl; [rewrite Hb |];
        (split; [simpl; lia | split; [discriminate | done]]).
    + split; [done |]. by rewrite Hh.
    + split; [done |]. by rewrite Hh.
  - done.
Qed.

(** X12.  From a fresh protocol object, after any sequence of chunks,
    silences and future installations, the buffer holds less than one
    frame and the flush timer is pending exactly when the buffer is not
    empty: no incomplete byte waits without a timer that will discard
    it, and no timer is pending over an empty buffer. *)
Theorem flush_timer_pending_iff_bytes_waiting (es : list event) :
  let p := (run DuoFernSerialProtocol_init es).1 in
  length (_buffer p) < 22 ∧
  (_flush_handle p = Some Armed ↔ _buffer p ≠ []).
Proof.
  change (timer_tracks_buffer (run DuoFernSerialProtocol_init es).1).
  assert (Hinit : timer_tracks_buffer DuoFernSerialProtocol_init).
  { split; [simpl; lia |]. simpl. split; [discriminate | done]. }
  revert Hinit. generalize DuoFernSerialProtocol_init.
  induction es as [|e es IH]; intros p Hp; [done |].
  simpl. pose proof (step_timer e p Hp) as H1.
  destruct (step p e) as [p1 ds1]. specialize (IH p1 H1).
  by destruct (run p1 es).
Qed.

End FramerRouting.

(* ===================================================================== *)
(** * From the serial line to the message callback                        *)
(* ===================================================================== *)

Section InboundWiring.
Import Const Protocol Stick FramerSpec Wiring InboundSpec.
Local Open Scope stick_scope.

Lemma on_frame_received_reacts
    (frame : bytearray) (s : DuoFernStick) (w : World) :
  length frame = 22 →
  _transport s = Some SerialTransport →
  _on_frame_received frame (s, w) =
    (Ok tt,
     (set_ack_event (_ack_event s || is_ack_frame frame) s,
      MkWorld (port_opens w) (replies w) (trace w ++ reaction frame))).
Proof.
  intros H Ht. frame_bytes frame H.
  unfold _on_frame_received, is_ack, should_dispatch, and_then, byte_is,
    MessageType.ACK, _write_frame, reaction, is_ack_frame.
  rewrite !ensure_bytes_frame by reflexivity.
  destruct s as [sys devs tr sp q ae qt cn ini]. simpl in Ht. subst tr.
  destruct w as [po rs t].
  cbn -[Z.eqb].
  destruct (Z.eqb_spec b0 129); [| destruct (Z.eqb_spec b0 15);
    [destruct (Z.eqb_spec b1 255); [destruct (Z.eqb_spec b2 17) |] |]];
    cbn; rewrite ?app_nil_r, ?orb_true_r, ?orb_false_r, <- ?app_assoc;
    reflexivity.
Qed.

Lemma bind_update {B} f (k : unit → M B) s w :
  bind (update f) k (s, w) = k tt (f s, w).
Proof. done. Qed.

Lemma bind_self {B} (k : DuoFernStick → M B) s w :
  bind self k (s, w) = k s (s, w).
Proof. done. Qed.

Lemma bind_ret {A B} (a : A) (k : A → M B) st : bind (ret a) k st = k a st.
Proof. done. Qed.

Lemma set_serial_protocol_twice p q (s : DuoFernStick) :
  set_serial_protocol q (set_serial_protocol p s) = set_serial_protocol q s.
Proof. by destruct s. Qed.

(** The deliveries of the pure loop that go to the callback. *)
Lemma feed_frames_run fuel : ∀ (p : DuoFernSerialProtocol) s w,
  _transport s = Some SerialTransport →
  _serial_protocol s = Some p →
  let frames :=
    omap (λ d, match d with ToCallback f => Some f | ToFuture _ => None end)
      (extract_frames fuel p).2 in
  feed_frames fuel p (s, w) =
    (Ok (extract_frames fuel p).1,
     (set_ack_event (_ack_event s || existsb is_ack_frame frames)
        (set_serial_protocol (Some (extract_frames fuel p).1) s),
      MkWorld (port_opens w) (replies w)
        (trace w ++ concat (reaction <$> frames)))).
Proof.
  induction fuel as [|fuel IH]; intros p s w Ht Hp frames; subst frames.
  - destruct s, w; simpl in *. subst. by rewrite orb_false_r, app_nil_r.
  - cbn [feed_frames extract_frames]. unfold FRAME_SIZE_BYTES.
    destruct (Nat.leb_spec 22 (length (_buffer p))) as [Hge|Hlt].
    + assert (Hlen : length (Py.getslice (_buffer p) 0 22) = 22).
      { unfold Py.getslice. rewrite drop_0, length_take. lia. }
      set (frame := Py.getslice (_buffer p) 0 22) in *.
      pose proof (deliver_keeps frame (set_buffer (drop 22 (_buffer p)) p))
        as (_ & _ & Hd).
      destruct (deliver frame (set_buffer (drop 22 (_buffer p)) p))
        as [p2 d] eqn:Hdel.
      cbn [fst snd] in Hd.
      unfold put_protocol.
      rewrite bind_update.
      set (s1 := set_serial_protocol (Some p2) s).
      assert (Ht1 : _transport s1 = Some SerialTransport)
        by (subst s1; by destruct s).
      assert (Hp1 : _serial_protocol s1 = Some p2)
        by (subst s1; by destruct s).
      destruct d as [f|f]; simpl in Hd; subst f.
      * rewrite bind_ret.
        rewrite (IH p2 s1 w Ht1 Hp1).
        destruct (extract_frames fuel p2) as [p3 ds]. cbn [fst snd omap].
        subst s1. rewrite set_serial_protocol_twice.
        by destruct s.
      * rewrite (bind_run _ _ _ _ _
                   (on_frame_received_reacts frame s1 w Hlen Ht1)).
        rewrite IH; [| by destruct s1 | by destruct s1].
        destruct (extract_frames fuel p2) as [p3 ds].
        cbn [fst snd omap list_omap fmap list_fmap concat existsb
             port_opens replies trace].
        rewrite <- app_assoc.
        subst s1. destruct s. cbn. by rewrite orb_assoc.
    + cbn [fst snd omap list_omap fmap list_fmap concat existsb].
      destruct s, w; simpl in *. subst.
      by rewrite orb_false_r, app_nil_r.
Qed.

Lemma omap_callback_all (fs : list bytearray) :
  omap (λ d, match d with ToCallback f => Some f | ToFuture _ => None end)
    (ToCallback <$> fs) = fs.
Proof. induction fs as [|f fs IH]; [done |]. cbn. by f_equal. Qed.


(** One chunk: the protocol object ends as the framer alone would leave
    it, and the stick has reacted to every frame that went to the
    callback. *)
Lemma serial_data_received_run
    (data : bytearray) (p : DuoFernSerialProtocol)
    (s : DuoFernStick) (w : World) :
  _transport s = Some SerialTransport →
  _serial_protocol s = Some p →
  let frames :=
    callback_frames (_init_response_future p)
      (slices 22 (_buffer p ++ data)) in
  serial_data_received data (s, w) =
    (Ok tt,
     (set_ack_event (_ack_event s || existsb is_ack_frame frames)
        (set_serial_protocol (Some (data_received p data).1) s),
      MkWorld (port_opens w) (replies w)
        (trace w ++ concat (reaction <$> frames)))).
Proof.
  intros Ht Hp frames.
  unfold serial_data_received.
  rewrite bind_self, Hp.
  unfold data_received.
  set (p1 := match _flush_handle p with
             | Some _ => set_flush_handle None p
             | None => p
             end).
  assert (Hb1 : _buffer p1 = _buffer p)
    by (subst p1; by destruct _flush_handle).
  assert (Hf1 : _init_response_future p1 = _init_response_future p)
    by (subst p1; by destruct _flush_handle).
  set (p2 := set_buffer (_buffer p1 ++ data) p1).
  unfold put_protocol at 1. rewrite bind_update.
  set (s1 := set_serial_protocol (Some p2) s).
  assert (Ht1 : _transport s1 = Some SerialTransport)
    by (subst s1; by destruct s).
  assert (Hp1 : _serial_protocol s1 = Some p2)
    by (subst s1; by destruct s).
  rewrite (bind_run _ _ _ _ _
             (feed_frames_run (length (_buffer p2)) p2 s1 w Ht1 Hp1)).
  destruct (extract_frames_routes (length (_buffer p2)) p2 (le_n _))
    as [Hd _].
  set (n := length (_buffer p2)) in *.
  change (_init_response_future p2) with (_init_response_future p1) in Hd.
  change (_buffer p2) with (_buffer p1 ++ data) in Hd.
  rewrite Hf1, Hb1 in Hd.
  assert (Hfr : omap (λ d, match d with
                           | ToCallback f => Some f
                           | ToFuture _ => None
                           end)
                  (extract_frames n p2).2 = frames).
  { rewrite Hd. subst frames. unfold callback_frames.
    destruct (_init_response_future p) as [[?|]|];
      [apply omap_callback_all | | apply omap_callback_all].
    destruct (slices 22 (_buffer p ++ data)) as [|f fs]; [done |].
    cbn [omap list_omap]. apply omap_callback_all. }
  rewrite Hfr.
  destruct (extract_frames n p2) as [p3 ds].
  cbn [fst snd]. unfold put_protocol, update. cbn [fst snd].
  subst s1. by destruct s.
Qed.



End InboundWiring.

(* ===================================================================== *)
(** * Properties of the coordinator and of the cover entity               *)
(* ===================================================================== *)

Section CoordinatorFacts.
Import Const Protocol ProtocolUtil Coordinator CoordinatorSpec.
Local Open Scope coordinator_scope.

Lemma cover_command_builds (command : CoverCommand) (dev sys : DuoFernId)
    (position : option Z) :
  length (raw dev) = 3 → length (raw sys) = 3 →
  ∃ frame,
    build_cover_command command dev sys position false default_channel
    = Ok frame ∧ length frame = 22.
Proof.
  intros Hdev Hsys. name_identifiers.
  unfold build_cover_command, Py.setitem, default_channel.
  destruct command; try destruct position as [p|];
    try (pose proof (byte_ok_clamp p) as Hp;
         set (clamped := Z.max 0 (Z.min 100 p)) in *; clearbody clamped;
         simpl; rewrite Hp);
    eexists; (split; [reflexivity |]); reflexivity.
Qed.

Lemma send_runs (frame : bytearray) (c : DuoFernCoordinator) w :
  _send frame (c, w) = (Ok tt, (set_stick (queued frame <$> _stick c) c, w)).
Proof.
  unfold _send, bind, self, queued, on_stick, Stick.send_command,
    Stick.connected, Stick.bind, Stick.self, Stick.update, Stick.raise.
  destruct c as [sys devs data [s|] n]; [| done]. cbn.
  destruct (Stick._connected s), (Stick._initialized s); done.
Qed.

Lemma update_moving_runs (dev : DuoFernId) direction
    (c : DuoFernCoordinator) w :
  _update_moving_state dev direction (c, w) =
    (Ok tt,
     (match devices c !! hex dev with
      | Some state =>
          set_updates (S (updates c))
            (set_devices (<[hex dev := marked direction state]> (devices c))
               c)
      | None => c
      end, w)).
Proof.
  unfold _update_moving_state, bind, self. cbn [fst].
  destruct c as [sys devs data st n]. cbn [devices].
  by destruct (data !! hex dev).
Qed.

(** X14.  The one-button commands of the coordinator.  With 3-byte
    identifiers, [async_cover_up], [async_cover_down] and
    [async_cover_stop] never raise; the frame of the encoder joins the
    send queue exactly when there is a stick that is connected and
    initialized, and is dropped otherwise; in both cases the device, if
    known, is marked as moving "up", "down" or "stop" and the data pushed
    to the entities once.  Nothing else changes. *)
Theorem button_marks_moving_sent_or_not
    (command : CoverCommand) (method : DuoFernId → M unit)
    (direction : string) (dev : DuoFernId)
    (c : DuoFernCoordinator) (w : Stick.World) :
  (command, method, direction) ∈ buttons →
  length (raw dev) = 3 → length (raw (_system_code c)) = 3 →
  ∃ frame c',
    build_cover_command command dev (_system_code c) None false 0x01
      = Ok frame ∧
    method dev (c, w) = (Ok tt, (c', w)) ∧
    _stick c' = queued frame <$> _stick c ∧
    (∀ k, devices c' !! k =
          if decide (k = hex dev)
          then marked direction <$> devices c !! k
          else devices c !! k) ∧
    updates c' =
      match devices c !! hex dev with
      | Some _ => S (updates c)
      | None => updates c
      end ∧
    _system_code c' = _system_code c ∧
    _paired_devices c' = _paired_devices c.
Proof.
  intros Hbutton Hdev Hsys.
  destruct (cover_command_builds command dev (_system_code c) None
              Hdev Hsys) as (frame & Hframe & _).
  exists frame.
  assert (Hrun : method dev (c, w) =
            _update_moving_state dev direction
              (set_stick (queued frame <$> _stick c) c, w)).
  { unfold buttons in Hbutton.
    repeat (apply elem_of_cons in Hbutton as [[= -> -> ->]|Hbutton]);
      [| | | by apply elem_of_nil in Hbutton];
      unfold async_cover_up, async_cover_down, async_cover_stop;
      unfold bind at 1, self; cbn [fst]; unfold bind at 1, lift;
      rewrite Hframe; unfold bind at 1; by rewrite send_runs. }
  rewrite Hrun, update_moving_runs.
  eexists. split; [exact Hframe |]. split; [reflexivity |].
  destruct c as [sys devs data st n]. cbn [set_stick devices].
  destruct (data !! hex dev) as [state|] eqn:Hstate; cbn.
  - repeat split; try done. intros k. rewrite lookup_insert.
    destruct (decide (hex dev = k)) as [<-|Hne].
    + rewrite decide_True by done. by rewrite Hstate.
    + by rewrite decide_False by done.
  - repeat split; try done. intros k.
    destruct (decide (k = hex dev)) as [->|]; [by rewrite Hstate | done].
Qed.

Lemma button_marks_moving_sent_or_not_witness :
  let sys := MkDuoFernId [0x6F; 0x1A; 0x2B]%Z in
  let dev := MkDuoFernId [0x40; 0x12; 0x34]%Z in
  let c := DuoFernCoordinator_init sys [dev] in
  let w := Stick.MkWorld true [] [] in
  ∃ c', async_cover_up dev (c, w) = (Ok tt, (c', w)) ∧
        _stick c' = None ∧
        moving ∘ status <$> devices c' !! "401234" = Some "up" ∧
        updates c' = 1.
Proof.
  intros sys dev c w.
  destruct (button_marks_moving_sent_or_not UP async_cover_up "up" dev c w)
    as (frame & c' & _ & Hrun & Hstick & Hdevices & Hupdates & _).
  { by left. }
  { reflexivity. }
  { reflexivity. }
  exists c'. split; [exact Hrun |]. split; [exact Hstick |].
  split; [by rewrite Hdevices | exact Hupdates].
Defined.

(** X15.  Setting a position from Home Assistant.  The cover entity sends
    [100 - target] (in the stick's convention, clamped by the encoder)
    and keeps the inversion consistent when it guesses the direction: for
    a device whose position is known, a target below the current Home
    Assistant position marks the cover as closing, a target above it as
    opening, and an equal target leaves the direction as it was.  The
    reported position does not change, and the call never raises. *)
Theorem set_position_marks_direction
    (dev : DuoFernId) (c : DuoFernCoordinator) (w : Stick.World)
    (target current : Z) :
  length (raw dev) = 3 → length (raw (_system_code c)) = 3 →
  let e := Cover.DuoFernCover_init dev in
  Cover.current_cover_position e c = Some current →
  ∃ frame c',
    build_cover_command POSITION dev (_system_code c)
      (Some (100 - target)%Z) false 0x01 = Ok frame ∧
    Cover.async_set_cover_position e (Some target) (c, w)
      = (Ok tt, (c', w)) ∧
    _stick c' = queued frame <$> _stick c ∧
    Cover.current_cover_position e c' = Some current ∧
    Cover.is_closing e c' =
      (if decide (target < current)%Z then true
       else if decide (current < target)%Z then false
       else Cover.is_closing e c) ∧
    Cover.is_opening e c' =
      (if decide (current < target)%Z then true
       else if decide (target < current)%Z then false
       else Cover.is_opening e c).
Proof.
  intros Hdev Hsys e Hcur.
  destruct (cover_command_builds POSITION dev (_system_code c)
              (Some (100 - target)%Z) Hdev Hsys) as (frame & Hframe & _).
  exists frame.
  unfold Cover.current_cover_position, Cover._device_state in Hcur.
  cbn [e Cover.DuoFernCover_init Cover._hex_code] in Hcur.
  destruct (devices c !! hex dev) as [state|] eqn:Hstate; [| done].
  destruct (position (status state)) as [known|] eqn:Hknown; [| done].
  injection Hcur as <-.
  unfold Cover.async_set_cover_position, async_cover_position.
  cbn [e Cover.DuoFernCover_init Cover._device_code default from_option id].
  unfold bind at 1, self; cbn [fst]; unfold bind at 1, lift.
  rewrite Hframe. unfold bind at 1. rewrite send_runs.
  unfold bind at 1, self. cbn [fst].
  assert (Hdevs : devices (set_stick (queued frame <$> _stick c) c)
                  = devices c) by (by destruct c).
  rewrite Hdevs, Hstate, Hknown.
  unfold Cover.is_closing, Cover.is_opening, Cover.current_cover_position,
    Cover._device_state.
  cbn [Cover._hex_code].
  destruct (Z.ltb_spec known (100 - target)) as [Hdown|Hnot].
  - rewrite update_moving_runs, Hdevs, Hstate.
    eexists. split; [done |]. split; [reflexivity |].
    destruct c as [sys devs data st n]. cbn in *.
    rewrite lookup_insert_eq. cbn.
    destruct state as [code [] av]. cbn in *. rewrite Hknown.
    by repeat case_decide; try lia.
  - destruct (Z.ltb_spec (100 - target) known) as [Hup|Hsame].
    + rewrite update_moving_runs, Hdevs, Hstate.
      eexists. split; [done |]. split; [reflexivity |].
      destruct c as [sys devs data st n]. cbn in *.
      rewrite lookup_insert_eq. cbn.
      destruct state as [code [] av]. cbn in *. rewrite Hknown.
      by repeat case_decide; try lia.
    + eexists. split; [done |]. split; [reflexivity |].
      destruct c as [sys devs data st n]. cbn in *.
      rewrite Hstate, Hknown.
      by repeat case_decide; try lia.
Qed.

Lemma set_position_marks_direction_witness :
  let sys := MkDuoFernId [0x6F; 0x1A; 0x2B]%Z in
  let dev := MkDuoFernId [0x40; 0x12; 0x34]%Z in
  let known := MkDeviceState dev
                 (set_position (Some 30%Z) DeviceStatus_default) true in
  let c := set_devices (<["401234" := known]> ∅)
             (DuoFernCoordinator_init sys [dev]) in
  let e := Cover.DuoFernCover_init dev in
  let w := Stick.MkWorld true [] [] in
  Cover.current_cover_position e c = Some 70%Z ∧
  ∃ c', Cover.async_set_cover_position e (Some 20%Z) (c, w)
          = (Ok tt, (c', w)) ∧
        Cover.is_closing e c' = true ∧ Cover.is_opening e c' = false.
Proof.
  intros sys dev known c e w. split; [reflexivity |].
  destruct (set_position_marks_direction dev c w 20 70 eq_refl eq_refl
              eq_refl)
    as (frame & c' & _ & Hrun & _ & _ & Hclosing & Hopening).
  exists c'. split; [exact Hrun |]. split; assumption.
Defined.

Lemma parse_status_total (frame : bytearray) :
  length frame = 22 →
  ∃ status, parse_status (Bytes frame) = Ok status ∧ moving status = "stop".
Proof.
  intros H. frame_bytes frame H.
  unfold parse_status, extract_device_code_from_status, is_cover.
  rewrite !ensure_bytes_frame by reflexivity.
  cbn -[parse_status_type40 COVER_DEVICE_TYPES bool_decide].
  destruct (bool_decide (b15 ∈ COVER_DEVICE_TYPES)); [| by eexists].
  unfold parse_status_type40, is_status_response.
  rewrite !ensure_bytes_frame by reflexivity.
  unfold and_then, byte_is.
  cbn -[extract_bits format_version Z.lor Z.shiftl Z.eqb].
  destruct (b0 =? 15)%Z; [destruct (b1 =? 255)%Z;
    [destruct (b2 =? 15)%Z |] |];
    cbn -[extract_bits format_version Z.lor Z.shiftl];
    eexists; (split; [reflexivity |]); reflexivity.
Qed.

Lemma on_message_status (frame : bytearray) (c : DuoFernCoordinator) w
    state status :
  length frame = 22 → take 3 frame = [0x0F; 0xFF; 0x0F]%Z →
  devices c !! hex (MkDuoFernId (take 3 (drop 15 frame))) = Some state →
  parse_status (Bytes frame) = Ok status →
  _on_message frame (c, w) =
    (Ok tt,
     (set_updates (S (updates c))
        (set_devices
           (<[hex (MkDuoFernId (take 3 (drop 15 frame))) :=
                MkDeviceState (device_code state) status true]>
              (devices c)) c), w)).
Proof.
  intros H. frame_bytes frame H. intros [= -> -> ->] Hstate Hparse.
  unfold _on_message, logging_exceptions, bind, lift, _handle_status,
    is_status_response, extract_device_code_from_status, and_then, byte_is.
  rewrite !ensure_bytes_frame by reflexivity.
  cbn -[hex parse_status]. cbn -[hex] in Hstate.
  rewrite Hstate. cbn -[hex parse_status]. rewrite Hparse.
  by destruct c.
Qed.

(** X16.  [_on_message] never raises, whatever it is handed, and changes
    the coordinator only for a status response (22 bytes starting with
    0F FF 0F) whose bytes 15 to 17 are the key of a known device: that
    device gets the parsed status, whose moving direction is always
    "stop", and becomes available; the data is pushed once.  Every other
    frame leaves the coordinator as it was, and the stick is never
    touched. *)
Theorem message_updates_only_the_status_sender
    (frame : bytearray) (c : DuoFernCoordinator) (w : Stick.World) :
  ∃ c',
    _on_message frame (c, w) = (Ok tt, (c', w)) ∧
    match status_sender frame c with
    | Some (key, state) =>
        ∃ status,
          parse_status (Bytes frame) = Ok status ∧
          moving status = "stop" ∧
          c' = set_updates (S (updates c))
                 (set_devices
                    (<[key := MkDeviceState (device_code state) status true]>
                       (devices c)) c)
    | None => c' = c
    end.
Proof.
  unfold status_sender.
  destruct (decide (length frame = 22)) as [H|Hlen].
  - destruct (parse_status_total frame H) as (status & Hparse & Hstop).
    frame_bytes frame H.
    unfold _on_message, logging_exceptions, bind, lift, _handle_status,
      is_status_response, is_pair_response, is_unpair_response,
      extract_device_code, extract_device_code_from_status,
      and_then, byte_is, MessageType.ACK.
    rewrite !ensure_bytes_frame by reflexivity.
    cbn -[Z.eqb hex bool_decide parse_status].
    destruct (Z.eqb_spec b0 15) as [->|H0];
      [destruct (Z.eqb_spec b1 255) as [->|H1];
        [destruct (Z.eqb_spec b2 15) as [->|H2] |] |].
    + rewrite bool_decide_eq_true_2 by done.
      cbn -[hex parse_status].
      destruct (devices c !! hex (MkDuoFernId [b15; b16; b17]))
        as [state|] eqn:Hstate; cbn -[hex parse_status].
      * rewrite Hparse. destruct c as [sys devs data st n].
        eexists. split; [reflexivity |]. by exists status.
      * by eexists.
    + rewrite bool_decide_eq_false_2 by (intros [_ [=]]; done).
      cbn -[Z.eqb]. eexists. split; [| reflexivity].
      by repeat case_match.
    + rewrite bool_decide_eq_false_2 by (intros [_ [=]]; done).
      cbn -[Z.eqb]. eexists. split; [| reflexivity].
      by repeat case_match.
    + rewrite bool_decide_eq_false_2 by (intros [_ [=]]; done).
      cbn -[Z.eqb]. eexists. split; [| reflexivity].
      by repeat case_match.
  - rewrite bool_decide_eq_false_2 by (by intros [? _]).
    exists c. split; [| done].
    unfold _on_message, logging_exceptions, bind, lift, is_status_response.
    rewrite ensure_bytes_strict_on_bytes. by rewrite decide_False by done.
Qed.

Lemma hex_inj (d1 d2 : DuoFernId) :
  Forall (λ v, 0 ≤ v < 256)%Z (raw d1) →
  Forall (λ v, 0 ≤ v < 256)%Z (raw d2) →
  hex d1 = hex d2 → d1 = d2.
Proof.
  intros H1 H2 Hhex. unfold hex in Hhex.
  pose proof (fromhex_bytes_hex (raw d1) H1) as E1.
  pose proof (fromhex_bytes_hex (raw d2) H2) as E2.
  rewrite Hhex, E2 in E1. injection E1 as E1.
  destruct d1, d2. simpl in E1. by subst.
Qed.

Lemma foldl_snoc {A B} (f : A → B → A) a l b :
  foldl f a (l ++ [b]) = f (foldl f a l) b.
Proof. revert a. induction l as [|x l IH]; intros a; simpl; [done | apply IH]. Qed.

(** X18.  What the coordinator knows after construction.  With paired
    devices made of byte values, two devices have the same key only if
    they are the same identifier, so every paired device has its own
    entry: default status (no position, direction "stop"), available.
    There is no other entry, no stick yet, and nothing has been pushed;
    the entity of a paired device reports no position and no movement. *)
Theorem coordinator_starts_with_paired_devices
    (sys : DuoFernId) (devs : list DuoFernId) :
  Forall (λ d, Forall (λ v, 0 ≤ v < 256)%Z (raw d)) devs →
  let c := DuoFernCoordinator_init sys devs in
  (∀ d, d ∈ devs →
     devices c !! hex d = Some (MkDeviceState d DeviceStatus_default true) ∧
     Cover.current_cover_position (Cover.DuoFernCover_init d) c = None ∧
     Cover.is_opening (Cover.DuoFernCover_init d) c = false ∧
     Cover.is_closing (Cover.DuoFernCover_init d) c = false) ∧
  (∀ k state, devices c !! k = Some state →
     ∃ d, d ∈ devs ∧ k = hex d ∧
          state = MkDeviceState d DeviceStatus_default true) ∧
  _stick c = None ∧ updates c = 0.
Proof.
  intros Hbytes c.
  assert (Hknown : ∀ d, d ∈ devs →
            devices c !! hex d
            = Some (MkDeviceState d DeviceStatus_default true)).
  { subst c. cbn [devices DuoFernCoordinator_init].
    induction devs as [|d0 devs IH] using rev_ind; intros d Hd.
    - by apply elem_of_nil in Hd.
    - rewrite foldl_snoc. apply Forall_app in Hbytes as [Hdevs Hd0].
      rewrite Forall_singleton in Hd0.
      destruct (decide (hex d0 = hex d)) as [Heq|Hne].
      + rewrite Heq, lookup_insert_eq. do 2 f_equal.
        apply hex_inj; [done | | done].
        apply elem_of_app in Hd as [Hd|Hd].
        * by eapply Forall_forall in Hdevs.
        * apply list_elem_of_singleton in Hd. by subst.
      + rewrite lookup_insert_ne by done. apply IH; [done |].
        apply elem_of_app in Hd as [Hd|Hd]; [done |].
        apply list_elem_of_singleton in Hd. by subst. }
  split; [| split; [| done]].
  - intros d Hd. split; [by apply Hknown |].
    unfold Cover.current_cover_position, Cover.is_opening, Cover.is_closing,
      Cover._device_state.
    cbn [Cover.DuoFernCover_init Cover._hex_code].
    by rewrite (Hknown d Hd).
  - subst c. cbn [devices DuoFernCoordinator_init]. clear Hknown Hbytes.
    induction devs as [|d0 devs IH] using rev_ind; intros k state.
    + simpl. by rewrite lookup_empty.
    + rewrite foldl_snoc.
      destruct (decide (hex d0 = k)) as [<-|Hne].
      * rewrite lookup_insert_eq. intros [= <-]. exists d0.
        split; [| done]. apply elem_of_app. right. by left.
      * rewrite lookup_insert_ne by done. intros Hk.
        destruct (IH k state Hk) as (d & Hd & -> & ->).
        exists d. split; [| done]. apply elem_of_app. by left.
Qed.

Lemma coordinator_starts_with_paired_devices_witness :
  let sys := MkDuoFernId [0x6F; 0x1A; 0x2B]%Z in
  let shutter := MkDuoFernId [0x40; 0x12; 0x34]%Z in
  let switch := MkDuoFernId [0x43; 0xAB; 0xCD]%Z in
  let c := DuoFernCoordinator_init sys [shutter; switch; shutter] in
  devices c !! "43ABCD"
    = Some (MkDeviceState switch DeviceStatus_default true) ∧
  devices c !! "6F1A2B" = None.
Proof.
  intros sys shutter switch c.
  destruct (coordinator_starts_with_paired_devices sys
              [shutter; switch; shutter]) as (Hknown & Honly & _).
  { repeat (constructor; try lia). }
  split.
  - apply (Hknown switch). right. by left.
  - destruct (devices c !! "6F1A2B") as [state|] eqn:Hk; [| reflexivity].
    destruct (Honly _ _ Hk) as (d & Hd & Hhex & _).
    exfalso.
    repeat (apply elem_of_cons in Hd as [->|Hd]; [discriminate Hhex |]).
    by apply elem_of_nil in Hd.
Defined.

End CoordinatorFacts.

(* ===================================================================== *)
(** * From the serial line to the cover entity                            *)
(* ===================================================================== *)

Section LineToEntity.
Import Const Protocol ProtocolUtil Coordinator CoordinatorSpec.
Import FramerSpec InboundSpec.

Lemma parse_status_cover (frame : bytearray) v11 v15 :
  length frame = 22 → take 3 frame = [0x0F; 0xFF; 0x0F]%Z →
  frame !! 11 = Some v11 → frame !! 15 = Some v15 →
  v15 ∈ COVER_DEVICE_TYPES →
  ∃ status,
    parse_status (Bytes frame) = Ok status ∧
    position status = Some (v11 mod 128)%Z ∧
    moving status = "stop".
Proof.
  intros H. frame_bytes frame H.
  intros [= -> -> ->] [= <-] [= <-] Hcover.
  unfold parse_status, extract_device_code_from_status, is_cover.
  rewrite !ensure_bytes_frame by reflexivity.
  cbn -[parse_status_type40 COVER_DEVICE_TYPES bool_decide].
  rewrite bool_decide_eq_true_2 by done.
  unfold parse_status_type40, is_status_response.
  rewrite !ensure_bytes_frame by reflexivity.
  unfold and_then, byte_is.
  cbn -[extract_bits format_version Z.lor Z.shiftl Z.modulo Z.testbit].
  rewrite !extract_bits_low_byte by lia.
  rewrite !extract_low7.
  eexists. split; [reflexivity |]. split; reflexivity.
Qed.

Lemma slices_one (frame : bytearray) :
  length frame = 22 → slices 22 frame = [frame].
Proof. intros H. frame_bytes frame H. reflexivity. Qed.

Lemma reaction_status (frame : bytearray) :
  length frame = 22 → take 3 frame = [0x0F; 0xFF; 0x0F]%Z →
  reaction frame = [Stick.Tx ack_frame; Stick.Message frame] ∧
  is_ack_frame frame = false.
Proof. intros H. frame_bytes frame H. by intros [= -> -> ->]. Qed.

(** X17.  A status frame on the serial line reaches the cover entity.
    The stick of the coordinator is in normal operation with an empty
    buffer; the line delivers the 22 bytes of a status response
    (0F FF 0F ...) whose bytes 15 to 17 are the code of a known cover.
    Then the stick writes one ACK, the frame goes through the message
    callback into the coordinator, and the entity of that device reports
    the position [100 - (byte 11 mod 128)], between -27 and 100, and is
    neither opening nor closing, whatever direction was marked before;
    no other device changes, and the data is pushed once. *)
Theorem status_frame_reaches_the_entity
    (frame : bytearray) (dev : DuoFernId)
    (c : DuoFernCoordinator) (s : Stick.DuoFernStick)
    (p : Stick.DuoFernSerialProtocol) (w : Stick.World)
    (state : DuoFernDeviceState) :
  _stick c = Some s →
  Stick._transport s = Some Stick.SerialTransport →
  Stick._serial_protocol s = Some p →
  Stick._buffer p = [] →
  Stick._init_response_future p ≠ Some None →
  length frame = 22 → take 3 frame = [0x0F; 0xFF; 0x0F]%Z →
  take 3 (drop 15 frame) = raw dev →
  is_cover dev = Ok true →
  devices c !! hex dev = Some state →
  let e := Cover.DuoFernCover_init dev in
  ∃ c' b11,
    frame !! 11 = Some b11 ∧
    serial_data_received frame (c, w) =
      (Ok tt,
       (c', Stick.MkWorld (Stick.port_opens w) (Stick.replies w)
              (Stick.trace w ++ [Stick.Tx ack_frame; Stick.Message frame])))
    ∧ Cover.current_cover_position e c' = Some (100 - b11 mod 128)%Z
    ∧ (-27 ≤ 100 - b11 mod 128 ≤ 100)%Z
    ∧ Cover.is_opening e c' = false
    ∧ Cover.is_closing e c' = false
    ∧ updates c' = S (updates c)
    ∧ (∀ k, k ≠ hex dev → devices c' !! k = devices c !! k).
Proof.
  intros Hstick Ht Hp Hbuf Hfut Hlen Hhead Hcode Hcover Hstate e.
  assert (∃ v11 v15, frame !! 11 = Some v11 ∧ frame !! 15 = Some v15 ∧
                     raw dev !! 0 = Some v15) as (v11 & v15 & H11 & H15 & Ht0).
  { pose proof Hlen as H. rewrite <- Hcode. clear Hhead Hcode Hstate.
    frame_bytes frame H. by eexists _, _. }
  assert (Hin : v15 ∈ COVER_DEVICE_TYPES).
  { unfold is_cover, Py.getitem in Hcover. rewrite Ht0 in Hcover.
    injection Hcover as Hcover. by apply (bool_decide_eq_true_1 _). }
  destruct (parse_status_cover frame v11 v15 Hlen Hhead H11 H15 Hin)
    as (status & Hparse & Hpos & Hstop).
  destruct (reaction_status frame Hlen Hhead) as [Hreact Hnoack].
  exists (set_updates (S (updates c))
            (set_devices
               (<[hex dev := MkDeviceState (device_code state) status true]>
                  (devices c))
               (set_stick
                  (Some (Stick.set_serial_protocol
                           (Some (Stick.data_received p frame).1) s))
                  c))), v11.
  split; [exact H11 |]. split.
  - unfold serial_data_received. rewrite Hstick. unfold on_stick.
    rewrite (serial_data_received_run frame p s w Ht Hp).
    rewrite Hbuf. cbn [app]. rewrite (slices_one frame Hlen).
    assert (Hcb : callback_frames (Stick._init_response_future p) [frame]
                  = [frame]).
    { unfold callback_frames.
      by destruct (Stick._init_response_future p) as [[?|]|]. }
    rewrite Hcb. cbn [fmap list_fmap concat existsb Stick.trace].
    rewrite Hreact, Hnoack, app_nil_r, drop_app_length, !orb_false_r.
    cbn [handle_messages]. unfold bind.
    set (c1 := set_stick _ c).
    assert (Hstate1 : devices c1
                        !! hex (MkDuoFernId (take 3 (drop 15 frame)))
                      = Some state).
    { rewrite Hcode. subst c1. destruct c, dev. exact Hstate. }
    rewrite (on_message_status frame c1 _ state status Hlen Hhead Hstate1
               Hparse).
    subst c1. rewrite Hcode. destruct c, dev, s. reflexivity.
  - unfold Cover.current_cover_position, Cover.is_opening, Cover.is_closing,
      Cover._device_state.
    cbn [e Cover.DuoFernCover_init Cover._hex_code].
    destruct c as [sys devs data st n]. cbn.
    rewrite lookup_insert_eq. cbn. rewrite Hpos, Hstop.
    pose proof (Z.mod_pos_bound v11 128).
    repeat split; try done; try lia.
    intros k Hk. by rewrite lookup_insert_ne.
Qed.

Lemma status_frame_reaches_the_entity_witness :
  let sys := MkDuoFernId [0x6F; 0x1A; 0x2B]%Z in
  let dev := MkDuoFernId [0x40; 0x12; 0x34]%Z in
  let s := Stick.set_serial_protocol (Some Stick.DuoFernSerialProtocol_init)
             (Stick.set_transport (Some Stick.SerialTransport)
                (Stick.DuoFernStick_init sys [dev])) in
  let c := set_stick (Some s) (DuoFernCoordinator_init sys [dev]) in
  let frame :=
    ([0x0F; 0xFF; 0x0F; 0x21] ++ replicate 7 0 ++ [0x1E]
     ++ replicate 3 0 ++ [0x40; 0x12; 0x34] ++ replicate 4 0)%Z in
  ∃ c' w',
    serial_data_received frame (c, Stick.MkWorld true [] [])
      = (Ok tt, (c', w')) ∧
    Stick.trace w' = [Stick.Tx ack_frame; Stick.Message frame] ∧
    Cover.current_cover_position (Cover.DuoFernCover_init dev) c'
      = Some 70%Z.
Proof.
  intros sys dev s c frame.
  destruct (status_frame_reaches_the_entity frame dev c s
              Stick.DuoFernSerialProtocol_init (Stick.MkWorld true [] [])
              (MkDeviceState dev DeviceStatus_default true))
    as (c' & v11 & H11 & Hrun & Hpos & _); try reflexivity.
  { discriminate. }
  injection H11 as <-.
  exists c'. eexists. split; [exact Hrun |]. split; [reflexivity |].
  exact Hpos.
Defined.

End LineToEntity.

(* ===================================================================== *)
(** * Properties of the send queue and of [disconnect]                    *)
(* ===================================================================== *)

Section SendQueueFacts.
Import Const Protocol Stick SendQueue SendQueueSpec.

(** [_on_frame_received] touches the ACK event and the trace, nothing
    else, whatever the frame and whether or not it raises. *)
Lemma on_frame_received_effect (frame : bytearray) (s : DuoFernStick) w :
  ∃ a fx,
    (_on_frame_received frame (s, w)).2 =
      (set_ack_event (_ack_event s || a) s,
       MkWorld (port_opens w) (replies w) (trace w ++ fx)) ∧
    a = match is_ack (Bytes frame) with Ok true => true | _ => false end ∧
    (_transport s = None → fx = [] ∨ fx = [Message frame]).
Proof.
  unfold _on_frame_received, bind, lift, _write_frame, self, update, emit,
    ret.
  destruct s as [sys devs tr sp q ae qt cn ini], w as [po rs t].
  destruct (is_ack (Bytes frame)) as [[|]|e]; cbn.
  - exists true, []. by rewrite orb_true_r, app_nil_r; auto.
  - destruct tr as [[]|]; cbn;
      destruct (should_dispatch (Bytes frame)) as [[|]|e]; cbn.
    + exists false, [Tx (129 :: replicate 21 0)%Z; Message frame].
      rewrite orb_false_r, <- app_assoc. by repeat split.
    + exists false, [Tx (129 :: replicate 21 0)%Z].
      rewrite orb_false_r. by repeat split.
    + exists false, [Tx (129 :: replicate 21 0)%Z].
      rewrite orb_false_r. by repeat split.
    + exists false, [Message frame]. rewrite orb_false_r. auto.
    + exists false, []. rewrite orb_false_r, app_nil_r. auto.
    + exists false, []. rewrite orb_false_r, app_nil_r. auto.
  - exists false, []. rewrite orb_false_r, app_nil_r. auto.
Qed.

Lemma on_frame_received_keeps (frame : bytearray) (s : DuoFernStick) w :
  let s' := (_on_frame_received frame (s, w)).2.1 in
  _send_queue s' = _send_queue s ∧ _connected s' = _connected s ∧
  _transport s' = _transport s ∧ _queue_task s' = _queue_task s ∧
  _initialized s' = _initialized s.
Proof.
  destruct (on_frame_received_effect frame s w) as (a & fx & -> & _).
  by destruct s.
Qed.

Lemma take_frame_run frame rest (r : Runtime) w :
  ∃ w',
    take_frame frame rest r w =
      ((MkRuntime (set_ack_event false (set_send_queue rest (stick r)))
          (_closing r) InWait (disconnecting r), w'), [frame]) ∧
    (_transport (stick r) = None → w' = w).
Proof.
  unfold take_frame, _write_frame, bind, self, emit, ret.
  destruct r as [[sys devs tr sp q ae qt cn ini] cl t dc], w as [po rs tc].
  destruct tr; cbn; eexists; split; try reflexivity; done.
Qed.

(** One event: what leaves the queue and what joins it. *)
Lemma step_fifo (st : state) (e : event) :
  (step st e).2 ++ _send_queue (stick (step st e).1.1)
    = _send_queue (stick st.1) ++ accepted st [e].
Proof.
  destruct st as [r w].
  assert (Hloop : ∀ r w,
            (loop_head r w).2 ++ _send_queue (stick (loop_head r w).1.1)
              = _send_queue (stick r)).
  { intros r0 w0. unfold loop_head.
    destruct (_closing r0); [done |].
    destruct (_send_queue (stick r0)) as [|frame rest] eqn:Hq; [done |].
    destruct (take_frame_run frame rest r0 w0) as (w' & -> & _).
    by destruct r0 as [[] ? ? ?]. }
  destruct e as [frame|frame| | | |]; cbn [step accepted fst snd];
    rewrite ?app_nil_r.
  - unfold send_command, bind, self, update, raise. cbn.
    destruct r as [[sys devs tr sp q ae qt cn ini] cl t dc]. cbn.
    destruct cn; cbn; by rewrite ?app_nil_r.
  - pose proof (on_frame_received_keeps frame (stick r) w) as (Hq & _).
    by destruct (_on_frame_received frame (stick r, w)) as [res [s' w']].
  - destruct (_queue_task (stick r)); [| done]. cbn [negb].
    destruct (task r) eqn:Htask; [apply Hloop | | | done | done].
    + destruct (_send_queue (stick r)) as [|frame rest] eqn:Hq;
        [cbn [fst snd app]; by rewrite ?Hq |].
      destruct (take_frame_run frame rest r w) as (w' & -> & _).
      by destruct r as [[] ? ? ?].
    + destruct (_ack_event (stick r)); [apply Hloop | done].
  - destruct (_queue_task (stick r)); [| done]. cbn [negb].
    destruct (task r) eqn:Htask; [done | done | apply Hloop | done | done].
  - unfold disconnect_begins, disconnect_ends.
    destruct r as [[sys devs tr sp q ae qt cn ini] cl t dc]. cbn.
    destruct qt, t, tr; done.
  - unfold disconnect_ends.
    destruct r as [[sys devs tr sp q ae qt cn ini] cl t dc]. cbn.
    destruct t, dc, tr; done.
Qed.

Lemma run_cons (st : state) e es :
  run st (e :: es) =
    ((run (step st e).1 es).1, (step st e).2 ++ (run (step st e).1 es).2).
Proof.
  cbn [run]. destruct (step st e) as [st1 out1]. cbn [fst snd].
  by destruct (run st1 es).
Qed.

(** X19.  The send queue loses, repeats and reorders nothing.  From any
    state and over any sequence of events, the frames the task has taken
    from the queue followed by the frames still queued are the frames
    queued at the start followed by the accepted commands, in the order
    they were sent; a command is accepted exactly when the [_connected]
    flag is up at that moment. *)
Theorem send_queue_is_fifo (es : list event) : ∀ st : state,
  (run st es).2 ++ _send_queue (stick (run st es).1.1)
  = _send_queue (stick st.1) ++ accepted st es.
Proof.
  induction es as [|e es IH]; intros st.
  - simpl. by rewrite app_nil_r.
  - rewrite run_cons. cbn [fst snd accepted].
    pose proof (step_fifo st e) as Hq. cbn [accepted] in Hq.
    rewrite app_nil_r in Hq.
    by rewrite <- app_assoc, IH, !app_assoc, Hq.
Qed.

Lemma loop_head_budget (r : Runtime) w :
  length (loop_head r w).2
  + (if may_send (loop_head r w).1.1 then 1 else 0) ≤ 1.
Proof.
  unfold loop_head. destruct (_closing r); [simpl; lia |].
  destruct (_send_queue (stick r)) as [|frame rest]; [simpl; lia |].
  destruct (take_frame_run frame rest r w) as (w' & -> & _).
  unfold may_send. destruct r as [[] ? ? ?]. simpl. lia.
Qed.

Lemma step_budget (st : state) (e : event) :
  length (step st e).2 + (if may_send (step st e).1.1 then 1 else 0)
  ≤ releases [e] + (if may_send st.1 then 1 else 0).
Proof.
  destruct st as [r w].
  pose proof (loop_head_budget r w) as Hloop.
  destruct e as [frame|frame| | | |]; cbn [step releases fst snd].
  - unfold send_command, bind, self, update, raise, may_send. cbn.
    destruct r as [[sys devs tr sp q ae qt cn ini] cl t dc]. cbn.
    destruct cn; cbn; lia.
  - destruct (on_frame_received_effect frame (stick r) w)
      as (a & fx & Hrun & Ha & _).
    destruct (_on_frame_received frame (stick r, w)) as [res [s' w']].
    cbn [fst snd] in *. injection Hrun as -> ->. unfold may_send.
    destruct r as [[sys devs tr sp q ae qt cn ini] cl t dc]. cbn.
    destruct (is_ack (Bytes frame)) as [[|]|]; subst a;
      rewrite ?orb_false_r; destruct t; try destruct ae; simpl; lia.
  - destruct (_queue_task (stick r)); [| simpl; lia]. cbn [negb].
    unfold may_send at 2. cbn [fst].
    destruct (task r) eqn:Htask;
      [lia | | | unfold may_send; simpl; rewrite Htask; lia
       | unfold may_send; simpl; rewrite Htask; lia].
    + destruct (_send_queue (stick r)) as [|frame rest] eqn:Hq;
        [unfold may_send; simpl; rewrite Htask; lia |].
      destruct (take_frame_run frame rest r w) as (w' & -> & _).
      unfold may_send. destruct r as [[] ? ? ?]. simpl. lia.
    + destruct (_ack_event (stick r)) eqn:Hack; [lia |].
      unfold may_send. simpl. rewrite Htask, Hack. lia.
  - destruct (_queue_task (stick r)); [| simpl; lia]. cbn [negb].
    destruct (task r) eqn:Htask; simpl; lia.
  - unfold disconnect_begins, disconnect_ends, may_send.
    destruct r as [[sys devs tr sp q ae qt cn ini] cl t dc]. cbn.
    destruct qt, t, tr, ae; simpl; lia.
  - unfold disconnect_ends, may_send.
    destruct r as [[sys devs tr sp q ae qt cn ini] cl t dc]. cbn.
    destruct t, dc, tr, ae; simpl; lia.
Qed.

Lemma releases_cons e es : releases (e :: es) = releases [e] + releases es.
Proof.
  destruct e as [frame|frame| | | |]; try done. simpl.
  by destruct (is_ack (Bytes frame)) as [[|]|].
Qed.

(** X20.  At most one command is waiting for its ACK.  Over any sequence
    of events, the number of frames the task takes from the queue and
    writes is at most the number of releases (inbound ACK frames and
    elapsed ACK timeouts), plus one if the task was free to send at the
    start: after writing a command the task writes no further command
    until an ACK arrives or the timeout elapses.  The bound holds from
    every state, so an ACK event that is already set when an idle task
    takes a command buys no second command. *)
Theorem one_command_awaits_its_ack (es : list event) : ∀ st : state,
  length (run st es).2
  ≤ releases es + (if may_send st.1 then 1 else 0).
Proof.
  induction es as [|e es IH]; intros st.
  - simpl. lia.
  - rewrite run_cons, releases_cons. cbn [fst snd].
    rewrite length_app.
    pose proof (step_budget st e). pose proof (IH (step st e).1). lia.
Qed.

(** X22.  What releases the next command.  A task that waits for an ACK,
    with the event clear and a command queued, stays suspended when it
    is resumed without cause and when a frame other than an ACK arrives
    (which is acknowledged, not more).  When the timeout elapses, or
    when a 22-byte frame with byte 0 = 0x81 has arrived and the task
    runs again, exactly the head of the queue is taken and written to
    the transport, the event is cleared, and the task waits again. *)
Theorem ack_or_timeout_releases_next_command
    (r : Runtime) (w : World) (frame : bytearray) (rest : list bytearray) :
  _queue_task (stick r) = true → _closing r = false →
  _transport (stick r) = Some SerialTransport →
  task r = InWait → _ack_event (stick r) = false →
  _send_queue (stick r) = frame :: rest →
  let released (final : stretch) :=
    final.2 = [frame] ∧
    trace final.1.2 = trace w ++ [Tx frame] ∧
    _send_queue (stick final.1.1) = rest ∧
    task final.1.1 = InWait ∧ _ack_event (stick final.1.1) = false in
  step (r, w) Wake = ((r, w), []) ∧
  released (step (r, w) AckTimeout) ∧
  (∀ ack, length ack = 22 → ack !! 0 = Some 0x81%Z →
     released (run (r, w) [Inbound ack; Wake])) ∧
  (∀ other kind, length other = 22 → other !! 0 = Some kind →
     kind ≠ 0x81%Z →
     (run (r, w) [Inbound other; Wake]).2 = [] ∧
     _send_queue (stick (run (r, w) [Inbound other; Wake]).1.1)
       = frame :: rest).
Proof.
  intros Hqt Hcl Htr Htask Hack Hq released. subst released.
  assert (Hinbound : ∀ f,
            step (r, w) (Inbound f) =
              ((set_stick (_on_frame_received f (stick r, w)).2.1 r,
                (_on_frame_received f (stick r, w)).2.2), [])).
  { intros f. cbn [step].
    by destruct (_on_frame_received f (stick r, w)) as [res [s' w']]. }
  split; [cbn [step]; by rewrite Hqt, Htask, Hack |].
  split.
  { destruct r as [[sys devs tr sp q ae qt cn ini] cl t dc],
      w as [po rs tc].
    cbn in *. by subst. }
  split.
  - intros ack Hlen H0. rewrite run_cons, Hinbound.
    rewrite (on_frame_received_reacts ack (stick r) w Hlen Htr).
    assert (InboundSpec.is_ack_frame ack = true
            ∧ InboundSpec.reaction ack = []) as [-> ->].
    { clear Hinbound. frame_bytes ack Hlen. by injection H0 as ->. }
    destruct r as [[sys devs tr sp q ae qt cn ini] cl t dc],
      w as [po rs tc].
    cbn in *. subst. cbn. by rewrite !app_nil_r.
  - intros other kind Hlen H0 Hne. rewrite run_cons, Hinbound.
    rewrite (on_frame_received_reacts other (stick r) w Hlen Htr).
    assert (InboundSpec.is_ack_frame other = false) as ->.
    { clear Hinbound. frame_bytes other Hlen. injection H0 as ->.
      by apply Z.eqb_neq. }
    destruct r as [[sys devs tr sp q ae qt cn ini] cl t dc],
      w as [po rs tc].
    cbn in *. by subst.
Qed.

Lemma ack_or_timeout_releases_next_command_witness :
  let up := (0x0D :: 0x01 :: 0x07 :: 0x01 :: replicate 18 0)%Z in
  let stop := (0x0D :: 0x01 :: 0x07 :: 0x02 :: replicate 18 0)%Z in
  let ack := (0x81 :: replicate 21 0)%Z in
  let s := set_queue_task true
             (set_connected true
                (set_transport (Some SerialTransport)
                   (DuoFernStick_init (MkDuoFernId [0x6F; 0x1A; 0x2B]%Z)
                      []))) in
  let final :=
    run (started s, MkWorld true [] [])
      [Command up; Command stop; Wake; Wake; Inbound ack; Wake] in
  final.2 = [up; stop] ∧ trace final.1.2 = [Tx up; Tx stop].
Proof.
  intros up stop ack s final.
  destruct (ack_or_timeout_releases_next_command
              (MkRuntime (set_ack_event false (set_send_queue [stop] s))
                 false InWait false)
              (MkWorld true [] [Tx up]) stop [])
    as (_ & _ & Hack & _); try reflexivity.
  destruct (Hack ack eq_refl eq_refl) as (Hout & Htrace & _).
  split.
  - change final.2 with
      (up :: (run (MkRuntime (set_ack_event false (set_send_queue [stop] s))
                     false InWait false, MkWorld true [] [Tx up])
                [Inbound ack; Wake]).2).
    by rewrite Hout.
  - change (trace final.1.2) with
      (trace (run (MkRuntime (set_ack_event false
                                (set_send_queue [stop] s))
                     false InWait false, MkWorld true [] [Tx up])
                [Inbound ack; Wake]).1.2).
    by rewrite Htrace.
Defined.

(** Once [disconnect] has been called the task takes nothing more. *)
Lemma step_going_down (r : Runtime) w (e : event) :
  cancelling r ∨ shut_down r →
  (cancelling (step (r, w) e).1.1 ∨ shut_down (step (r, w) e).1.1) ∧
  (step (r, w) e).2 = [].
Proof.
  intros Hdown.
  destruct e as [frame|frame| | | |]; cbn [step].
  - unfold send_command, bind, self, update, raise.
    unfold cancelling, shut_down in *.
    destruct r as [[sys devs tr sp q ae qt cn ini] cl t dc]. cbn in *.
    by destruct cn.
  - destruct (on_frame_received_effect frame (stick r) w)
      as (a & fx & Hrun & _).
    destruct (_on_frame_received frame (stick r, w)) as [res [s' w']].
    cbn [fst snd] in *. injection Hrun as -> ->.
    unfold cancelling, shut_down in *.
    by destruct r as [[sys devs tr sp q ae qt cn ini] cl t dc].
  - assert (Hstay : step (r, w) Wake = (r, w, [])).
    { cbn [step].
      destruct Hdown as [(_ & _ & _ & Ht & _) | (_ & _ & [Hno|Ht] & _)];
        rewrite ?Hno, ?Ht; try done; by destruct (_queue_task _). }
    cbn [step] in Hstay. by rewrite Hstay.
  - assert (Hstay : step (r, w) AckTimeout = (r, w, [])).
    { cbn [step].
      destruct Hdown as [(_ & _ & _ & Ht & _) | (_ & _ & [Hno|Ht] & _)];
        rewrite ?Hno, ?Ht; try done; by destruct (_queue_task _). }
    cbn [step] in Hstay. by rewrite Hstay.
  - unfold disconnect_begins, disconnect_ends, cancelling, shut_down in *.
    destruct r as [[sys devs tr sp q ae qt cn ini] cl t dc]. cbn in *.
    destruct Hdown as [(-> & -> & -> & -> & ->)
                      | (-> & -> & Htask & -> & ->)]; [cbn; auto 10 |].
    destruct qt, t; cbn; destruct Htask as [?|?]; try done; auto 10.
  - unfold disconnect_ends, cancelling, shut_down in *.
    destruct r as [[sys devs tr sp q ae qt cn ini] cl t dc]. cbn in *.
    destruct Hdown as [(-> & -> & -> & -> & ->)
                      | (-> & -> & Htask & -> & ->)].
    + destruct tr; cbn; auto 10.
    + destruct qt, t, dc; cbn; destruct Htask as [?|?]; try done; auto 10.
Qed.

(** The end of the cancelled task lets a suspended [disconnect] run to
    its end. *)
Lemma task_ends_shuts_down (r : Runtime) w :
  cancelling r ∨ shut_down r → shut_down (step (r, w) TaskEnds).1.1.
Proof.
  intros Hdown. cbn [step]. unfold disconnect_ends, cancelling, shut_down in *.
  destruct r as [[sys devs tr sp q ae qt cn ini] cl t dc]. cbn in *.
  destruct Hdown as [(-> & -> & -> & -> & ->)
                    | (-> & -> & Htask & -> & ->)].
  - destruct tr; cbn; auto 10.
  - destruct qt, t, dc; cbn; destruct Htask as [?|?]; try done; auto 10.
Qed.

Lemma disconnect_goes_down (r : Runtime) w :
  cancelling (step (r, w) Disconnect).1.1 ∨
  shut_down (step (r, w) Disconnect).1.1.
Proof.
  cbn [step]. unfold disconnect_begins, disconnect_ends, cancelling,
    shut_down.
  destruct r as [[sys devs tr sp q ae qt cn ini] cl t dc]. cbn.
  destruct qt, t, tr; cbn; auto 10.
Qed.

Lemma run_going_down (es : list event) : ∀ r w,
  cancelling r ∨ shut_down r →
  (cancelling (run (r, w) es).1.1 ∨ shut_down (run (r, w) es).1.1) ∧
  (run (r, w) es).2 = [].
Proof.
  induction es as [|e es IH]; intros r w Hdown; [done |].
  rewrite run_cons. cbn [fst snd].
  destruct (step_going_down r w e Hdown) as (Hdown' & Hout).
  destruct (step (r, w) e) as [[r1 w1] out1]. cbn [fst snd] in *.
  destruct (IH r1 w1 Hdown') as [Hdown'' Hout'].
  by rewrite Hout, Hout'.
Qed.

(** Once [disconnect] has returned nothing moves any more. *)
Lemma step_shut_down (r : Runtime) w (e : event) :
  shut_down r →
  shut_down (step (r, w) e).1.1 ∧
  _send_queue (stick (step (r, w) e).1.1) = _send_queue (stick r) ∧
  ∃ frames,
    trace (step (r, w) e).1.2 = trace w ++ (Message <$> frames).
Proof.
  intros Hdown. pose proof Hdown as (Hcl & Hini & Htask & Hcn & Htr).
  destruct e as [frame|frame| | | |]; cbn [step].
  - unfold send_command, bind, self, update, raise. cbn. rewrite Hcn. cbn.
    split; [by destruct r |]. split; [done |].
    exists []. by rewrite app_nil_r.
  - destruct (on_frame_received_effect frame (stick r) w)
      as (a & fx & Hrun & _ & Hfx).
    destruct (_on_frame_received frame (stick r, w)) as [res [s' w']].
    cbn [fst snd] in *. injection Hrun as -> ->.
    destruct r as [[sys devs tr sp q ae qt cn ini] cl t dc].
    unfold shut_down in *. cbn in *. repeat split; try done.
    destruct (Hfx Htr) as [-> | ->]; [by exists [] | by exists [frame]].
  - assert (Hstay : step (r, w) Wake = (r, w, [])).
    { cbn [step]. destruct Htask as [Hno | Hfin].
      - by rewrite Hno.
      - rewrite Hfin. by destruct (_queue_task _). }
    cbn [step] in Hstay. rewrite Hstay. cbn.
    split; [done |]. split; [done |].
    exists []. by rewrite app_nil_r.
  - assert (Hstay : step (r, w) AckTimeout = (r, w, [])).
    { cbn [step]. destruct Htask as [Hno | Hfin].
      - by rewrite Hno.
      - rewrite Hfin. by destruct (_queue_task _). }
    cbn [step] in Hstay. rewrite Hstay. cbn.
    split; [done |]. split; [done |].
    exists []. by rewrite app_nil_r.
  - unfold disconnect_begins, disconnect_ends, shut_down in *.
    destruct r as [[sys devs tr sp q ae qt cn ini] cl t dc]. cbn in *.
    subst. clear Hdown.
    destruct qt, t; cbn; destruct Htask as [?|?]; try done;
      (split; [auto 10 |]); (split; [done |]);
      exists []; cbn; by rewrite app_nil_r.
  - unfold disconnect_ends, shut_down in *.
    destruct r as [[sys devs tr sp q ae qt cn ini] cl t dc]. cbn in *.
    subst. clear Hdown.
    destruct qt, t, dc; cbn; destruct Htask as [?|?]; try done;
      (split; [auto 10 |]); (split; [done |]);
      exists []; cbn; by rewrite app_nil_r.
Qed.

Lemma run_shut_down (es : list event) : ∀ r w,
  shut_down r →
  shut_down (run (r, w) es).1.1 ∧
  _send_queue (stick (run (r, w) es).1.1) = _send_queue (stick r) ∧
  ∃ frames, trace (run (r, w) es).1.2 = trace w ++ (Message <$> frames).
Proof.
  induction es as [|e es IH]; intros r w Hdown.
  - cbn [run fst snd]. split; [done |]. split; [done |].
    exists []. by rewrite app_nil_r.
  - rewrite run_cons. cbn [fst snd].
    destruct (step_shut_down r w e Hdown) as (Hdown' & Hq & frames & Ht).
    destruct (step (r, w) e) as [[r1 w1] out1]. cbn [fst snd] in *.
    destruct (IH r1 w1 Hdown') as (Hdown'' & Hq' & fs & Ht').
    split; [done |]. split; [by rewrite Hq' |].
    exists (frames ++ fs). by rewrite Ht', Ht, fmap_app, app_assoc.
Qed.

(** X21.  [disconnect] silences the stick, whatever state it was in and
    whatever else happens.  From the moment [disconnect] is called the
    task takes no further frame from the queue, so the commands still
    queued are never written.  [disconnect] returns at once when there
    is no task to wait for, and otherwise when the cancelled task has
    ended; from then on nothing at all is written to the transport, not
    even the ACK for an inbound frame, which can still reach the message
    callback; the queue keeps its frames; every further command is
    refused with [ConnectionError]; and the stick stays disconnected. *)
Theorem disconnect_silences_the_stick
    (st : state) (before after : list event) :
  let called := (step st Disconnect).1 in
  let waiting := run called before in
  let returned := (step waiting.1 TaskEnds).1 in
  let final := run returned after in
  waiting.2 = [] ∧ final.2 = [] ∧
  _send_queue (stick final.1.1) = _send_queue (stick returned.1) ∧
  (∃ frames,
     trace final.1.2 = trace returned.2 ++ (Message <$> frames)) ∧
  connected (stick final.1.1) = false ∧
  _transport (stick final.1.1) = None ∧
  ∀ frame,
    send_command frame (stick final.1.1, final.1.2)
    = (Raise Py.ConnectionError, (stick final.1.1, final.1.2)).
Proof.
  intros called waiting returned final.
  destruct st as [r w].
  pose proof (disconnect_goes_down r w) as Hcalled. fold called in Hcalled.
  destruct called as [r1 w1]. cbn [fst] in Hcalled.
  destruct (run_going_down before r1 w1 Hcalled) as [Hwaiting Hnone].
  fold waiting in Hwaiting, Hnone.
  destruct waiting as [[r2 w2] out2]. cbn [fst snd] in *.
  pose proof (task_ends_shuts_down r2 w2 Hwaiting) as Hdown.
  fold returned in Hdown.
  destruct returned as [r3 w3]. cbn [fst snd] in *.
  destruct (run_shut_down after r3 w3 Hdown) as (Hfinal & Hq & Htrace).
  destruct (run_going_down after r3 w3 (or_intror Hdown)) as [_ Hnone'].
  fold final in Hfinal, Hq, Htrace, Hnone'.
  destruct Hfinal as (Hcl & Hini & Htask & Hcn & Htr).
  split; [done |]. split; [done |]. split; [done |]. split; [done |].
  split; [unfold connected; by rewrite Hcn |]. split; [done |].
  intros frame. unfold send_command, bind, self, raise. cbn.
  by rewrite Hcn.
Qed.

End SendQueueFacts.
